(** * A shallow embedding of the grocery e-commerce back end

    The development follows the repository file by file:

    - [drizzle/schema.ts]: the row types of the persistent store;
    - [server/db.ts]: the access layer, one function per query;
    - [server/routers.ts]: the tRPC procedures, each forwarding to one
      access-layer function;
    - [app/(tabs)/index.tsx]: the price helper of the home screen.

    Asynchronous functions are embedded in a state-and-exception monad over
    a [World] holding the module-level database handle, the process
    environment, the clock and the console.  Integer columns are [Z];
    nullable columns and optional inputs are [option]; timestamps are
    milliseconds since the epoch, as [Date] compares them; the numbers of
    the price helper are binary64 floating-point values. *)

From Stdlib Require Import ZArith List String Bool Lia Floats DecimalString.
Import ListNotations.

Open Scope string_scope.
Open Scope list_scope.
Open Scope Z_scope.

(** ** JavaScript values *)

Module Js.

  (** [if (n)] on a number: zero is falsy. *)
Definition truthy_num (n : Z) : bool := negb (n =? 0).

  (** [if (x)] on a nullable number: [null], [undefined] and [0] are falsy. *)
Definition truthy_opt_num (x : option Z) : bool :=
    match x with
    | Some n => truthy_num n
    | None => false
    end.

  (** [if (s)] on a string: the empty string is falsy. *)
Definition truthy_string (s : string) : bool :=
    match s with
    | EmptyString => false
    | String _ _ => true
    end.

  (** [if (b)] on a nullable boolean. *)
Definition truthy_opt_bool (x : option bool) : bool :=
    match x with
    | Some b => b
    | None => false
    end.

  (** [x || d] on a nullable number. *)
Definition or_num (x : option Z) (d : Z) : Z :=
    match x with
    | Some n => if truthy_num n then n else d
    | None => d
    end.

  (** A property of an object literal: missing ([undefined]), [null], or a
      value. *)
Inductive field (A : Type) : Type :=
  | Undefined
  | Null
  | Val (a : A).
Arguments Undefined {A}.
Arguments Null {A}.
Arguments Val {A} a.

  (** Decimal rendering of an integer inside a template literal. *)
Definition show (n : Z) : string := NilZero.string_of_int (Z.to_int n).

End Js.

(** ** drizzle/schema.ts

    One module per table; the record fields carry the column names.  The
    columns [createdAt], [updatedAt] and [addedAt] are maintained by the
    database itself and never read or written by the access layer: they are
    left out. *)

Inductive Role := role_user | role_admin.
Inductive AddressType := addr_home | addr_work | addr_other.
Inductive OrderStatus :=
  pending | confirmed | processing | shipped | delivered | cancelled.
Inductive PaymentMethod := credit_card | debit_card | upi | wallet | cod.
Inductive PaymentStatus := pay_pending | pay_completed | pay_failed.
Inductive DiscountType := percentage | fixed.

Definition OrderStatus_eqb (a b : OrderStatus) : bool :=
  match a, b with
  | pending, pending | confirmed, confirmed | processing, processing
  | shipped, shipped | delivered, delivered | cancelled, cancelled => true
  | _, _ => false
  end.

Module User.
Record t := mk {
    id : Z;
    openId : string;
    name : option string;
    email : option string;
    loginMethod : option string;
    role : Role;
    lastSignedIn : Z
  }.
End User.

Module Category.
Record t := mk {
    id : Z;
    name : string;
    description : option string;
    imageUrl : option string;
    slug : string;
    isActive : bool
  }.
End Category.

Module Product.
Record t := mk {
    id : Z;
    categoryId : Z;
    name : string;
    description : option string;
    price : Z;
    originalPrice : option Z;
    discountPercentage : option Z;
    imageUrl : option string;
    images : option string;
    sku : option string;
    stock : Z;
    rating : option Z;
    reviewCount : option Z;
    isActive : bool;
    isFeatured : option bool
  }.
End Product.

Module Review.
Record t := mk {
    id : Z;
    productId : Z;
    userId : Z;
    rating : Z;
    title : option string;
    comment : option string;
    isVerified : option bool
  }.
End Review.

Module Address.
Record t := mk {
    id : Z;
    userId : Z;
    type : option AddressType;
    fullName : string;
    phoneNumber : string;
    addressLine1 : string;
    addressLine2 : option string;
    city : string;
    state : string;
    postalCode : string;
    country : option string;
    isDefault : option bool
  }.
End Address.

Module CartItem.
Record t := mk {
    id : Z;
    userId : Z;
    productId : Z;
    quantity : Z
  }.
End CartItem.

Module WishlistItem.
Record t := mk {
    id : Z;
    userId : Z;
    productId : Z
  }.
End WishlistItem.

Module Order.
Record t := mk {
    id : Z;
    userId : Z;
    orderNumber : string;
    addressId : Z;
    subtotal : Z;
    discountAmount : option Z;
    deliveryCharge : option Z;
    totalAmount : Z;
    status : option OrderStatus;
    paymentMethod : option PaymentMethod;
    paymentStatus : option PaymentStatus;
    paymentId : option string;
    couponCode : option string;
    estimatedDeliveryDate : option Z;
    deliveryOtp : option string;
    deliveryOtpExpiry : option Z;
    deliveryOtpVerified : option bool;
    notes : option string
  }.
End Order.

Module OrderItem.
Record t := mk {
    id : Z;
    orderId : Z;
    productId : Z;
    productName : string;
    productImage : option string;
    quantity : Z;
    price : Z
  }.
End OrderItem.

Module Coupon.
Record t := mk {
    id : Z;
    code : string;
    description : option string;
    discountType : DiscountType;
    discountValue : Z;
    minOrderAmount : option Z;
    maxDiscount : option Z;
    usageLimit : option Z;
    usageCount : option Z;
    expiryDate : option Z;
    isActive : option bool
  }.
End Coupon.

Module Banner.
Record t := mk {
    id : Z;
    title : string;
    description : option string;
    imageUrl : string;
    link : option string;
    position : option Z;
    isActive : option bool;
    startDate : option Z;
    endDate : option Z
  }.
End Banner.

(** ** The query builder

    A table is its rows in storage order together with the auto-increment
    counter.  [select], [update] and [delete] take the predicate of their
    [where] clause. *)

Module Table.

Record t (R : Type) := mk { rows : list R; autoIncrement : Z }.
Arguments mk {R} rows autoIncrement.
Arguments rows {R} _.
Arguments autoIncrement {R} _.

Section Ops.
Context {R : Type}.

Definition select (p : R -> bool) (tb : t R) : list R :=
      filter p (rows tb).

Definition delete (p : R -> bool) (tb : t R) : t R :=
      mk (filter (fun r => negb (p r)) (rows tb)) (autoIncrement tb).

Definition update (p : R -> bool) (f : R -> R) (tb : t R) : t R :=
      mk (map (fun r => if p r then f r else r) (rows tb)) (autoIncrement tb).

    (** [insert] hands the fresh identifier to the row builder and reports
        it as [insertId]. *)
Definition insert (build : Z -> R) (tb : t R) : t R * Z :=
      let fresh := autoIncrement tb in
      (mk (rows tb ++ [build fresh]) (fresh + 1), fresh).

    (** [.limit(n)] and [.offset(n)] on a result set. *)
Definition limit (n : N) (l : list R) : list R := firstn (N.to_nat n) l.
Definition offset (n : N) (l : list R) : list R := skipn (N.to_nat n) l.

    (** [result.length > 0 ? result[0] : undefined] *)
Definition first (l : list R) : option R := hd_error l.

End Ops.

End Table.

Record Store := mkStore {
  users : Table.t User.t;
  categories : Table.t Category.t;
  products : Table.t Product.t;
  cartItems : Table.t CartItem.t;
  wishlistItems : Table.t WishlistItem.t;
  addresses : Table.t Address.t;
  orders : Table.t Order.t;
  orderItems : Table.t OrderItem.t;
  reviews : Table.t Review.t;
  coupons : Table.t Coupon.t;
  banners : Table.t Banner.t
}.

Definition with_users (x : Table.t User.t) (s : Store) : Store :=
  mkStore x (categories s) (products s) (cartItems s) (wishlistItems s)
          (addresses s) (orders s) (orderItems s) (reviews s) (coupons s) (banners s).
Definition with_cartItems (x : Table.t CartItem.t) (s : Store) : Store :=
  mkStore (users s) (categories s) (products s) x (wishlistItems s)
          (addresses s) (orders s) (orderItems s) (reviews s) (coupons s) (banners s).
Definition with_wishlistItems (x : Table.t WishlistItem.t) (s : Store) : Store :=
  mkStore (users s) (categories s) (products s) (cartItems s) x
          (addresses s) (orders s) (orderItems s) (reviews s) (coupons s) (banners s).
Definition with_addresses (x : Table.t Address.t) (s : Store) : Store :=
  mkStore (users s) (categories s) (products s) (cartItems s) (wishlistItems s)
          x (orders s) (orderItems s) (reviews s) (coupons s) (banners s).
Definition with_orders (x : Table.t Order.t) (s : Store) : Store :=
  mkStore (users s) (categories s) (products s) (cartItems s) (wishlistItems s)
          (addresses s) x (orderItems s) (reviews s) (coupons s) (banners s).
Definition with_orderItems (x : Table.t OrderItem.t) (s : Store) : Store :=
  mkStore (users s) (categories s) (products s) (cartItems s) (wishlistItems s)
          (addresses s) (orders s) x (reviews s) (coupons s) (banners s).
Definition with_reviews (x : Table.t Review.t) (s : Store) : Store :=
  mkStore (users s) (categories s) (products s) (cartItems s) (wishlistItems s)
          (addresses s) (orders s) (orderItems s) x (coupons s) (banners s).

(** ** The world an access function runs in *)

(** What [drizzle(process.env.DATABASE_URL)] would do: the variable is
    unset, the call throws, or it yields a handle on a store. *)
Inductive DatabaseUrl :=
| Unset
| Unreachable
| Reachable (s : Store).

Record World := mkWorld {
  _db : option Store;            (* the module-level handle, [null] at start *)
  DATABASE_URL : DatabaseUrl;    (* process.env.DATABASE_URL *)
  ownerOpenId : string;          (* ENV.ownerOpenId *)
  clock : Z;                     (* what [new Date()] and [Date.now()] read *)
  entropy : string;              (* Math.random().toString(36).substr(2, 9) *)
  console : list string          (* lines written by console.warn / console.error *)
}.

Definition set_db (h : option Store) (w : World) : World :=
  mkWorld h (DATABASE_URL w) (ownerOpenId w) (clock w) (entropy w) (console w).

Definition log (line : string) (w : World) : World :=
  mkWorld (_db w) (DATABASE_URL w) (ownerOpenId w) (clock w) (entropy w)
          (console w ++ [line]).

(** The result of awaiting a promise: it resolves with a value or rejects
    with an error; either way the world may have changed. *)
Inductive Outcome (A : Type) : Type :=
| Resolved (a : A) (w : World)
| Rejected (message : string) (w : World).
Arguments Resolved {A} a w.
Arguments Rejected {A} message w.

Definition Async (A : Type) : Type := World -> Outcome A.

Definition ret {A} (a : A) : Async A := fun w => Resolved a w.

Definition throw {A} (message : string) : Async A := fun w => Rejected message w.

Definition bind {A B} (c : Async A) (k : A -> Async B) : Async B :=
  fun w =>
    match c w with
    | Resolved a w' => k a w'
    | Rejected m w' => Rejected m w'
    end.

Notation "x <- c ;; k" := (bind c (fun x => k))
  (at level 61, c at next level, right associativity).
Notation "c ;;; k" := (bind c (fun _ => k))
  (at level 61, right associativity).

Definition console_warn (line : string) : Async unit :=
  fun w => Resolved tt (log line w).

Definition console_error (line : string) : Async unit :=
  fun w => Resolved tt (log line w).

Definition now : Async Z := fun w => Resolved (clock w) w.

Definition random_suffix : Async string := fun w => Resolved (entropy w) w.

(** A write through the handle: the store behind it is replaced. *)
Definition commit (s : Store) : Async unit :=
  fun w => Resolved tt (set_db (Some s) w).

Definition world_of {A} (o : Outcome A) : World :=
  match o with
  | Resolved _ w => w
  | Rejected _ w => w
  end.

(** ** SQL comparisons used in [where] clauses *)

Module Sql.

(** [eq(column, true)] on a nullable boolean column: [NULL = true] selects
    nothing. *)
Definition is_true (x : option bool) : bool :=
  match x with
  | Some b => b
  | None => false
  end.

(** A select with its optional [.limit(n)] and [.offset(n)] clauses. *)
Record query (R : Type) := mkQuery {
  matched : list R;
  limit_clause : option N;
  offset_clause : option N
}.
Arguments mkQuery {R} matched limit_clause offset_clause.
Arguments matched {R} _.
Arguments limit_clause {R} _.
Arguments offset_clause {R} _.

Definition from {R} (l : list R) : query R := mkQuery l None None.

Definition limit {R} (n : N) (q : query R) : query R :=
  mkQuery (matched q) (Some n) (offset_clause q).

Definition offset {R} (n : N) (q : query R) : query R :=
  mkQuery (matched q) (limit_clause q) (Some n).

(** What the server answers to the statement built from a query.  MySQL
    has no [OFFSET] without [LIMIT]: for a query with an offset clause and
    no limit clause the builder emits [... offset ?], which the server
    refuses.  Otherwise the offset is applied before the limit, whatever
    the order in which the clauses were added. *)
Definition execute {R} (q : query R) : option (list R) :=
  match limit_clause q, offset_clause q with
  | None, None => Some (matched q)
  | Some n, None => Some (Table.limit n (matched q))
  | Some n, Some m => Some (Table.limit n (Table.offset m (matched q)))
  | None, Some _ => None
  end.

(** [await query]: the rows, or the server's error. *)
Definition await {R} (q : query R) : Async (list R) :=
  match execute q with
  | Some result => ret result
  | None => throw "ER_PARSE_ERROR"
  end.

End Sql.

(** ** server/db.ts *)

Module db.

(** [getDb]: the handle is created on first use when [DATABASE_URL] is set;
    a failure to create it is logged and leaves the handle [null]. *)
Definition getDb : Async (option Store) :=
  fun w =>
    match _db w with
    | Some s => Resolved (Some s) w
    | None =>
        match DATABASE_URL w with
        | Unset => Resolved None w
        | Unreachable =>
            Resolved None (set_db None (log "[Database] Failed to connect:" w))
        | Reachable s => Resolved (Some s) (set_db (Some s) w)
        end
    end.

(** *** Users *)

Record InsertUser := mkInsertUser {
  iu_openId : string;
  iu_name : Js.field string;
  iu_email : Js.field string;
  iu_loginMethod : Js.field string;
  iu_lastSignedIn : option Z;
  iu_role : option Role
}.

(** The [values] object and the [updateSet] object built by [upsertUser]:
    a property is either absent or holds a (possibly [null]) value. *)
Record UserAssignments := mkAssign {
  a_name : option (option string);
  a_email : option (option string);
  a_loginMethod : option (option string);
  a_lastSignedIn : option Z;
  a_role : option Role
}.

(** [assignNullable]: an undefined property is skipped, otherwise
    [value ?? null] is stored. *)
Definition assignNullable (value : Js.field string) : option (option string) :=
  match value with
  | Js.Undefined => None
  | Js.Null => Some None
  | Js.Val s => Some (Some s)
  end.

(** [Object.keys(updateSet).length === 0] *)
Definition no_keys (a : UserAssignments) : bool :=
  match a_name a, a_email a, a_loginMethod a, a_lastSignedIn a, a_role a with
  | None, None, None, None, None => true
  | _, _, _, _, _ => false
  end.

Definition or_else {A} (x : option A) (d : A) : A :=
  match x with
  | Some a => a
  | None => d
  end.

(** The row inserted from [values]; columns not mentioned take their schema
    default ([lastSignedIn] is always mentioned: [upsertUser] fills it in). *)
Definition user_of_values (openId : string) (v : UserAssignments) (fresh : Z) : User.t :=
  User.mk fresh openId
          (or_else (a_name v) None)
          (or_else (a_email v) None)
          (or_else (a_loginMethod v) None)
          (or_else (a_role v) role_user)
          (or_else (a_lastSignedIn v) 0).

(** [onDuplicateKeyUpdate({ set })] applied to the existing row. *)
Definition apply_updateSet (u : UserAssignments) (r : User.t) : User.t :=
  User.mk (User.id r) (User.openId r)
          (or_else (a_name u) (User.name r))
          (or_else (a_email u) (User.email r))
          (or_else (a_loginMethod u) (User.loginMethod r))
          (or_else (a_role u) (User.role r))
          (or_else (a_lastSignedIn u) (User.lastSignedIn r)).

Definition insert_onDuplicateKeyUpdate
  (openId : string) (values updateSet : UserAssignments) (tb : Table.t User.t)
  : Table.t User.t :=
  let same := fun r => String.eqb (User.openId r) openId in
  if existsb same (Table.rows tb)
  then Table.update same (apply_updateSet updateSet) tb
  else fst (Table.insert (user_of_values openId values) tb).

(** The [try]/[catch] around the statement logs and rethrows what the
    driver throws; the insert itself is taken to succeed. *)
Definition upsertUser (user : InsertUser) : Async unit :=
  if negb (Js.truthy_string (iu_openId user))
  then throw "User openId is required for upsert"
  else
    h <- getDb ;;
    match h with
    | None =>
        console_warn "[Database] Cannot upsert user: database not available" ;;;
        ret tt
    | Some s =>
        owner <- (fun w => Resolved (ownerOpenId w) w) ;;
        let role :=
          match iu_role user with
          | Some r => Some r
          | None => if String.eqb (iu_openId user) owner then Some role_admin else None
          end in
        let assigned :=
          mkAssign (assignNullable (iu_name user))
                   (assignNullable (iu_email user))
                   (assignNullable (iu_loginMethod user))
                   (iu_lastSignedIn user)
                   role in
        t <- now ;;
        let values :=
          match a_lastSignedIn assigned with
          | Some _ => assigned
          | None => mkAssign (a_name assigned) (a_email assigned)
                             (a_loginMethod assigned) (Some t) (a_role assigned)
          end in
        let updateSet :=
          if no_keys assigned
          then mkAssign None None None (Some t) None
          else assigned in
        commit (with_users
                  (insert_onDuplicateKeyUpdate (iu_openId user) values updateSet (users s))
                  s)
    end.

Definition getUserByOpenId (openId : string) : Async (option User.t) :=
  h <- getDb ;;
  match h with
  | None =>
      console_warn "[Database] Cannot get user: database not available" ;;;
      ret None
  | Some s =>
      ret (Table.first
             (Table.limit 1
                (Table.select (fun r => String.eqb (User.openId r) openId) (users s))))
  end.

(** *** Categories *)

Definition getCategories : Async (list Category.t) :=
  h <- getDb ;;
  match h with
  | None => ret []
  | Some s => ret (Table.select Category.isActive (categories s))
  end.

Definition getCategoryBySlug (slug : string) : Async (option Category.t) :=
  h <- getDb ;;
  match h with
  | None => ret None
  | Some s =>
      ret (Table.first
             (Table.limit 1
                (Table.select (fun r => String.eqb (Category.slug r) slug) (categories s))))
  end.

(** *** Products *)

(** [if (limit) query = query.limit(limit)] and the same for [offset]: an
    absent or zero argument adds no clause. *)
Definition paginate {R} (limit offset : option N) (q : Sql.query R) : Sql.query R :=
  let q1 :=
    match limit with
    | Some n => if (n =? 0)%N then q else Sql.limit n q
    | None => q
    end in
  match offset with
  | Some n => if (n =? 0)%N then q1 else Sql.offset n q1
  | None => q1
  end.

Definition getProducts (limit offset : option N) : Async (list Product.t) :=
  h <- getDb ;;
  match h with
  | None => ret []
  | Some s =>
      let query := Sql.from (Table.select Product.isActive (products s)) in
      Sql.await (paginate limit offset query)
  end.

Definition getProductsByCategory (categoryId : Z) (limit offset : option N)
  : Async (list Product.t) :=
  h <- getDb ;;
  match h with
  | None => ret []
  | Some s =>
      let query :=
        Sql.from (Table.select (fun r => Product.categoryId r =? categoryId) (products s)) in
      Sql.await (paginate limit offset query)
  end.

Definition getProductById (id : Z) : Async (option Product.t) :=
  h <- getDb ;;
  match h with
  | None => ret None
  | Some s =>
      ret (Table.first
             (Table.limit 1 (Table.select (fun r => Product.id r =? id) (products s))))
  end.

Definition getFeaturedProducts (limit : N) : Async (list Product.t) :=
  h <- getDb ;;
  match h with
  | None => ret []
  | Some s =>
      ret (Table.limit limit
             (Table.select (fun r => Sql.is_true (Product.isFeatured r)) (products s)))
  end.

(** *** Cart *)

Definition getCartItems (userId : Z) : Async (list CartItem.t) :=
  h <- getDb ;;
  match h with
  | None => ret []
  | Some s => ret (Table.select (fun r => CartItem.userId r =? userId) (cartItems s))
  end.

Definition addToCart (userId productId quantity : Z) : Async Z :=
  h <- getDb ;;
  match h with
  | None => throw "Database not available"
  | Some s =>
      let '(tb, insertId) :=
        Table.insert (fun fresh => CartItem.mk fresh userId productId quantity)
                     (cartItems s) in
      commit (with_cartItems tb s) ;;;
      ret (Js.or_num (Some insertId) 0)
  end.

Definition updateCartItem (id quantity : Z) : Async unit :=
  h <- getDb ;;
  match h with
  | None => throw "Database not available"
  | Some s =>
      commit (with_cartItems
                (Table.update (fun r => CartItem.id r =? id)
                   (fun r => CartItem.mk (CartItem.id r) (CartItem.userId r)
                                         (CartItem.productId r) quantity)
                   (cartItems s))
                s)
  end.

Definition removeFromCart (id : Z) : Async unit :=
  h <- getDb ;;
  match h with
  | None => throw "Database not available"
  | Some s =>
      commit (with_cartItems
                (Table.delete (fun r => CartItem.id r =? id) (cartItems s)) s)
  end.

Definition clearCart (userId : Z) : Async unit :=
  h <- getDb ;;
  match h with
  | None => throw "Database not available"
  | Some s =>
      commit (with_cartItems
                (Table.delete (fun r => CartItem.userId r =? userId) (cartItems s)) s)
  end.

(** *** Wishlist *)

Definition getWishlistItems (userId : Z) : Async (list WishlistItem.t) :=
  h <- getDb ;;
  match h with
  | None => ret []
  | Some s =>
      ret (Table.select (fun r => WishlistItem.userId r =? userId) (wishlistItems s))
  end.

Definition addToWishlist (userId productId : Z) : Async Z :=
  h <- getDb ;;
  match h with
  | None => throw "Database not available"
  | Some s =>
      let '(tb, insertId) :=
        Table.insert (fun fresh => WishlistItem.mk fresh userId productId)
                     (wishlistItems s) in
      commit (with_wishlistItems tb s) ;;;
      ret (Js.or_num (Some insertId) 0)
  end.

(** The [productId] argument does not occur in the [where] clause. *)
Definition removeFromWishlist (userId productId : Z) : Async unit :=
  h <- getDb ;;
  match h with
  | None => throw "Database not available"
  | Some s =>
      commit (with_wishlistItems
                (Table.delete (fun r => WishlistItem.userId r =? userId)
                              (wishlistItems s))
                s)
  end.

(** *** Addresses *)

(** The object [addresses.add] passes as [data]. *)
Record AddressData := mkAddressData {
  ad_userId : Z;
  ad_type : AddressType;
  ad_fullName : string;
  ad_phoneNumber : string;
  ad_addressLine1 : string;
  ad_addressLine2 : option string;
  ad_city : string;
  ad_state : string;
  ad_postalCode : string;
  ad_isDefault : option bool
}.

(** The partial object [addresses.update] passes as [data]. *)
Record AddressPatch := mkAddressPatch {
  ap_type : option AddressType;
  ap_fullName : option string;
  ap_phoneNumber : option string;
  ap_addressLine1 : option string;
  ap_addressLine2 : option string;
  ap_city : option string;
  ap_state : option string;
  ap_postalCode : option string;
  ap_isDefault : option bool
}.

Definition keep {A} (new : option A) (old : option A) : option A :=
  match new with
  | Some a => Some a
  | None => old
  end.

Definition address_of_data (d : AddressData) (fresh : Z) : Address.t :=
  Address.mk fresh (ad_userId d) (Some (ad_type d)) (ad_fullName d)
             (ad_phoneNumber d) (ad_addressLine1 d) (ad_addressLine2 d)
             (ad_city d) (ad_state d) (ad_postalCode d) (Some "India")
             (Some (or_else (ad_isDefault d) false)).

Definition patch_address (p : AddressPatch) (r : Address.t) : Address.t :=
  Address.mk (Address.id r) (Address.userId r)
             (keep (ap_type p) (Address.type r))
             (or_else (ap_fullName p) (Address.fullName r))
             (or_else (ap_phoneNumber p) (Address.phoneNumber r))
             (or_else (ap_addressLine1 p) (Address.addressLine1 r))
             (keep (ap_addressLine2 p) (Address.addressLine2 r))
             (or_else (ap_city p) (Address.city r))
             (or_else (ap_state p) (Address.state r))
             (or_else (ap_postalCode p) (Address.postalCode r))
             (Address.country r)
             (keep (ap_isDefault p) (Address.isDefault r)).

Definition getUserAddresses (userId : Z) : Async (list Address.t) :=
  h <- getDb ;;
  match h with
  | None => ret []
  | Some s => ret (Table.select (fun r => Address.userId r =? userId) (addresses s))
  end.

Definition addAddress (data : AddressData) : Async Z :=
  h <- getDb ;;
  match h with
  | None => throw "Database not available"
  | Some s =>
      let '(tb, insertId) := Table.insert (address_of_data data) (addresses s) in
      commit (with_addresses tb s) ;;;
      ret (Js.or_num (Some insertId) 0)
  end.

(** [.set(data)] on an object without any defined property: the query
    builder throws before a statement is sent. *)
Definition no_values (p : AddressPatch) : bool :=
  match ap_type p, ap_fullName p, ap_phoneNumber p, ap_addressLine1 p,
        ap_addressLine2 p, ap_city p, ap_state p, ap_postalCode p,
        ap_isDefault p with
  | None, None, None, None, None, None, None, None, None => true
  | _, _, _, _, _, _, _, _, _ => false
  end.

Definition updateAddress (id : Z) (data : AddressPatch) : Async unit :=
  h <- getDb ;;
  match h with
  | None => throw "Database not available"
  | Some s =>
      if no_values data
      then throw "No values to set"
      else
        commit (with_addresses
                  (Table.update (fun r => Address.id r =? id) (patch_address data)
                                (addresses s))
                  s)
  end.

Definition deleteAddress (id : Z) : Async unit :=
  h <- getDb ;;
  match h with
  | None => throw "Database not available"
  | Some s =>
      commit (with_addresses
                (Table.delete (fun r => Address.id r =? id) (addresses s)) s)
  end.

(** *** Orders *)

(** The object [orders.create] passes as [data]. *)
Record OrderData := mkOrderData {
  od_addressId : Z;
  od_subtotal : Z;
  od_discountAmount : option Z;
  od_deliveryCharge : option Z;
  od_totalAmount : Z;
  od_paymentMethod : PaymentMethod;
  od_couponCode : option string;
  od_notes : option string;
  od_userId : Z;
  od_orderNumber : string;
  od_paymentStatus : PaymentStatus;
  od_status : OrderStatus
}.

(** The inserted row: the columns [discountAmount] and [deliveryCharge]
    default to 0 and [deliveryOtpVerified] to false; the other columns that
    [data] does not mention are [NULL]. *)
Definition order_of_data (d : OrderData) (fresh : Z) : Order.t :=
  Order.mk fresh (od_userId d) (od_orderNumber d) (od_addressId d)
           (od_subtotal d)
           (Some (or_else (od_discountAmount d) 0))
           (Some (or_else (od_deliveryCharge d) 0))
           (od_totalAmount d)
           (Some (od_status d))
           (Some (od_paymentMethod d))
           (Some (od_paymentStatus d))
           None
           (od_couponCode d)
           None None None (Some false)
           (od_notes d).

Definition set_status (st : OrderStatus) (r : Order.t) : Order.t :=
  Order.mk (Order.id r) (Order.userId r) (Order.orderNumber r) (Order.addressId r)
           (Order.subtotal r) (Order.discountAmount r) (Order.deliveryCharge r)
           (Order.totalAmount r) (Some st) (Order.paymentMethod r)
           (Order.paymentStatus r) (Order.paymentId r) (Order.couponCode r)
           (Order.estimatedDeliveryDate r) (Order.deliveryOtp r)
           (Order.deliveryOtpExpiry r) (Order.deliveryOtpVerified r) (Order.notes r).

(** [updateData]: [paymentStatus] always, [paymentId] only when it was
    added to the object. *)
Definition set_payment (ps : PaymentStatus) (pid : option string) (r : Order.t) : Order.t :=
  Order.mk (Order.id r) (Order.userId r) (Order.orderNumber r) (Order.addressId r)
           (Order.subtotal r) (Order.discountAmount r) (Order.deliveryCharge r)
           (Order.totalAmount r) (Order.status r) (Order.paymentMethod r)
           (Some ps) (keep pid (Order.paymentId r)) (Order.couponCode r)
           (Order.estimatedDeliveryDate r) (Order.deliveryOtp r)
           (Order.deliveryOtpExpiry r) (Order.deliveryOtpVerified r) (Order.notes r).

Definition createOrder (data : OrderData) : Async Z :=
  h <- getDb ;;
  match h with
  | None => throw "Database not available"
  | Some s =>
      let '(tb, insertId) := Table.insert (order_of_data data) (orders s) in
      commit (with_orders tb s) ;;;
      ret (Js.or_num (Some insertId) 0)
  end.

Definition getOrderById (id : Z) : Async (option Order.t) :=
  h <- getDb ;;
  match h with
  | None => ret None
  | Some s =>
      ret (Table.first
             (Table.limit 1 (Table.select (fun r => Order.id r =? id) (orders s))))
  end.

Definition getUserOrders (userId : Z) : Async (list Order.t) :=
  h <- getDb ;;
  match h with
  | None => ret []
  | Some s => ret (Table.select (fun r => Order.userId r =? userId) (orders s))
  end.

Definition updateOrderStatus (id : Z) (status : OrderStatus) : Async unit :=
  h <- getDb ;;
  match h with
  | None => throw "Database not available"
  | Some s =>
      commit (with_orders
                (Table.update (fun r => Order.id r =? id) (set_status status) (orders s))
                s)
  end.

Definition updatePaymentStatus (id : Z) (paymentStatus : PaymentStatus)
  (paymentId : option string) : Async unit :=
  h <- getDb ;;
  match h with
  | None => throw "Database not available"
  | Some s =>
      let pid :=
        match paymentId with
        | Some p => if Js.truthy_string p then Some p else None
        | None => None
        end in
      commit (with_orders
                (Table.update (fun r => Order.id r =? id)
                              (set_payment paymentStatus pid) (orders s))
                s)
  end.

(** *** Order items *)

Record OrderItemData := mkOrderItemData {
  oi_orderId : Z;
  oi_productId : Z;
  oi_productName : string;
  oi_productImage : option string;
  oi_quantity : Z;
  oi_price : Z
}.

Definition createOrderItem (data : OrderItemData) : Async Z :=
  h <- getDb ;;
  match h with
  | None => throw "Database not available"
  | Some s =>
      let '(tb, insertId) :=
        Table.insert
          (fun fresh =>
             OrderItem.mk fresh (oi_orderId data) (oi_productId data)
                          (oi_productName data) (oi_productImage data)
                          (oi_quantity data) (oi_price data))
          (orderItems s) in
      commit (with_orderItems tb s) ;;;
      ret (Js.or_num (Some insertId) 0)
  end.

Definition getOrderItems (orderId : Z) : Async (list OrderItem.t) :=
  h <- getDb ;;
  match h with
  | None => ret []
  | Some s => ret (Table.select (fun r => OrderItem.orderId r =? orderId) (orderItems s))
  end.

(** *** Reviews *)

Record ReviewData := mkReviewData {
  rd_productId : Z;
  rd_rating : Z;
  rd_title : option string;
  rd_comment : option string;
  rd_userId : Z;
  rd_isVerified : bool
}.

Definition getProductReviews (productId : Z) : Async (list Review.t) :=
  h <- getDb ;;
  match h with
  | None => ret []
  | Some s => ret (Table.select (fun r => Review.productId r =? productId) (reviews s))
  end.

Definition createReview (data : ReviewData) : Async Z :=
  h <- getDb ;;
  match h with
  | None => throw "Database not available"
  | Some s =>
      let '(tb, insertId) :=
        Table.insert
          (fun fresh =>
             Review.mk fresh (rd_productId data) (rd_userId data) (rd_rating data)
                       (rd_title data) (rd_comment data) (Some (rd_isVerified data)))
          (reviews s) in
      commit (with_reviews tb s) ;;;
      ret (Js.or_num (Some insertId) 0)
  end.

(** *** Coupons *)

Definition getCouponByCode (code : string) : Async (option Coupon.t) :=
  h <- getDb ;;
  match h with
  | None => ret None
  | Some s =>
      ret (Table.first
             (Table.limit 1
                (Table.select (fun r => String.eqb (Coupon.code r) code) (coupons s))))
  end.

(** [{ valid: false, message }] or [{ valid: true, coupon }]. *)
Inductive CouponValidation :=
| Invalid (message : string)
| Valid (coupon : Coupon.t).

(** [coupon.expiryDate && new Date() > coupon.expiryDate]: a [Date] object
    is always truthy. *)
Definition expired (today : Z) (c : Coupon.t) : bool :=
  match Coupon.expiryDate c with
  | Some e => e <? today
  | None => false
  end.

(** [coupon.usageLimit && (coupon.usageCount || 0) >= coupon.usageLimit] *)
Definition usage_exhausted (c : Coupon.t) : bool :=
  match Coupon.usageLimit c with
  | Some l => Js.truthy_num l && (l <=? Js.or_num (Coupon.usageCount c) 0)
  | None => false
  end.

(** [coupon.minOrderAmount && orderAmount < coupon.minOrderAmount] *)
Definition below_minimum (orderAmount : Z) (c : Coupon.t) : bool :=
  match Coupon.minOrderAmount c with
  | Some m => Js.truthy_num m && (orderAmount <? m)
  | None => false
  end.

Definition validateCoupon (code : string) (orderAmount : Z) : Async CouponValidation :=
  found <- getCouponByCode code ;;
  match found with
  | None => ret (Invalid "Coupon not found")
  | Some coupon =>
      if negb (Js.truthy_opt_bool (Coupon.isActive coupon))
      then ret (Invalid "Coupon is inactive")
      else
        today <- now ;;
        if expired today coupon
        then ret (Invalid "Coupon expired")
        else if usage_exhausted coupon
        then ret (Invalid "Coupon usage limit reached")
        else if below_minimum orderAmount coupon
        then ret (Invalid "Order amount below minimum")
        else ret (Valid coupon)
  end.

(** *** Banners *)

Definition getActiveBanners : Async (list Banner.t) :=
  h <- getDb ;;
  match h with
  | None => ret []
  | Some s => ret (Table.select (fun r => Sql.is_true (Banner.isActive r)) (banners s))
  end.

End db.

(** ** server/routers.ts *)

Module appRouter.

(** The request context: [ctx.user] is the session's user, or [null]. *)
Record Context := mkContext { user : option User.t }.

Definition publicProcedure {I O} (resolver : Context -> I -> Async O)
  : Context -> I -> Async O := resolver.

(** Modelled from the spec: [protectedProcedure] of [server/_core/trpc]
    is not among the sources.  An authenticated-only procedure called
    without a session is rejected with the "unauthorized" signal before its
    resolver runs; otherwise the resolver sees the caller as [ctx.user]. *)
Definition protectedProcedure {I O} (resolver : User.t -> I -> Async O)
  : Context -> I -> Async O :=
  fun ctx input =>
    match user ctx with
    | None => throw "UNAUTHORIZED"
    | Some u => resolver u input
    end.

(** *** categories *)

Definition categories_list : Context -> unit -> Async (list Category.t) :=
  publicProcedure (fun _ _ => db.getCategories).

Definition categories_bySlug : Context -> string -> Async (option Category.t) :=
  publicProcedure (fun _ slug => db.getCategoryBySlug slug).

(** *** products *)

Record PageInput := mkPageInput {
  pi_limit : option N;
  pi_offset : option N
}.

Record ByCategoryInput := mkByCategoryInput {
  bc_categoryId : Z;
  bc_limit : option N;
  bc_offset : option N
}.

Definition products_list : Context -> PageInput -> Async (list Product.t) :=
  publicProcedure (fun _ input => db.getProducts (pi_limit input) (pi_offset input)).

Definition products_byCategory : Context -> ByCategoryInput -> Async (list Product.t) :=
  publicProcedure
    (fun _ input =>
       db.getProductsByCategory (bc_categoryId input) (bc_limit input) (bc_offset input)).

Definition products_byId : Context -> Z -> Async (option Product.t) :=
  publicProcedure (fun _ id => db.getProductById id).

(** [input.limit || 10] *)
Definition products_featured : Context -> option N -> Async (list Product.t) :=
  publicProcedure
    (fun _ limit =>
       db.getFeaturedProducts
         match limit with
         | Some n => if (n =? 0)%N then 10%N else n
         | None => 10%N
         end).

(** *** cart *)

Record CartAddInput := mkCartAddInput {
  ca_productId : Z;
  ca_quantity : option Z          (* z.number().default(1) *)
}.

Record CartUpdateInput := mkCartUpdateInput {
  cu_id : Z;
  cu_quantity : Z
}.

Definition cart_list : Context -> unit -> Async (list CartItem.t) :=
  protectedProcedure (fun u _ => db.getCartItems (User.id u)).

Definition cart_add : Context -> CartAddInput -> Async Z :=
  protectedProcedure
    (fun u input =>
       db.addToCart (User.id u) (ca_productId input)
                    (db.or_else (ca_quantity input) 1)).

Definition cart_update : Context -> CartUpdateInput -> Async unit :=
  protectedProcedure
    (fun _ input => db.updateCartItem (cu_id input) (cu_quantity input)).

Definition cart_remove : Context -> Z -> Async unit :=
  protectedProcedure (fun _ id => db.removeFromCart id).

Definition cart_clear : Context -> unit -> Async unit :=
  protectedProcedure (fun u _ => db.clearCart (User.id u)).

(** *** wishlist *)

Definition wishlist_list : Context -> unit -> Async (list WishlistItem.t) :=
  protectedProcedure (fun u _ => db.getWishlistItems (User.id u)).

Definition wishlist_add : Context -> Z -> Async Z :=
  protectedProcedure (fun u productId => db.addToWishlist (User.id u) productId).

Definition wishlist_remove : Context -> Z -> Async unit :=
  protectedProcedure (fun u productId => db.removeFromWishlist (User.id u) productId).

(** *** addresses *)

Record AddressAddInput := mkAddressAddInput {
  aa_type : AddressType;
  aa_fullName : string;
  aa_phoneNumber : string;
  aa_addressLine1 : string;
  aa_addressLine2 : option string;
  aa_city : string;
  aa_state : string;
  aa_postalCode : string;
  aa_isDefault : option bool
}.

Definition addresses_list : Context -> unit -> Async (list Address.t) :=
  protectedProcedure (fun u _ => db.getUserAddresses (User.id u)).

Definition addresses_add : Context -> AddressAddInput -> Async Z :=
  protectedProcedure
    (fun u input =>
       db.addAddress
         (db.mkAddressData (User.id u) (aa_type input) (aa_fullName input)
            (aa_phoneNumber input) (aa_addressLine1 input) (aa_addressLine2 input)
            (aa_city input) (aa_state input) (aa_postalCode input)
            (aa_isDefault input))).

Definition addresses_update : Context -> Z * db.AddressPatch -> Async unit :=
  protectedProcedure (fun _ input => db.updateAddress (fst input) (snd input)).

Definition addresses_delete : Context -> Z -> Async unit :=
  protectedProcedure (fun _ id => db.deleteAddress id).

(** *** orders *)

Record OrderCreateInput := mkOrderCreateInput {
  addressId : Z;
  subtotal : Z;
  discountAmount : option Z;
  deliveryCharge : option Z;
  totalAmount : Z;
  paymentMethod : PaymentMethod;
  couponCode : option string;
  notes : option string
}.

Record UpdateStatusInput := mkUpdateStatusInput {
  us_id : Z;
  us_status : OrderStatus
}.

Record UpdatePaymentInput := mkUpdatePaymentInput {
  up_id : Z;
  up_paymentStatus : PaymentStatus;
  up_paymentId : option string
}.

Definition orders_list : Context -> unit -> Async (list Order.t) :=
  protectedProcedure (fun u _ => db.getUserOrders (User.id u)).

Definition orders_byId : Context -> Z -> Async (option Order.t) :=
  protectedProcedure (fun _ id => db.getOrderById id).

Definition orders_create : Context -> OrderCreateInput -> Async Z :=
  protectedProcedure
    (fun u input =>
       t <- now ;;
       r <- random_suffix ;;
       let orderNumber :=
         String.append "ORD-" (String.append (Js.show t) (String.append "-" r)) in
       db.createOrder
         (db.mkOrderData (addressId input) (subtotal input) (discountAmount input)
            (deliveryCharge input) (totalAmount input) (paymentMethod input)
            (couponCode input) (notes input)
            (User.id u) orderNumber pay_pending pending)).

Definition orders_updateStatus : Context -> UpdateStatusInput -> Async unit :=
  protectedProcedure
    (fun _ input => db.updateOrderStatus (us_id input) (us_status input)).

Definition orders_updatePaymentStatus : Context -> UpdatePaymentInput -> Async unit :=
  protectedProcedure
    (fun _ input =>
       db.updatePaymentStatus (up_id input) (up_paymentStatus input) (up_paymentId input)).

(** *** orderItems *)

Definition orderItems_byOrderId : Context -> Z -> Async (list OrderItem.t) :=
  protectedProcedure (fun _ orderId => db.getOrderItems orderId).

Definition orderItems_create : Context -> db.OrderItemData -> Async Z :=
  protectedProcedure (fun _ input => db.createOrderItem input).

(** *** reviews *)

Record ReviewCreateInput := mkReviewCreateInput {
  rc_productId : Z;
  rc_rating : Z;                  (* z.number().min(1).max(5) *)
  rc_title : option string;
  rc_comment : option string
}.

Definition reviews_byProductId : Context -> Z -> Async (list Review.t) :=
  publicProcedure (fun _ productId => db.getProductReviews productId).

Definition reviews_create : Context -> ReviewCreateInput -> Async Z :=
  protectedProcedure
    (fun u input =>
       if (1 <=? rc_rating input) && (rc_rating input <=? 5)
       then db.createReview
              (db.mkReviewData (rc_productId input) (rc_rating input)
                 (rc_title input) (rc_comment input) (User.id u) false)
       else throw "BAD_REQUEST").

(** *** coupons *)

Definition coupons_validate : Context -> string * Z -> Async db.CouponValidation :=
  publicProcedure (fun _ input => db.validateCoupon (fst input) (snd input)).

(** *** banners *)

Definition banners_list : Context -> unit -> Async (list Banner.t) :=
  publicProcedure (fun _ _ => db.getActiveBanners).

End appRouter.

(** ** app/(tabs)/index.tsx *)

Module HomeScreen.

(** [price * (1 - discountPercentage / 100)] on JavaScript numbers, that
    is, on IEEE 754 binary64 values: each of the three operations rounds
    to nearest, ties to even.  No rounding to whole minor units follows in
    the source. *)
Definition getDiscountedPrice (price discountPercentage : float) : float :=
  (price * (1 - discountPercentage / 100))%float.

(** A whole number of minor units. *)
Definition whole_binary64 (x : float) : bool :=
  match Prim2SF x with
  | SpecFloat.S754_zero _ => true
  | SpecFloat.S754_finite _ m e =>
      (0 <=? e) || (Z.land (Zpos m) (Z.ones (- e)) =? 0)
  | _ => false
  end.

(** An integer column value as a JavaScript number. *)
Definition number_of_int (n : Z) : float :=
  if n <? 0
  then (- PrimFloat.of_uint63 (Uint63.of_Z (- n)))%float
  else PrimFloat.of_uint63 (Uint63.of_Z n).

End HomeScreen.

(** ** Delivery code verification *)

Module DeliveryOtp.

(** Modelled from the spec: no function that verifies a delivery code is
    among the sources; the schema only declares the columns [deliveryOtp],
    [deliveryOtpExpiry] and [deliveryOtpVerified] of an order.  Following
    the specification of the delivery state machine, verification
    "succeeds only if codes match exactly AND current time is before the
    stored expiry"; an order with no code or no expiry stored cannot be
    verified. *)
Definition verify (order : Order.t) (supplied : string) (today : Z) : bool :=
  match Order.deliveryOtp order, Order.deliveryOtpExpiry order with
  | Some code, Some expiry => String.eqb supplied code && (today <? expiry)
  | _, _ => false
  end.

End DeliveryOtp.

(** ** Vocabulary of the statements *)

(** The handle [getDb] hands out in a world. *)
Definition handle (w : World) : option Store :=
  match _db w with
  | Some s => Some s
  | None =>
      match DATABASE_URL w with
      | Reachable s => Some s
      | _ => None
      end
  end.

(** The persistent store is unavailable: [getDb] returns [null]. *)
Definition store_unavailable (w : World) : Prop := handle w = None.

Definition resolves {A} (o : Outcome A) (a : A) : Prop :=
  exists w', o = Resolved a w'.

Definition rejects {A} (o : Outcome A) (message : string) : Prop :=
  exists w', o = Rejected message w'.

(** The store an outcome leaves behind. *)
Definition store_after {A} (o : Outcome A) : option Store := handle (world_of o).

(** [totalAmount = subtotal - discountAmount + deliveryCharge] and
    [totalAmount >= 0], an absent amount counting as 0. *)
Definition total_consistent (r : Order.t) : Prop :=
  Order.totalAmount r
  = Order.subtotal r - db.or_else (Order.discountAmount r) 0
    + db.or_else (Order.deliveryCharge r) 0
  /\ 0 <= Order.totalAmount r.

(** The status of an order is terminal. *)
Definition terminal (r : Order.t) : Prop :=
  Order.status r = Some delivered \/ Order.status r = Some cancelled.

(** The cart rows and wishlist rows of a user in a store. *)
Definition cart_of (userId : Z) (s : Store) : list CartItem.t :=
  filter (fun r => CartItem.userId r =? userId) (Table.rows (cartItems s)).

Definition wishlist_of (userId : Z) (s : Store) : list WishlistItem.t :=
  filter (fun r => WishlistItem.userId r =? userId) (Table.rows (wishlistItems s)).

(** The coupon [getCouponByCode] finds in a store. *)
Definition coupon_with_code (code : string) (s : Store) : option Coupon.t :=
  find (fun r => String.eqb (Coupon.code r) code) (Table.rows (coupons s)).

(** The decision [validateCoupon] takes on the coupon it found. *)
Definition coupon_decision (today orderAmount : Z) (found : option Coupon.t)
  : db.CouponValidation :=
  match found with
  | None => db.Invalid "Coupon not found"
  | Some c =>
      if negb (Js.truthy_opt_bool (Coupon.isActive c))
      then db.Invalid "Coupon is inactive"
      else if db.expired today c then db.Invalid "Coupon expired"
      else if db.usage_exhausted c then db.Invalid "Coupon usage limit reached"
      else if db.below_minimum orderAmount c then db.Invalid "Order amount below minimum"
      else db.Valid c
  end.

(** An outcome leaves the cart rows of user [b] as they were in [s]. *)
Definition keeps_cart_of (b : Z) (s : Store) {A} (o : Outcome A) : Prop :=
  exists s', store_after o = Some s' /\ cart_of b s' = cart_of b s.

(** [!user.openId] *)
Definition iu_openId_missing (user : db.InsertUser) : bool :=
  negb (Js.truthy_string (db.iu_openId user)).

(** [isActive] overwritten in a product row, and in every row of a store. *)
Definition set_isActive (flag : bool) (p : Product.t) : Product.t :=
  Product.mk (Product.id p) (Product.categoryId p) (Product.name p)
             (Product.description p) (Product.price p) (Product.originalPrice p)
             (Product.discountPercentage p) (Product.imageUrl p) (Product.images p)
             (Product.sku p) (Product.stock p) (Product.rating p)
             (Product.reviewCount p) flag (Product.isFeatured p).

Definition with_products (x : Table.t Product.t) (s : Store) : Store :=
  mkStore (users s) (categories s) x (cartItems s) (wishlistItems s)
          (addresses s) (orders s) (orderItems s) (reviews s) (coupons s) (banners s).

Definition all_active (s : Store) : Store :=
  with_products
    (Table.mk (map (set_isActive true) (Table.rows (products s)))
              (Table.autoIncrement (products s)))
    s.

(** *** Binary64 *)

(** A record of the right-shift loop of the rounding algorithm holds [M]
    shifted right by [k] bits, and remembers whether a non-zero bit was
    shifted out. *)
Definition shifted (M k : Z) (mrs : SpecFloat.shr_record) : Prop :=
  SpecFloat.shr_m mrs = M / 2 ^ k
  /\ (SpecFloat.shr_r mrs || SpecFloat.shr_s mrs = false <-> M mod 2 ^ k = 0).


(** *** Sample data *)

Definition empty_table {R} : Table.t R := Table.mk [] 1.

Definition empty_store : Store :=
  mkStore empty_table empty_table empty_table empty_table empty_table empty_table
          empty_table empty_table empty_table empty_table empty_table.

(** A process connected to store [s] at time [t]. *)
Definition online (s : Store) (t : Z) : World :=
  mkWorld (Some s) (Reachable s) "owner" t "k3x9q2m1z" [].

(** A process started without [DATABASE_URL]. *)
Definition offline : World :=
  mkWorld None Unset "owner" 1700000000000 "k3x9q2m1z" [].

Definition alice : User.t :=
  User.mk 1 "alice" (Some "Alice") None None role_user 0.

Definition bob : User.t :=
  User.mk 2 "bob" (Some "Bob") None None role_user 0.

Definition as_user (u : User.t) : appRouter.Context := appRouter.mkContext (Some u).

(** An order whose total is 1 for a subtotal of 10000, with no discount. *)
Definition underpaid_order : appRouter.OrderCreateInput :=
  appRouter.mkOrderCreateInput 7 10000 None None 1 cod None None.

(** A store holding one coupon, and the coupons used below. *)
Definition store_with_coupon (c : Coupon.t) : Store :=
  mkStore empty_table empty_table empty_table empty_table empty_table empty_table
          empty_table empty_table empty_table (Table.mk [c] 2) empty_table.

(** Expired yesterday and used up: [{expiryDate: yesterday, usageLimit: 1,
    usageCount: 1}]. *)
Definition stale_coupon : Coupon.t :=
  Coupon.mk 1 "SAVE10" None percentage 10 (Some 0) None (Some 1) (Some 1)
            (Some (1700000000000 - 86400000)) (Some true).

(** A usage limit of zero, not expired. *)
Definition zero_limit_coupon : Coupon.t :=
  Coupon.mk 1 "FREE0" None fixed 3000 (Some 0) None (Some 0) (Some 0)
            None (Some true).

(** Used up, not expired. *)
Definition spent_coupon : Coupon.t :=
  Coupon.mk 1 "ONCE" None fixed 3000 (Some 0) None (Some 1) (Some 1)
            None (Some true).

(** A store holding one order, and an order that has been delivered. *)
Definition store_with_order (o : Order.t) : Store :=
  mkStore empty_table empty_table empty_table empty_table empty_table empty_table
          (Table.mk [o] 2) empty_table empty_table empty_table empty_table.

Definition delivered_order : Order.t :=
  Order.mk 1 1 "ORD-1699999999999-abcdefghi" 7 22500 (Some 0) (Some 0) 22500
           (Some delivered) (Some cod) (Some pay_completed) None None None
           None None (Some false) None.

(** A store whose cart table holds one row, owned by Bob. *)
Definition bobs_row : CartItem.t := CartItem.mk 1 2 40 3.

Definition store_with_cart (rows : list CartItem.t) : Store :=
  mkStore empty_table empty_table empty_table (Table.mk rows 10) empty_table
          empty_table empty_table empty_table empty_table empty_table empty_table.

(** Alice's wishlist: two rows, for products 10 and 20. *)
Definition store_with_wishlist (rows : list WishlistItem.t) : Store :=
  mkStore empty_table empty_table empty_table empty_table (Table.mk rows 10)
          empty_table empty_table empty_table empty_table empty_table empty_table.

Definition alices_wishlist : list WishlistItem.t :=
  [WishlistItem.mk 1 1 10; WishlistItem.mk 2 1 20].

(** A sign-in record with only the identifier set. *)
Definition sign_in (openId : string) : db.InsertUser :=
  db.mkInsertUser openId Js.Undefined Js.Undefined Js.Undefined None None.

(** An order whose delivery code "123456" expired one second before
    [1700000000000]. *)
Definition order_with_stale_otp : Order.t :=
  Order.mk 1 1 "ORD-1699999999999-abcdefghi" 7 22500 (Some 0) (Some 0) 22500
           (Some shipped) (Some cod) (Some pay_pending) None None None
           (Some "123456") (Some (1700000000000 - 1000)) (Some false) None.

(** A catalogue with an active and a withdrawn product in category 3. *)
Definition rice : Product.t :=
  Product.mk 1 3 "Rice" None 9900 None (Some 0) None None None 5 (Some 0) (Some 0)
             true (Some false).

Definition withdrawn_tea : Product.t :=
  Product.mk 2 3 "Tea" None 4500 None (Some 10) None None None 0 (Some 0) (Some 0)
             false (Some false).

Definition store_with_products (rows : list Product.t) : Store :=
  mkStore empty_table empty_table (Table.mk rows 10) empty_table empty_table
          empty_table empty_table empty_table empty_table empty_table empty_table.

Definition anonymous : appRouter.Context := appRouter.mkContext None.

(** The user row [getUserByOpenId] finds in a store. *)
Definition user_with_openId (openId : string) (s : Store) : option User.t :=
  find (fun r => String.eqb (User.openId r) openId) (Table.rows (users s)).

(** The assignments [upsertUser] collects from its argument, and the
    [values] and [updateSet] objects it derives from them. *)
Definition assigned_of (user : db.InsertUser) (w : World) : db.UserAssignments :=
  db.mkAssign (db.assignNullable (db.iu_name user))
              (db.assignNullable (db.iu_email user))
              (db.assignNullable (db.iu_loginMethod user))
              (db.iu_lastSignedIn user)
              match db.iu_role user with
              | Some r => Some r
              | None => if String.eqb (db.iu_openId user) (ownerOpenId w)
                        then Some role_admin else None
              end.

Definition values_of (user : db.InsertUser) (w : World) : db.UserAssignments :=
  match db.a_lastSignedIn (assigned_of user w) with
  | Some _ => assigned_of user w
  | None =>
      db.mkAssign (db.a_name (assigned_of user w)) (db.a_email (assigned_of user w))
                  (db.a_loginMethod (assigned_of user w)) (Some (clock w))
                  (db.a_role (assigned_of user w))
  end.

Definition updateSet_of (user : db.InsertUser) (w : World) : db.UserAssignments :=
  if db.no_keys (assigned_of user w)
  then db.mkAssign None None None (Some (clock w)) None
  else assigned_of user w.

(** The row held for [user.openId] once [upsertUser user] has run on a
    store: the stored row updated, or a new row. *)
Definition upserted_row (user : db.InsertUser) (w : World) (s : Store) : User.t :=
  match user_with_openId (db.iu_openId user) s with
  | Some old => db.apply_updateSet (updateSet_of user w) old
  | None =>
      db.user_of_values (db.iu_openId user) (values_of user w)
                        (Table.autoIncrement (users s))
  end.

(** A store whose user table holds the given rows. *)
Definition store_with_users (rows : list User.t) : Store :=
  mkStore (Table.mk rows 10) empty_table empty_table empty_table empty_table
          empty_table empty_table empty_table empty_table empty_table empty_table.

(** Alice signs in again, with a new display name and nothing else. *)
Definition alice_renamed : db.InsertUser :=
  db.mkInsertUser "alice" (Js.Val "Alice B.") Js.Undefined Js.Undefined None None.

(** Alice's cart: two rows, beside the row of Bob. *)
Definition alices_rows : list CartItem.t :=
  [CartItem.mk 2 1 40 1; CartItem.mk 3 1 41 5].

(** A withdrawn category beside an active one. *)
Definition groceries : Category.t :=
  Category.mk 1 "Groceries" None None "groceries" true.

Definition withdrawn_toys : Category.t :=
  Category.mk 2 "Toys" None None "toys" false.

Definition store_with_categories (rows : list Category.t) : Store :=
  mkStore empty_table (Table.mk rows 10) empty_table empty_table empty_table
          empty_table empty_table empty_table empty_table empty_table empty_table.

(** The orders of a user, and the items of an order, in a store. *)
Definition orders_of (userId : Z) (s : Store) : list Order.t :=
  filter (fun r => Order.userId r =? userId) (Table.rows (orders s)).

Definition items_of (orderId : Z) (s : Store) : list OrderItem.t :=
  filter (fun r => OrderItem.orderId r =? orderId) (Table.rows (orderItems s)).

(** The order row [orders.create] builds for a caller in a world. *)
Definition created_order (u : User.t) (input : appRouter.OrderCreateInput)
  (w : World) (fresh : Z) : Order.t :=
  db.order_of_data
    (db.mkOrderData (appRouter.addressId input) (appRouter.subtotal input)
       (appRouter.discountAmount input) (appRouter.deliveryCharge input)
       (appRouter.totalAmount input) (appRouter.paymentMethod input)
       (appRouter.couponCode input) (appRouter.notes input)
       (User.id u)
       (String.append "ORD-"
          (String.append (Js.show (clock w)) (String.append "-" (entropy w))))
       pay_pending pending)
    fresh.

(** An ordinary order of 22500 minor units, paid on delivery. *)
Definition plain_order : appRouter.OrderCreateInput :=
  appRouter.mkOrderCreateInput 7 22500 None None 22500 cod None None.

(** A coupon that needs an order of at least 20000 and expires at
    [1700000000000]. *)
Definition welcome_coupon : Coupon.t :=
  Coupon.mk 1 "WELCOME" None fixed 3000 (Some 20000) None (Some 100) (Some 3)
            (Some 1700000000000) (Some true).

(** The addresses of a user and the reviews of a product in a store. *)
Definition addresses_of (userId : Z) (s : Store) : list Address.t :=
  filter (fun r => Address.userId r =? userId) (Table.rows (addresses s)).

Definition reviews_of (productId : Z) (s : Store) : list Review.t :=
  filter (fun r => Review.productId r =? productId) (Table.rows (reviews s)).

(** Bob's home address, and a store holding it. *)
Definition bobs_home : Address.t :=
  Address.mk 1 2 (Some addr_home) "Bob" "5550100" "1 Main St" None "Pune" "MH"
             "411001" (Some "India") (Some true).

Definition store_with_addresses (rows : list Address.t) : Store :=
  mkStore empty_table empty_table empty_table empty_table empty_table
          (Table.mk rows 10) empty_table empty_table empty_table empty_table
          empty_table.

(** A change of city and nothing else. *)
Definition move_to_delhi : db.AddressPatch :=
  db.mkAddressPatch None None None None None (Some "Delhi") None None None.

(** The partial object of [addresses.update] has at least one property. *)
Definition supplies_a_field (p : db.AddressPatch) : bool :=
  match db.ap_type p, db.ap_fullName p, db.ap_phoneNumber p, db.ap_addressLine1 p,
        db.ap_addressLine2 p, db.ap_city p, db.ap_state p, db.ap_postalCode p,
        db.ap_isDefault p with
  | None, None, None, None, None, None, None, None, None => false
  | _, _, _, _, _, _, _, _, _ => true
  end.

(** The process environment changed under a running process. *)
Definition set_DATABASE_URL (url : DatabaseUrl) (w : World) : World :=
  mkWorld (_db w) url (ownerOpenId w) (clock w) (entropy w) (console w).

(** A process whose [DATABASE_URL] cannot be connected to. *)
Definition unreachable : World :=
  mkWorld None Unreachable "owner" 1700000000000 "k3x9q2m1z" [].

(** * Properties *)

(** ** The handle *)

Lemma set_db_same (w : World) (s : Store) :
  _db w = Some s -> set_db (Some s) w = w.
Proof.
  destruct w as [h u o c e l]; simpl; intros ->; reflexivity.
Qed.

Lemma getDb_available (w : World) (s : Store) :
  handle w = Some s -> db.getDb w = Resolved (Some s) (set_db (Some s) w).
Proof.
  unfold handle, db.getDb.
  destruct (_db w) as [s0|] eqn:Hdb.
  - intros [= <-]. now rewrite set_db_same.
  - destruct (DATABASE_URL w); intros [= <-]; reflexivity.
Qed.

Lemma getDb_unavailable (w : World) :
  store_unavailable w ->
  exists w', db.getDb w = Resolved None w' /\ _db w' = None /\ store_unavailable w'.
Proof.
  unfold store_unavailable, handle, db.getDb.
  destruct (_db w) as [s0|] eqn:Hdb; [discriminate|].
  destruct (DATABASE_URL w) eqn:Hurl; intros H; try discriminate.
  - exists w. rewrite Hdb, Hurl. auto.
  - eexists; split; [reflexivity|]. simpl. rewrite Hurl. auto.
Qed.

Lemma handle_set_db (w : World) (s : Store) : handle (set_db (Some s) w) = Some s.
Proof. reflexivity. Qed.

Lemma or_num_insertId (n : Z) : Js.or_num (Some n) 0 = n.
Proof.
  unfold Js.or_num, Js.truthy_num.
  destruct (Z.eqb_spec n 0); simpl; congruence.
Qed.

(** ** Orders: the stored amounts *)

(** What [orders.create] stores: the row that the caller's input
    determines, whatever the amounts are. *)
Lemma orders_create_available (u : User.t) (input : appRouter.OrderCreateInput)
  (w : World) (s : Store) :
  handle w = Some s ->
  let orderNumber :=
    String.append "ORD-"
      (String.append (Js.show (clock w)) (String.append "-" (entropy w))) in
  let data :=
    db.mkOrderData (appRouter.addressId input) (appRouter.subtotal input)
      (appRouter.discountAmount input) (appRouter.deliveryCharge input)
      (appRouter.totalAmount input) (appRouter.paymentMethod input)
      (appRouter.couponCode input) (appRouter.notes input)
      (User.id u) orderNumber pay_pending pending in
  let fresh := Table.autoIncrement (orders s) in
  appRouter.orders_create (as_user u) input w
  = Resolved fresh
      (set_db (Some (with_orders
                       (Table.mk (Table.rows (orders s) ++ [db.order_of_data data fresh])
                                 (fresh + 1)) s))
              (set_db (Some s) w)).
Proof.
  intros H. cbv zeta.
  unfold appRouter.orders_create, db.createOrder.
  cbv beta iota delta [bind now random_suffix appRouter.protectedProcedure
                       as_user appRouter.user].
  rewrite (getDb_available _ _ H).
  cbv beta iota zeta delta [Table.insert bind commit ret].
  rewrite or_num_insertId. reflexivity.
Qed.

(** C1, counterexample.  Alice submits [underpaid_order]; the procedure
    accepts it and the stored row has [totalAmount = 1] although
    [subtotal - discountAmount + deliveryCharge = 10000]. *)
Lemma orders_create_total_unchecked :
  exists id s' row,
    resolves (appRouter.orders_create (as_user alice) underpaid_order
                (online empty_store 1700000000000)) id
    /\ store_after (appRouter.orders_create (as_user alice) underpaid_order
                      (online empty_store 1700000000000)) = Some s'
    /\ In row (Table.rows (orders s'))
    /\ ~ total_consistent row.
Proof.
  rewrite (orders_create_available alice underpaid_order
             (online empty_store 1700000000000) empty_store eq_refl).
  eexists _, _, _. split; [eexists; reflexivity|].
  split; [reflexivity|]. split; [left; reflexivity|].
  unfold total_consistent; simpl. intros [H _]. discriminate H.
Qed.

(** C1, amended.  For an authenticated caller and an available store,
    [orders.create] succeeds and appends one order row that carries the
    caller's [subtotal], [discountAmount], [deliveryCharge] and
    [totalAmount] as supplied (an absent discount or delivery charge is
    stored as 0), owned by the caller, with status and payment status
    "pending".  The stored row therefore satisfies
    [totalAmount = subtotal - discountAmount + deliveryCharge] and
    [totalAmount >= 0] exactly when the supplied amounts do. *)
Theorem orders_create_stores_supplied_amounts
  (u : User.t) (input : appRouter.OrderCreateInput) (w : World) (s : Store) :
  handle w = Some s ->
  exists id s' row,
    resolves (appRouter.orders_create (as_user u) input w) id
    /\ store_after (appRouter.orders_create (as_user u) input w) = Some s'
    /\ Table.rows (orders s') = Table.rows (orders s) ++ [row]
    /\ Order.id row = id
    /\ Order.userId row = User.id u
    /\ Order.subtotal row = appRouter.subtotal input
    /\ Order.discountAmount row = Some (db.or_else (appRouter.discountAmount input) 0)
    /\ Order.deliveryCharge row = Some (db.or_else (appRouter.deliveryCharge input) 0)
    /\ Order.totalAmount row = appRouter.totalAmount input
    /\ Order.status row = Some pending
    /\ Order.paymentStatus row = Some pay_pending
    /\ (total_consistent row <->
        appRouter.totalAmount input
        = appRouter.subtotal input
          - db.or_else (appRouter.discountAmount input) 0
          + db.or_else (appRouter.deliveryCharge input) 0
        /\ 0 <= appRouter.totalAmount input).
Proof.
  intros H.
  rewrite (orders_create_available u input w s H).
  eexists _, _, _. split; [eexists; reflexivity|].
  split; [reflexivity|].
  repeat (split; [reflexivity|]).
  unfold total_consistent; simpl. tauto.
Qed.

Lemma orders_create_stores_supplied_amounts_witness :
  exists id s' row,
    resolves (appRouter.orders_create (as_user alice) underpaid_order
                (online empty_store 1700000000000)) id
    /\ store_after (appRouter.orders_create (as_user alice) underpaid_order
                      (online empty_store 1700000000000)) = Some s'
    /\ Table.rows (orders s') = Table.rows (orders empty_store) ++ [row]
    /\ Order.id row = id
    /\ Order.userId row = User.id alice
    /\ Order.subtotal row = appRouter.subtotal underpaid_order
    /\ Order.discountAmount row
       = Some (db.or_else (appRouter.discountAmount underpaid_order) 0)
    /\ Order.deliveryCharge row
       = Some (db.or_else (appRouter.deliveryCharge underpaid_order) 0)
    /\ Order.totalAmount row = appRouter.totalAmount underpaid_order
    /\ Order.status row = Some pending
    /\ Order.paymentStatus row = Some pay_pending
    /\ (total_consistent row <->
        appRouter.totalAmount underpaid_order
        = appRouter.subtotal underpaid_order
          - db.or_else (appRouter.discountAmount underpaid_order) 0
          + db.or_else (appRouter.deliveryCharge underpaid_order) 0
        /\ 0 <= appRouter.totalAmount underpaid_order).
Proof.
  exact (orders_create_stores_supplied_amounts
           alice underpaid_order (online empty_store 1700000000000) empty_store
           eq_refl).
Defined.

(** ** Coupons *)

Lemma first_limit_select {R} (p : R -> bool) (tb : Table.t R) :
  Table.first (Table.limit 1 (Table.select p tb)) = find p (Table.rows tb).
Proof.
  unfold Table.first, Table.limit, Table.select.
  induction (Table.rows tb) as [|r l IH]; simpl; [reflexivity|].
  destruct (p r); simpl; [reflexivity|exact IH].
Qed.

Lemma getCouponByCode_available (code : string) (w : World) (s : Store) :
  handle w = Some s ->
  db.getCouponByCode code w
  = Resolved (coupon_with_code code s) (set_db (Some s) w).
Proof.
  intros H. unfold db.getCouponByCode, bind, ret.
  rewrite (getDb_available _ _ H), first_limit_select. reflexivity.
Qed.

Lemma validateCoupon_available (code : string) (orderAmount : Z) (w : World) (s : Store) :
  handle w = Some s ->
  db.validateCoupon code orderAmount w
  = Resolved (coupon_decision (clock w) orderAmount (coupon_with_code code s))
             (set_db (Some s) w).
Proof.
  intros H. unfold db.validateCoupon, bind.
  rewrite (getCouponByCode_available _ _ _ H).
  unfold coupon_decision.
  destruct (coupon_with_code code s) as [c|]; [|reflexivity].
  destruct (negb (Js.truthy_opt_bool (Coupon.isActive c))); [reflexivity|].
  unfold now; cbn [clock set_db].
  destruct (db.expired (clock w) c); [reflexivity|].
  destruct (db.usage_exhausted c); [reflexivity|].
  destruct (db.below_minimum orderAmount c); reflexivity.
Qed.

(** C2.  On an available store [validateCoupon] reports the first failing
    check in the order not found, inactive, expired, usage limit reached,
    below minimum order, and only that one: each check decides the answer
    when the earlier ones pass, whatever the later ones would say.  In
    particular an (existing, active) coupon whose expiry date is strictly
    in the past and whose usage count has reached its usage limit is
    reported as expired, for every order amount. *)
Theorem validateCoupon_precedence
  (code : string) (orderAmount : Z) (w : World) (s : Store) :
  handle w = Some s ->
  match coupon_with_code code s with
  | None =>
      resolves (db.validateCoupon code orderAmount w) (db.Invalid "Coupon not found")
  | Some c =>
      (Js.truthy_opt_bool (Coupon.isActive c) = false ->
       resolves (db.validateCoupon code orderAmount w)
                (db.Invalid "Coupon is inactive"))
      /\ (Js.truthy_opt_bool (Coupon.isActive c) = true ->
          db.expired (clock w) c = true ->
          resolves (db.validateCoupon code orderAmount w)
                   (db.Invalid "Coupon expired"))
      /\ (Js.truthy_opt_bool (Coupon.isActive c) = true ->
          db.expired (clock w) c = false ->
          db.usage_exhausted c = true ->
          resolves (db.validateCoupon code orderAmount w)
                   (db.Invalid "Coupon usage limit reached"))
      /\ (Js.truthy_opt_bool (Coupon.isActive c) = true ->
          db.expired (clock w) c = false ->
          db.usage_exhausted c = false ->
          db.below_minimum orderAmount c = true ->
          resolves (db.validateCoupon code orderAmount w)
                   (db.Invalid "Order amount below minimum"))
      /\ (Js.truthy_opt_bool (Coupon.isActive c) = true ->
          db.expired (clock w) c = false ->
          db.usage_exhausted c = false ->
          db.below_minimum orderAmount c = false ->
          resolves (db.validateCoupon code orderAmount w) (db.Valid c))
      /\ (forall expiry limit : Z,
          Js.truthy_opt_bool (Coupon.isActive c) = true ->
          Coupon.expiryDate c = Some expiry ->
          expiry < clock w ->
          Coupon.usageLimit c = Some limit ->
          limit <= Js.or_num (Coupon.usageCount c) 0 ->
          resolves (db.validateCoupon code orderAmount w)
                   (db.Invalid "Coupon expired"))
  end.
Proof.
  intros H. rewrite (validateCoupon_available _ _ _ _ H).
  unfold coupon_decision.
  destruct (coupon_with_code code s) as [c|]; [|eexists; reflexivity].
  repeat split.
  - intros ->. eexists; reflexivity.
  - intros -> ->. eexists; reflexivity.
  - intros -> -> ->. eexists; reflexivity.
  - intros -> -> -> ->. eexists; reflexivity.
  - intros -> -> -> ->. eexists; reflexivity.
  - intros expiry limit -> He Hlt _ _.
    unfold db.expired. rewrite He.
    apply Z.ltb_lt in Hlt. rewrite Hlt. eexists; reflexivity.
Qed.

Lemma validateCoupon_precedence_witness :
  resolves (db.validateCoupon "SAVE10" 22500
              (online (store_with_coupon stale_coupon) 1700000000000))
           (db.Invalid "Coupon expired").
Proof.
  pose proof (validateCoupon_precedence "SAVE10" 22500
                (online (store_with_coupon stale_coupon) 1700000000000)
                (store_with_coupon stale_coupon) eq_refl) as H.
  cbn [coupon_with_code store_with_coupon coupons Table.rows find stale_coupon
       Coupon.code String.eqb Ascii.eqb Bool.eqb] in H.
  destruct H as (_ & _ & _ & _ & _ & H).
  apply (H (1700000000000 - 86400000) 1);
    [reflexivity | reflexivity | cbn; lia | reflexivity | cbn; lia].
Defined.

(** C3, counterexample.  The coupon [zero_limit_coupon] exists, is active,
    has no expiry date, and its usage limit is set (to 0) with a usage
    count (0) that has reached it; yet validation against an order amount
    of 22500 answers "valid": the guard [coupon.usageLimit && ...] reads a
    limit of 0 as no limit. *)
Lemma validateCoupon_zero_limit_valid :
  Coupon.usageLimit zero_limit_coupon = Some 0
  /\ 0 <= Js.or_num (Coupon.usageCount zero_limit_coupon) 0
  /\ resolves (db.validateCoupon "FREE0" 22500
                 (online (store_with_coupon zero_limit_coupon) 1700000000000))
              (db.Valid zero_limit_coupon)
  /\ ~ resolves (db.validateCoupon "FREE0" 22500
                   (online (store_with_coupon zero_limit_coupon) 1700000000000))
                (db.Invalid "Coupon usage limit reached").
Proof.
  split; [reflexivity|]. split; [cbn; lia|].
  rewrite (validateCoupon_available "FREE0" 22500
             (online (store_with_coupon zero_limit_coupon) 1700000000000)
             (store_with_coupon zero_limit_coupon) eq_refl).
  split.
  - eexists; reflexivity.
  - intros [w' H]. discriminate H.
Qed.

(** C3, amended.  For every coupon that is found and active and not
    expired, whose usage limit is set and is not zero, and whose usage
    count (an absent count being 0) is greater than or equal to that
    limit, [validateCoupon] answers invalid with the reason
    "Coupon usage limit reached", for every order amount. *)
Theorem validateCoupon_usage_limit_reached
  (code : string) (orderAmount : Z) (w : World) (s : Store)
  (c : Coupon.t) (limit : Z) :
  handle w = Some s ->
  coupon_with_code code s = Some c ->
  Js.truthy_opt_bool (Coupon.isActive c) = true ->
  db.expired (clock w) c = false ->
  Coupon.usageLimit c = Some limit ->
  limit <> 0 ->
  limit <= Js.or_num (Coupon.usageCount c) 0 ->
  resolves (db.validateCoupon code orderAmount w)
           (db.Invalid "Coupon usage limit reached").
Proof.
  intros H Hc Ha He Hl Hnz Hge.
  rewrite (validateCoupon_available _ _ _ _ H), Hc.
  unfold coupon_decision. rewrite Ha, He. cbn [negb].
  unfold db.usage_exhausted, Js.truthy_num. rewrite Hl.
  apply Z.eqb_neq in Hnz. apply Z.leb_le in Hge. rewrite Hnz, Hge.
  eexists; reflexivity.
Qed.

Lemma validateCoupon_usage_limit_reached_witness :
  resolves (db.validateCoupon "ONCE" 22500
              (online (store_with_coupon spent_coupon) 1700000000000))
           (db.Invalid "Coupon usage limit reached").
Proof.
  apply (validateCoupon_usage_limit_reached "ONCE" 22500
           (online (store_with_coupon spent_coupon) 1700000000000)
           (store_with_coupon spent_coupon) spent_coupon 1);
    [reflexivity | reflexivity | reflexivity | reflexivity | reflexivity
    | lia | cbn; lia].
Defined.

(** ** Orders: status updates *)

Lemma orders_updateStatus_available (u : User.t) (input : appRouter.UpdateStatusInput)
  (w : World) (s : Store) :
  handle w = Some s ->
  appRouter.orders_updateStatus (as_user u) input w
  = Resolved tt
      (set_db (Some (with_orders
                       (Table.update
                          (fun r => Order.id r =? appRouter.us_id input)
                          (db.set_status (appRouter.us_status input))
                          (orders s))
                       s))
              (set_db (Some s) w)).
Proof.
  intros H.
  unfold appRouter.orders_updateStatus, db.updateOrderStatus.
  cbv beta iota delta [bind appRouter.protectedProcedure as_user appRouter.user].
  rewrite (getDb_available _ _ H). reflexivity.
Qed.

(** C4, counterexample.  The stored order is "delivered"; Alice asks for
    "pending"; the call succeeds and the stored status is "pending". *)
Lemma orders_updateStatus_leaves_terminal :
  terminal delivered_order
  /\ resolves (appRouter.orders_updateStatus (as_user alice)
                 (appRouter.mkUpdateStatusInput 1 pending)
                 (online (store_with_order delivered_order) 1700000000000)) tt
  /\ exists s' r,
       store_after (appRouter.orders_updateStatus (as_user alice)
                      (appRouter.mkUpdateStatusInput 1 pending)
                      (online (store_with_order delivered_order) 1700000000000))
       = Some s'
       /\ Table.rows (orders s') = [r]
       /\ Order.id r = Order.id delivered_order
       /\ Order.status r = Some pending.
Proof.
  split; [left; reflexivity|].
  rewrite (orders_updateStatus_available alice (appRouter.mkUpdateStatusInput 1 pending)
             (online (store_with_order delivered_order) 1700000000000)
             (store_with_order delivered_order) eq_refl).
  split; [eexists; reflexivity|].
  eexists _, _. repeat split; reflexivity.
Qed.

(** C4, amended.  [orders.updateStatus] does not look at the stored
    status: for an authenticated caller and an available store the call
    succeeds for every order id and every requested target status; every
    order with that id, one whose stored status is "delivered" or
    "cancelled" included, then has the requested status and is otherwise
    unchanged, and every order with another id is unchanged. *)
Theorem orders_updateStatus_unconditional
  (u : User.t) (input : appRouter.UpdateStatusInput) (w : World) (s : Store) :
  handle w = Some s ->
  resolves (appRouter.orders_updateStatus (as_user u) input w) tt
  /\ exists s',
       store_after (appRouter.orders_updateStatus (as_user u) input w) = Some s'
       /\ Table.rows (orders s')
          = map (fun r => if Order.id r =? appRouter.us_id input
                          then db.set_status (appRouter.us_status input) r
                          else r)
                (Table.rows (orders s))
       /\ (forall r, In r (Table.rows (orders s)) ->
                     Order.id r = appRouter.us_id input ->
                     In (db.set_status (appRouter.us_status input) r)
                        (Table.rows (orders s'))
                     /\ Order.status (db.set_status (appRouter.us_status input) r)
                        = Some (appRouter.us_status input))
       /\ (forall r, In r (Table.rows (orders s)) ->
                     Order.id r <> appRouter.us_id input ->
                     In r (Table.rows (orders s'))).
Proof.
  intros H. rewrite (orders_updateStatus_available u input w s H).
  split; [eexists; reflexivity|].
  eexists. split; [reflexivity|]. split; [reflexivity|].
  cbn [with_orders orders Table.update Table.rows].
  split; intros r Hin Hid.
  - split; [|reflexivity].
    apply in_map_iff. exists r. split; [|exact Hin].
    apply Z.eqb_eq in Hid. now rewrite Hid.
  - apply in_map_iff. exists r. split; [|exact Hin].
    apply Z.eqb_neq in Hid. now rewrite Hid.
Qed.

Lemma orders_updateStatus_unconditional_witness :
  resolves (appRouter.orders_updateStatus (as_user alice)
              (appRouter.mkUpdateStatusInput 1 cancelled)
              (online (store_with_order delivered_order) 1700000000000)) tt.
Proof.
  exact (proj1 (orders_updateStatus_unconditional alice
                  (appRouter.mkUpdateStatusInput 1 cancelled)
                  (online (store_with_order delivered_order) 1700000000000)
                  (store_with_order delivered_order) eq_refl)).
Defined.

(** ** The discounted price *)

(** *** Binary64 rounding

    The primitive operations are specified by the reference
    implementation of [SpecFloat]; what follows derives from it the facts
    about rounding that the price helper needs. *)

Lemma fexp64 (e : Z) : SpecFloat.fexp prec emax e = Z.max (e - 53) (-1074).
Proof. reflexivity. Qed.

Lemma digits2_pos_size (p : positive) : SpecFloat.digits2_pos p = Pos.size p.
Proof. induction p; simpl; congruence. Qed.

Lemma digits2_pos_upper (p : positive) : Zpos p < 2 ^ Zpos (SpecFloat.digits2_pos p).
Proof.
  rewrite digits2_pos_size.
  pose proof (Pos.size_gt p) as H.
  change 2 with (Zpos 2). rewrite <- Pos2Z.inj_pow. lia.
Qed.

Lemma digits2_pos_lower (p : positive) : 2 ^ (Zpos (SpecFloat.digits2_pos p) - 1) <= Zpos p.
Proof.
  rewrite digits2_pos_size.
  pose proof (Pos.size_le p) as H.
  assert (H2 : 2 ^ Zpos (Pos.size p) <= 2 * Zpos p).
  { change 2 with (Zpos 2) at 1. rewrite <- Pos2Z.inj_pow. lia. }
  replace (Zpos (Pos.size p)) with (Z.succ (Zpos (Pos.size p) - 1)) in H2 by lia.
  rewrite Z.pow_succ_r in H2 by lia. lia.
Qed.

Lemma digits2_pos_le (p : positive) (k : Z) :
  0 <= k -> Zpos p < 2 ^ k -> Zpos (SpecFloat.digits2_pos p) <= k.
Proof.
  intros Hk Hp. pose proof (digits2_pos_lower p) as Hl.
  destruct (Z.le_gt_cases (Zpos (SpecFloat.digits2_pos p)) k) as [H|H]; [exact H|].
  exfalso.
  assert (2 ^ k <= 2 ^ (Zpos (SpecFloat.digits2_pos p) - 1)) by (apply Z.pow_le_mono_r; lia).
  lia.
Qed.

Lemma digits2_pos_gt (p : positive) (k : Z) :
  0 <= k -> 2 ^ k <= Zpos p -> k < Zpos (SpecFloat.digits2_pos p).
Proof.
  intros Hk Hp. pose proof (digits2_pos_upper p) as Hu.
  destruct (Z.lt_ge_cases k (Zpos (SpecFloat.digits2_pos p))) as [H|H]; [exact H|].
  exfalso.
  assert (2 ^ Zpos (SpecFloat.digits2_pos p) <= 2 ^ k) by (apply Z.pow_le_mono_r; lia).
  lia.
Qed.

(** Shifting right *)

Lemma shr_1_nonneg (m : Z) (r s : bool) :
  0 <= m ->
  SpecFloat.shr_1 (SpecFloat.Build_shr_record m r s)
  = SpecFloat.Build_shr_record (m / 2) (Z.odd m) (r || s).
Proof.
  intros Hm. destruct m as [|p|p]; [reflexivity| |lia].
  destruct p as [p|p|]; unfold SpecFloat.shr_1.
  - f_equal. rewrite Pos2Z.inj_xI. 
    replace (2 * Zpos p + 1) with (1 + Zpos p * 2) by lia.
    rewrite Z.div_add by lia. reflexivity.
  - f_equal. rewrite Pos2Z.inj_xO.
    replace (2 * Zpos p) with (0 + Zpos p * 2) by lia.
    rewrite Z.div_add by lia. reflexivity.
  - reflexivity.
Qed.

Lemma shifted_step (M k : Z) (mrs : SpecFloat.shr_record) :
  0 <= M -> 0 <= k -> shifted M k mrs -> shifted M (k + 1) (SpecFloat.shr_1 mrs).
Proof.
  intros HM Hk [Hm Hrs]. destruct mrs as [m r s]. simpl in Hm, Hrs.
  assert (H2k : 0 < 2 ^ k) by (apply Z.pow_pos_nonneg; lia).
  assert (Hm0 : 0 <= m) by (subst m; apply Z.div_pos; lia).
  rewrite shr_1_nonneg by exact Hm0.
  assert (Hpow : 2 ^ (k + 1) = 2 ^ k * 2) by (rewrite Z.pow_add_r by lia; reflexivity).
  split; simpl.
  - rewrite Hpow, <- Z.div_div by lia. now subst m.
  - rewrite Hpow, Z.rem_mul_r by lia.
    rewrite <- Hm.
    pose proof (Z.mod_pos_bound M (2 ^ k) H2k) as Hb.
    pose proof (Zmod_odd m) as Ho.
    destruct (Z.odd m); simpl.
    + split; [discriminate|]. intros H. nia.
    + rewrite Hrs. split; intros H; nia.
Qed.

Lemma shifted_iter (M : Z) (p : positive) :
  0 <= M ->
  forall k mrs, 0 <= k -> shifted M k mrs ->
                shifted M (k + Zpos p) (SpecFloat.iter_pos SpecFloat.shr_1 p mrs).
Proof.
  intros HM. induction p as [p IH|p IH|]; intros k mrs Hk H; simpl.
  - apply shifted_step in H; [|lia|lia].
    apply IH in H; [|lia]. apply IH in H; [|lia].
    replace (k + Zpos p~1) with (k + 1 + Zpos p + Zpos p) by lia. exact H.
  - apply IH in H; [|lia]. apply IH in H; [|lia].
    replace (k + Zpos p~0) with (k + Zpos p + Zpos p) by lia. exact H.
  - now apply shifted_step.
Qed.

Lemma shifted_start (M : Z) : shifted M 0 (SpecFloat.Build_shr_record M false false).
Proof.
  split; simpl.
  - now rewrite Z.div_1_r.
  - rewrite Z.mod_1_r. tauto.
Qed.

(** [shr] from an exact record *)
Lemma shr_exact (M e n : Z) :
  0 <= M ->
  exists mrs,
    SpecFloat.shr (SpecFloat.Build_shr_record M false false) e n = (mrs, e + Z.max 0 n)
    /\ shifted M (Z.max 0 n) mrs.
Proof.
  intros HM. destruct n as [|p|p].
  - eexists. split; [simpl; rewrite Z.add_0_r; reflexivity|apply shifted_start].
  - eexists. split; [reflexivity|].
    change (Z.max 0 (Zpos p)) with (0 + Zpos p).
    apply shifted_iter; [exact HM|lia|apply shifted_start].
  - eexists. split; [simpl; rewrite Z.add_0_r; reflexivity|apply shifted_start].
Qed.

Lemma round_nearest_even_bounds (mrs : SpecFloat.shr_record) :
  let r := SpecFloat.round_nearest_even (SpecFloat.shr_m mrs)
             (SpecFloat.loc_of_shr_record mrs) in
  SpecFloat.shr_m mrs <= r <= SpecFloat.shr_m mrs + 1
  /\ (SpecFloat.shr_r mrs || SpecFloat.shr_s mrs = false -> r = SpecFloat.shr_m mrs).
Proof.
  destruct mrs as [m [|] [|]]; simpl; try (split; [lia|intros; congruence]).
  destruct (Z.even m); split; try lia; intros; congruence.
Qed.

Lemma binary_round_aux_exact (M E : Z) :
  0 <= M ->
  exists r1,
    M / 2 ^ Z.max 0 (SpecFloat.fexp prec emax (SpecFloat.Zdigits2 M + E) - E) <= r1
    /\ r1 <= M / 2 ^ Z.max 0 (SpecFloat.fexp prec emax (SpecFloat.Zdigits2 M + E) - E) + 1
    /\ (M mod 2 ^ Z.max 0 (SpecFloat.fexp prec emax (SpecFloat.Zdigits2 M + E) - E) = 0 ->
        r1 = M / 2 ^ Z.max 0 (SpecFloat.fexp prec emax (SpecFloat.Zdigits2 M + E) - E))
    /\ SpecFloat.binary_round_aux prec emax false M E SpecFloat.loc_Exact
       = let e1 := E + Z.max 0 (SpecFloat.fexp prec emax (SpecFloat.Zdigits2 M + E) - E) in
         let k2 := Z.max 0 (SpecFloat.fexp prec emax (SpecFloat.Zdigits2 r1 + e1) - e1) in
         match r1 / 2 ^ k2 with
         | Z0 => S754_zero false
         | Zpos m => if e1 + k2 <=? emax - prec
                     then S754_finite false m (e1 + k2)
                     else S754_infinity false
         | Zneg _ => S754_nan
         end.
Proof.
  intros HM.
  set (k1 := Z.max 0 (SpecFloat.fexp prec emax (SpecFloat.Zdigits2 M + E) - E)).
  destruct (shr_exact M E (SpecFloat.fexp prec emax (SpecFloat.Zdigits2 M + E) - E) HM)
    as (mrs1 & Hshr1 & Hm1 & Hrs1).
  fold k1 in Hshr1, Hm1, Hrs1.
  pose proof (round_nearest_even_bounds mrs1) as Hr. cbv zeta in Hr.
  set (r1 := SpecFloat.round_nearest_even (SpecFloat.shr_m mrs1)
               (SpecFloat.loc_of_shr_record mrs1)) in *.
  destruct Hr as [Hr1 Hr2]. rewrite Hm1 in Hr1, Hr2.
  assert (H0 : 0 <= M / 2 ^ k1).
  { apply Z.div_pos; [exact HM|]. apply Z.pow_pos_nonneg; unfold k1; lia. }
  assert (Hr0 : 0 <= r1) by lia.
  exists r1. split; [lia|]. split; [lia|]. split.
  - intros Hmod. apply Hr2. now apply Hrs1.
  - cbv zeta.
    destruct (shr_exact r1 (E + k1)
                (SpecFloat.fexp prec emax (SpecFloat.Zdigits2 r1 + (E + k1)) - (E + k1)) Hr0)
      as (mrs2 & Hshr2 & Hm2 & _).
    unfold SpecFloat.binary_round_aux, SpecFloat.shr_fexp.
    change (SpecFloat.shr_record_of_loc M SpecFloat.loc_Exact)
      with (SpecFloat.Build_shr_record M false false).
    rewrite Hshr1. fold r1.
    change (SpecFloat.shr_record_of_loc r1 SpecFloat.loc_Exact)
      with (SpecFloat.Build_shr_record r1 false false).
    rewrite Hshr2, Hm2. reflexivity.
Qed.



Lemma digits2_pos_iter_xO (p k : positive) :
  SpecFloat.digits2_pos (Pos.iter xO p k) = (SpecFloat.digits2_pos p + k)%positive.
Proof.
  induction k as [|k IH] using Pos.peano_ind.
  - simpl. lia.
  - rewrite Pos.iter_succ. simpl. rewrite IH. lia.
Qed.

Lemma binary_round_aux_canonical (m : positive) (e : Z) :
  SpecFloat.fexp prec emax (Zpos (SpecFloat.digits2_pos m) + e) = e ->
  e <= 971 ->
  SpecFloat.binary_round_aux prec emax false (Zpos m) e SpecFloat.loc_Exact
  = S754_finite false m e.
Proof.
  intros Hcan He.
  destruct (binary_round_aux_exact (Zpos m) e) as (r1 & _ & _ & Hr1 & Hbra); [lia|].
  rewrite Hbra. clear Hbra. cbv zeta.
  cbn [SpecFloat.Zdigits2] in *. rewrite Hcan in *.
  replace (e - e) with 0 in * by lia. change (Z.max 0 0) with 0 in *.
  change (2 ^ 0) with 1 in *.
  rewrite Z.mod_1_r, Z.div_1_r in Hr1. specialize (Hr1 eq_refl). subst r1.
  rewrite Z.add_0_r. cbn [SpecFloat.Zdigits2]. rewrite Hcan.
  replace (e - e) with 0 by lia. change (Z.max 0 0) with 0.
  change (2 ^ 0) with 1. rewrite Z.div_1_r, Z.add_0_r.
  change (emax - prec) with 971.
  apply Z.leb_le in He. now rewrite He.
Qed.

Lemma Prim2SF_number_of_int (n : Z) :
  0 <= n < 2 ^ 53 ->
  Prim2SF (HomeScreen.number_of_int n) = S754_zero false
  \/ exists m e, Prim2SF (HomeScreen.number_of_int n) = S754_finite false m e.
Proof.
  intros Hn. unfold HomeScreen.number_of_int.
  destruct (Z.ltb_spec n 0) as [|_]; [lia|].
  rewrite of_uint63_spec, Uint63.of_Z_spec.
  rewrite Z.mod_small.
  2:{ split; [lia|]. apply Z.lt_trans with (2 ^ 53); [lia|]. reflexivity. }
  destruct n as [|p|p]; [left; reflexivity| |lia].
  right. unfold SpecFloat.binary_normalize, SpecFloat.binary_round.
  rewrite fexp64.
  assert (Hd : Zpos (SpecFloat.digits2_pos p) <= 53) by (apply digits2_pos_le; lia).
  set (d := SpecFloat.digits2_pos p) in *.
  replace (Z.max (Zpos d + 0 - 53) (-1074)) with (Zpos d - 53) by lia.
  unfold SpecFloat.shl_align.
  destruct (Zpos d - 53 - 0) as [|k|k] eqn:Hk.
  - eexists _, _. apply binary_round_aux_canonical; [|lia].
    rewrite fexp64. fold d. lia.
  - lia.
  - eexists _, _. apply binary_round_aux_canonical; [|lia].
    rewrite fexp64, digits2_pos_iter_xO. fold d. lia.
Qed.




(** Every price up to 100 minor units and every percentage, evaluated: the
    result is fractional whenever 100 does not divide
    [price * discountPercentage]. *)
Lemma getDiscountedPrice_checked :
  forallb
    (fun p =>
       forallb
         (fun d =>
            implb (HomeScreen.whole_binary64
                     (HomeScreen.getDiscountedPrice
                        (HomeScreen.number_of_int (Z.of_nat p))
                        (HomeScreen.number_of_int (Z.of_nat d))))
                  (Z.of_nat p * Z.of_nat d mod 100 =? 0))
         (seq 0 101))
    (seq 0 101)
  = true.
Proof. vm_compute. reflexivity. Qed.




(** ** The cart *)

Section CartFrame.

Variables (a b : Z).
Hypothesis distinct : a <> b.

Let owned_by (x : Z) := fun r : CartItem.t => CartItem.userId r =? x.

Lemma filter_owner_insert (l : list CartItem.t) (r : CartItem.t) :
  CartItem.userId r = a ->
  filter (owned_by b) (l ++ [r]) = filter (owned_by b) l.
Proof.
  intros Hr. rewrite filter_app. simpl. unfold owned_by at 2.
  rewrite Hr. destruct (Z.eqb_spec a b); [contradiction|]. apply app_nil_r.
Qed.

Lemma filter_owner_clear (l : list CartItem.t) :
  filter (owned_by b) (filter (fun r => negb (owned_by a r)) l)
  = filter (owned_by b) l.
Proof.
  induction l as [|r l IH]; simpl; [reflexivity|].
  unfold owned_by in *.
  destruct (Z.eqb_spec (CartItem.userId r) a) as [Ha|Ha]; simpl.
  - destruct (Z.eqb_spec (CartItem.userId r) b); [congruence|exact IH].
  - destruct (CartItem.userId r =? b); [f_equal|]; exact IH.
Qed.

End CartFrame.

Lemma filter_owner_update (b id : Z) (f : CartItem.t -> CartItem.t)
  (l : list CartItem.t) :
  (forall r, In r l -> CartItem.userId r = b -> CartItem.id r <> id) ->
  (forall r, CartItem.userId (f r) = CartItem.userId r) ->
  filter (fun r => CartItem.userId r =? b)
         (map (fun r => if CartItem.id r =? id then f r else r) l)
  = filter (fun r => CartItem.userId r =? b) l.
Proof.
  intros Hid Hf. induction l as [|r l IH]; simpl; [reflexivity|].
  assert (IH' := IH (fun r0 Hin => Hid r0 (or_intror Hin))).
  destruct (Z.eqb_spec (CartItem.id r) id) as [Hr|Hr].
  - rewrite Hf.
    destruct (Z.eqb_spec (CartItem.userId r) b) as [Hb|Hb]; [|exact IH'].
    exfalso. exact (Hid r (or_introl eq_refl) Hb Hr).
  - destruct (CartItem.userId r =? b); [f_equal|]; exact IH'.
Qed.

Lemma filter_owner_remove (b id : Z) (l : list CartItem.t) :
  (forall r, In r l -> CartItem.userId r = b -> CartItem.id r <> id) ->
  filter (fun r => CartItem.userId r =? b)
         (filter (fun r => negb (CartItem.id r =? id)) l)
  = filter (fun r => CartItem.userId r =? b) l.
Proof.
  intros Hid. induction l as [|r l IH]; simpl; [reflexivity|].
  assert (IH' := IH (fun r0 Hin => Hid r0 (or_intror Hin))).
  destruct (Z.eqb_spec (CartItem.id r) id) as [Hr|Hr]; simpl.
  - destruct (Z.eqb_spec (CartItem.userId r) b) as [Hb|Hb]; [|exact IH'].
    exfalso. exact (Hid r (or_introl eq_refl) Hb Hr).
  - destruct (CartItem.userId r =? b); [f_equal|]; exact IH'.
Qed.

(** Unfolds a cart procedure called by an authenticated user on a world
    whose store is available. *)
Ltac run_procedure H :=
  cbv beta iota delta [bind appRouter.protectedProcedure appRouter.publicProcedure
                       as_user appRouter.user];
  rewrite (getDb_available _ _ H);
  cbv beta iota zeta delta [Table.insert bind commit ret].

Lemma cart_list_available (u : User.t) (w : World) (s : Store) :
  handle w = Some s ->
  appRouter.cart_list (as_user u) tt w
  = Resolved (cart_of (User.id u) s) (set_db (Some s) w).
Proof.
  intros H. unfold appRouter.cart_list, db.getCartItems. run_procedure H.
  reflexivity.
Qed.

Lemma cart_add_available (u : User.t) (input : appRouter.CartAddInput)
  (w : World) (s : Store) :
  handle w = Some s ->
  appRouter.cart_add (as_user u) input w
  = Resolved (Table.autoIncrement (cartItems s))
      (set_db
         (Some (with_cartItems
                  (Table.mk
                     (Table.rows (cartItems s)
                      ++ [CartItem.mk (Table.autoIncrement (cartItems s)) (User.id u)
                            (appRouter.ca_productId input)
                            (db.or_else (appRouter.ca_quantity input) 1)])
                     (Table.autoIncrement (cartItems s) + 1))
                  s))
         (set_db (Some s) w)).
Proof.
  intros H. unfold appRouter.cart_add, db.addToCart. run_procedure H.
  rewrite or_num_insertId. reflexivity.
Qed.

Lemma cart_update_available (u : User.t) (input : appRouter.CartUpdateInput)
  (w : World) (s : Store) :
  handle w = Some s ->
  appRouter.cart_update (as_user u) input w
  = Resolved tt
      (set_db
         (Some (with_cartItems
                  (Table.update
                     (fun r => CartItem.id r =? appRouter.cu_id input)
                     (fun r => CartItem.mk (CartItem.id r) (CartItem.userId r)
                                 (CartItem.productId r) (appRouter.cu_quantity input))
                     (cartItems s))
                  s))
         (set_db (Some s) w)).
Proof.
  intros H. unfold appRouter.cart_update, db.updateCartItem. run_procedure H.
  reflexivity.
Qed.

Lemma cart_remove_available (u : User.t) (id : Z) (w : World) (s : Store) :
  handle w = Some s ->
  appRouter.cart_remove (as_user u) id w
  = Resolved tt
      (set_db
         (Some (with_cartItems
                  (Table.delete (fun r => CartItem.id r =? id) (cartItems s)) s))
         (set_db (Some s) w)).
Proof.
  intros H. unfold appRouter.cart_remove, db.removeFromCart. run_procedure H.
  reflexivity.
Qed.

Lemma cart_clear_available (u : User.t) (w : World) (s : Store) :
  handle w = Some s ->
  appRouter.cart_clear (as_user u) tt w
  = Resolved tt
      (set_db
         (Some (with_cartItems
                  (Table.delete (fun r => CartItem.userId r =? User.id u) (cartItems s))
                  s))
         (set_db (Some s) w)).
Proof.
  intros H. unfold appRouter.cart_clear, db.clearCart. run_procedure H.
  reflexivity.
Qed.

(** C6, counterexample.  Bob owns the cart row with id 1.  Alice, a
    different user, calls [cart.remove] with that id and Bob's row is gone;
    she calls [cart.update] with that id and Bob's quantity is hers. *)
Lemma cart_remove_update_cross_user :
  User.id alice <> User.id bob
  /\ cart_of (User.id bob) (store_with_cart [bobs_row]) = [bobs_row]
  /\ (exists s',
        store_after (appRouter.cart_remove (as_user alice) 1
                       (online (store_with_cart [bobs_row]) 1700000000000))
        = Some s'
        /\ cart_of (User.id bob) s' = [])
  /\ (exists s',
        store_after (appRouter.cart_update (as_user alice)
                       (appRouter.mkCartUpdateInput 1 99)
                       (online (store_with_cart [bobs_row]) 1700000000000))
        = Some s'
        /\ cart_of (User.id bob) s' = [CartItem.mk 1 2 40 99]).
Proof.
  split; [discriminate|]. split; [reflexivity|]. split.
  - rewrite (cart_remove_available alice 1
               (online (store_with_cart [bobs_row]) 1700000000000)
               (store_with_cart [bobs_row]) eq_refl).
    eexists; split; reflexivity.
  - rewrite (cart_update_available alice (appRouter.mkCartUpdateInput 1 99)
               (online (store_with_cart [bobs_row]) 1700000000000)
               (store_with_cart [bobs_row]) eq_refl).
    eexists; split; reflexivity.
Qed.

(** C6, amended.  For distinct users A and B and an available store:
    [cart.list] called by A returns exactly the rows whose userId is A;
    [cart.add] and [cart.clear] called by A leave every cart row whose
    userId is B unchanged; [cart.update] and [cart.remove] select the row
    by its id alone, and leave every cart row of B unchanged whenever the
    supplied id is not the id of a row of B. *)
Theorem cart_procedures_frame (ua ub : User.t) (w : World) (s : Store) :
  User.id ua <> User.id ub ->
  handle w = Some s ->
  (exists rows,
     resolves (appRouter.cart_list (as_user ua) tt w) rows
     /\ rows = cart_of (User.id ua) s
     /\ forall r, In r rows -> CartItem.userId r = User.id ua)
  /\ (forall input,
        keeps_cart_of (User.id ub) s (appRouter.cart_add (as_user ua) input w))
  /\ keeps_cart_of (User.id ub) s (appRouter.cart_clear (as_user ua) tt w)
  /\ (forall input,
        (forall r, In r (cart_of (User.id ub) s) ->
                   CartItem.id r <> appRouter.cu_id input) ->
        keeps_cart_of (User.id ub) s (appRouter.cart_update (as_user ua) input w))
  /\ (forall id,
        (forall r, In r (cart_of (User.id ub) s) -> CartItem.id r <> id) ->
        keeps_cart_of (User.id ub) s (appRouter.cart_remove (as_user ua) id w)).
Proof.
  intros Hab H.
  assert (Hrows : forall id,
             (forall r, In r (cart_of (User.id ub) s) -> CartItem.id r <> id) ->
             forall r, In r (Table.rows (cartItems s)) ->
                       CartItem.userId r = User.id ub -> CartItem.id r <> id).
  { intros id Hid r Hin Hb. apply Hid. unfold cart_of.
    apply filter_In. split; [exact Hin|]. now apply Z.eqb_eq. }
  split; [|split; [|split; [|split]]].
  - rewrite (cart_list_available ua w s H).
    eexists. split; [eexists; reflexivity|]. split; [reflexivity|].
    intros r Hin. unfold cart_of in Hin. apply filter_In in Hin.
    now apply Z.eqb_eq.
  - intros input. rewrite (cart_add_available ua input w s H).
    eexists. split; [reflexivity|].
    unfold cart_of; cbn [with_cartItems cartItems Table.rows].
    now apply (filter_owner_insert (User.id ua)).
  - rewrite (cart_clear_available ua w s H).
    eexists. split; [reflexivity|].
    unfold cart_of; cbn [with_cartItems cartItems Table.rows Table.delete].
    now apply (filter_owner_clear (User.id ua)).
  - intros input Hid. rewrite (cart_update_available ua input w s H).
    eexists. split; [reflexivity|].
    unfold cart_of; cbn [with_cartItems cartItems Table.rows Table.update].
    apply filter_owner_update; [now apply Hrows|reflexivity].
  - intros id Hid. rewrite (cart_remove_available ua id w s H).
    eexists. split; [reflexivity|].
    unfold cart_of; cbn [with_cartItems cartItems Table.rows Table.delete].
    apply filter_owner_remove. now apply Hrows.
Qed.

Lemma cart_procedures_frame_witness :
  keeps_cart_of (User.id bob) (store_with_cart [bobs_row])
    (appRouter.cart_clear (as_user alice) tt
       (online (store_with_cart [bobs_row]) 1700000000000)).
Proof.
  refine (proj1 (proj2 (proj2
            (cart_procedures_frame alice bob
               (online (store_with_cart [bobs_row]) 1700000000000)
               (store_with_cart [bobs_row]) _ eq_refl)))).
  discriminate.
Defined.

(** ** The wishlist *)

Lemma wishlist_remove_available (u : User.t) (productId : Z) (w : World) (s : Store) :
  handle w = Some s ->
  appRouter.wishlist_remove (as_user u) productId w
  = Resolved tt
      (set_db
         (Some (with_wishlistItems
                  (Table.delete (fun r => WishlistItem.userId r =? User.id u)
                                (wishlistItems s))
                  s))
         (set_db (Some s) w)).
Proof.
  intros H. unfold appRouter.wishlist_remove, db.removeFromWishlist.
  run_procedure H. reflexivity.
Qed.

(** Whatever product is named, the caller's wishlist is empty afterwards. *)
Lemma wishlist_remove_empties (u : User.t) (productId : Z) (w : World) (s : Store) :
  handle w = Some s ->
  exists s',
    store_after (appRouter.wishlist_remove (as_user u) productId w) = Some s'
    /\ wishlist_of (User.id u) s' = [].
Proof.
  intros H. rewrite (wishlist_remove_available u productId w s H).
  eexists. split; [reflexivity|].
  unfold wishlist_of; cbn [with_wishlistItems wishlistItems Table.rows Table.delete].
  induction (Table.rows (wishlistItems s)) as [|r l IH]; simpl; [reflexivity|].
  destruct (WishlistItem.userId r =? User.id u) eqn:E; simpl; [exact IH|].
  rewrite E. exact IH.
Qed.

(** C7, the code at the failing input.  Alice holds wishlist items for the
    distinct products 10 and 20 and calls [wishlist.remove] with product
    10: the call succeeds and her item for product 20 is deleted as well,
    so that her wishlist is empty. *)
Theorem wishlist_remove_deletes_other_items :
  wishlist_of (User.id alice) (store_with_wishlist alices_wishlist)
  = [WishlistItem.mk 1 1 10; WishlistItem.mk 2 1 20]
  /\ resolves (appRouter.wishlist_remove (as_user alice) 10
                 (online (store_with_wishlist alices_wishlist) 1700000000000)) tt
  /\ exists s',
       store_after (appRouter.wishlist_remove (as_user alice) 10
                      (online (store_with_wishlist alices_wishlist) 1700000000000))
       = Some s'
       /\ wishlist_of (User.id alice) s' = []
       /\ ~ In (WishlistItem.mk 2 1 20) (Table.rows (wishlistItems s')).
Proof.
  split; [reflexivity|].
  rewrite (wishlist_remove_available alice 10
             (online (store_with_wishlist alices_wishlist) 1700000000000)
             (store_with_wishlist alices_wishlist) eq_refl).
  split; [eexists; reflexivity|].
  eexists. split; [reflexivity|]. split; [reflexivity|].
  simpl. tauto.
Qed.

(** ** The store is unavailable *)

(** Runs an access function on a world in which [getDb] returns [null]. *)
Ltac run_unavailable H :=
  let w' := fresh "w'" in
  let Hg := fresh "Hg" in
  destruct (getDb_unavailable _ H) as (w' & Hg & _ & _);
  cbv beta iota delta
    [bind db.getUserByOpenId db.getCategories db.getCategoryBySlug db.getProducts
     db.getProductsByCategory db.getProductById db.getFeaturedProducts
     db.getCartItems db.getWishlistItems db.getUserAddresses db.getOrderById
     db.getUserOrders db.getOrderItems db.getProductReviews db.getCouponByCode
     db.validateCoupon db.getActiveBanners db.addToCart db.updateCartItem
     db.removeFromCart db.clearCart db.addToWishlist db.removeFromWishlist
     db.addAddress db.updateAddress db.deleteAddress db.createOrder
     db.updateOrderStatus db.updatePaymentStatus db.createOrderItem
     db.createReview];
  rewrite Hg;
  cbv beta iota delta [bind ret throw console_warn];
  eexists; reflexivity.

(** C8, counterexample.  With no database handle, [upsertUser] - a write -
    returns normally: it logs a warning, writes nothing, and raises no
    error. *)
Lemma upsertUser_unavailable_returns :
  store_unavailable offline
  /\ resolves (db.upsertUser (sign_in "alice") offline) tt
  /\ (forall message, ~ rejects (db.upsertUser (sign_in "alice") offline) message)
  /\ store_after (db.upsertUser (sign_in "alice") offline) = None.
Proof.
  split; [reflexivity|]. split; [eexists; reflexivity|].
  split; [|reflexivity].
  intros message [w' H]. discriminate H.
Qed.

(** C8, amended.  When [getDb] returns [null]: every read function
    resolves with an empty list or an absent row ([validateCoupon] answers
    "Coupon not found"); every write function other than [upsertUser]
    rejects with "Database not available", for every input; [upsertUser]
    rejects only a record without [openId] and otherwise logs a warning and
    returns without writing. *)
Theorem unavailable_store_behaviour (w : World) :
  store_unavailable w ->
  (* read paths *)
  ((forall openId, resolves (db.getUserByOpenId openId w) None)
   /\ resolves (db.getCategories w) []
   /\ (forall slug, resolves (db.getCategoryBySlug slug w) None)
   /\ (forall limit offset, resolves (db.getProducts limit offset w) [])
   /\ (forall categoryId limit offset,
         resolves (db.getProductsByCategory categoryId limit offset w) [])
   /\ (forall id, resolves (db.getProductById id w) None)
   /\ (forall limit, resolves (db.getFeaturedProducts limit w) [])
   /\ (forall userId, resolves (db.getCartItems userId w) [])
   /\ (forall userId, resolves (db.getWishlistItems userId w) [])
   /\ (forall userId, resolves (db.getUserAddresses userId w) [])
   /\ (forall id, resolves (db.getOrderById id w) None)
   /\ (forall userId, resolves (db.getUserOrders userId w) [])
   /\ (forall orderId, resolves (db.getOrderItems orderId w) [])
   /\ (forall productId, resolves (db.getProductReviews productId w) [])
   /\ (forall code, resolves (db.getCouponByCode code w) None)
   /\ (forall code orderAmount,
         resolves (db.validateCoupon code orderAmount w)
                  (db.Invalid "Coupon not found"))
   /\ resolves (db.getActiveBanners w) [])
  (* write paths that raise *)
  /\ ((forall userId productId quantity,
         rejects (db.addToCart userId productId quantity w) "Database not available")
      /\ (forall id quantity,
            rejects (db.updateCartItem id quantity w) "Database not available")
      /\ (forall id, rejects (db.removeFromCart id w) "Database not available")
      /\ (forall userId, rejects (db.clearCart userId w) "Database not available")
      /\ (forall userId productId,
            rejects (db.addToWishlist userId productId w) "Database not available")
      /\ (forall userId productId,
            rejects (db.removeFromWishlist userId productId w) "Database not available")
      /\ (forall data, rejects (db.addAddress data w) "Database not available")
      /\ (forall id data, rejects (db.updateAddress id data w) "Database not available")
      /\ (forall id, rejects (db.deleteAddress id w) "Database not available")
      /\ (forall data, rejects (db.createOrder data w) "Database not available")
      /\ (forall id status,
            rejects (db.updateOrderStatus id status w) "Database not available")
      /\ (forall id paymentStatus paymentId,
            rejects (db.updatePaymentStatus id paymentStatus paymentId w)
                    "Database not available")
      /\ (forall data, rejects (db.createOrderItem data w) "Database not available")
      /\ (forall data, rejects (db.createReview data w) "Database not available"))
  (* upsertUser *)
  /\ (forall user,
        iu_openId_missing user = true ->
        rejects (db.upsertUser user w) "User openId is required for upsert")
  /\ (forall user,
        iu_openId_missing user = false ->
        resolves (db.upsertUser user w) tt
        /\ store_after (db.upsertUser user w) = None
        /\ In "[Database] Cannot upsert user: database not available"
              (console (world_of (db.upsertUser user w)))).
Proof.
  intros H.
  split; [|split; [|split]].
  - repeat split; intros; run_unavailable H.
  - repeat split; intros; run_unavailable H.
  - intros user Hu. unfold db.upsertUser, iu_openId_missing in *.
    rewrite Hu. eexists; reflexivity.
  - intros user Hu. unfold db.upsertUser, iu_openId_missing in *.
    rewrite Hu.
    destruct (getDb_unavailable _ H) as (w' & Hg & Hdb & Hun).
    cbv beta iota delta [bind console_warn ret]. rewrite Hg.
    cbn [world_of]. split; [eexists; reflexivity|].
    split.
    + unfold store_after; cbn [world_of].
      unfold store_unavailable, handle in *. simpl. exact Hun.
    + simpl. apply in_or_app. right. left. reflexivity.
Qed.

Lemma unavailable_store_behaviour_witness :
  rejects (db.addToCart 1 40 1 offline) "Database not available".
Proof.
  refine (proj1 (proj1 (proj2 (unavailable_store_behaviour offline _))) 1 40 1).
  reflexivity.
Defined.

(** ** Delivery code *)

(** C9.  For every order with a delivery code set and an expiry strictly
    before the current time, verification with the matching code - and
    with any other code - does not succeed. *)
Theorem verify_fails_after_expiry
  (order : Order.t) (code supplied : string) (expiry today : Z) :
  Order.deliveryOtp order = Some code ->
  Order.deliveryOtpExpiry order = Some expiry ->
  expiry < today ->
  DeliveryOtp.verify order code today = false
  /\ DeliveryOtp.verify order supplied today = false.
Proof.
  intros Hc He Hlt. unfold DeliveryOtp.verify. rewrite Hc, He.
  assert (Hb : (today <? expiry) = false) by (apply Z.ltb_ge; lia).
  rewrite Hb, !andb_false_r. split; reflexivity.
Qed.

Lemma verify_fails_after_expiry_witness :
  DeliveryOtp.verify order_with_stale_otp "123456" 1700000000000 = false.
Proof.
  refine (proj1 (verify_fails_after_expiry order_with_stale_otp "123456" "123456"
                   (1700000000000 - 1000) 1700000000000 _ _ _));
    [reflexivity | reflexivity | lia].
Defined.

Lemma verify_succeeds_before_expiry
  (order : Order.t) (code : string) (expiry today : Z) :
  Order.deliveryOtp order = Some code ->
  Order.deliveryOtpExpiry order = Some expiry ->
  today < expiry ->
  DeliveryOtp.verify order code today = true.
Proof.
  intros Hc He Hlt. unfold DeliveryOtp.verify. rewrite Hc, He.
  rewrite String.eqb_refl. apply Z.ltb_lt in Hlt. now rewrite Hlt.
Qed.

(** ** The catalogue *)

Section Pages.

Context {R : Type}.

Lemma In_limit (n : N) (l : list R) (x : R) : In x (Table.limit n l) -> In x l.
Proof.
  unfold Table.limit. intros H.
  rewrite <- (firstn_skipn (N.to_nat n) l). apply in_or_app. now left.
Qed.

Lemma In_offset (n : N) (l : list R) (x : R) : In x (Table.offset n l) -> In x l.
Proof.
  unfold Table.offset. intros H.
  rewrite <- (firstn_skipn (N.to_nat n) l). apply in_or_app. now right.
Qed.

Lemma In_execute (q : Sql.query R) (l : list R) (x : R) :
  Sql.execute q = Some l -> In x l -> In x (Sql.matched q).
Proof.
  unfold Sql.execute.
  destruct (Sql.limit_clause q), (Sql.offset_clause q); intros [= <-] H;
    repeat (apply In_limit in H || apply In_offset in H); exact H.
Qed.

Lemma matched_paginate (limit offset : option N) (q : Sql.query R) :
  Sql.matched (db.paginate limit offset q) = Sql.matched q.
Proof.
  unfold db.paginate.
  destruct limit as [n|], offset as [m|];
    try destruct (n =? 0)%N; try destruct (m =? 0)%N; reflexivity.
Qed.

Lemma execute_unpaginated (l : list R) :
  Sql.execute (db.paginate None None (Sql.from l)) = Some l.
Proof. reflexivity. Qed.

Lemma execute_paginate_map (f : R -> R) (limit offset : option N) (l : list R) :
  Sql.execute (db.paginate limit offset (Sql.from (map f l)))
  = option_map (map f) (Sql.execute (db.paginate limit offset (Sql.from l))).
Proof.
  unfold db.paginate, Sql.execute, Table.limit, Table.offset.
  destruct limit as [n|], offset as [m|];
    try destruct (n =? 0)%N; try destruct (m =? 0)%N; cbn;
    rewrite <- ?firstn_map, <- ?skipn_map; reflexivity.
Qed.

(** A page with a non-zero limit is always served. *)
Lemma execute_limited (n : N) (offset : option N) (l : list R) :
  n <> 0%N ->
  Sql.execute (db.paginate (Some n) offset (Sql.from l))
  = Some (Table.limit n
            match offset with
            | Some m => if (m =? 0)%N then l else Table.offset m l
            | None => l
            end).
Proof.
  intros Hn. apply N.eqb_neq in Hn. unfold db.paginate. rewrite Hn.
  destruct offset as [m|]; [destruct (m =? 0)%N|]; reflexivity.
Qed.

(** What [await] makes of the server's answer. *)
Lemma await_run (q : Sql.query R) (w : World) :
  Sql.await q w
  = match Sql.execute q with
    | Some l => Resolved l w
    | None => Rejected "ER_PARSE_ERROR" w
    end.
Proof. unfold Sql.await. now destruct (Sql.execute q). Qed.

End Pages.

Lemma filter_map_invariant {R} (q : R -> bool) (f : R -> R) (l : list R) :
  (forall x, q (f x) = q x) ->
  filter q (map f l) = map f (filter q l).
Proof.
  intros Hq. induction l as [|x l IH]; simpl; [reflexivity|].
  rewrite Hq. destruct (q x); simpl; now rewrite IH.
Qed.

Lemma products_byCategory_available (ctx : appRouter.Context)
  (input : appRouter.ByCategoryInput) (w : World) (s : Store) :
  handle w = Some s ->
  appRouter.products_byCategory ctx input w
  = Sql.await
      (db.paginate (appRouter.bc_limit input) (appRouter.bc_offset input)
         (Sql.from
            (filter (fun r => Product.categoryId r =? appRouter.bc_categoryId input)
                    (Table.rows (products s)))))
      (set_db (Some s) w).
Proof.
  intros H. unfold appRouter.products_byCategory, db.getProductsByCategory.
  run_procedure H. reflexivity.
Qed.

Lemma products_list_available (ctx : appRouter.Context)
  (input : appRouter.PageInput) (w : World) (s : Store) :
  handle w = Some s ->
  appRouter.products_list ctx input w
  = Sql.await
      (db.paginate (appRouter.pi_limit input) (appRouter.pi_offset input)
         (Sql.from (filter Product.isActive (Table.rows (products s)))))
      (set_db (Some s) w).
Proof.
  intros H. unfold appRouter.products_list, db.getProducts.
  run_procedure H. reflexivity.
Qed.

(** C10.  On an available store [products.byCategory] filters by
    [categoryId] only.  Called without [limit] and [offset] it returns
    every product of the category, so that a product of the category whose
    [isActive] flag is false appears in the result.  With any page
    arguments, whatever the call returns belongs to the category, and the
    flags play no part in the outcome: with every flag set to true the
    call returns the same products (up to the flags) where it returned
    some, and is refused where it was refused.  [products.list] without
    page arguments returns exactly the products whose [isActive] flag is
    true, and with any page arguments it never returns a product whose
    flag is false. *)
Theorem byCategory_ignores_isActive (ctx : appRouter.Context) (w : World) (s : Store) :
  handle w = Some s ->
  (forall categoryId p,
     In p (Table.rows (products s)) ->
     Product.categoryId p = categoryId ->
     Product.isActive p = false ->
     exists l,
       resolves (appRouter.products_byCategory ctx
                   (appRouter.mkByCategoryInput categoryId None None) w) l
       /\ In p l)
  /\ (forall input l,
        resolves (appRouter.products_byCategory ctx input w) l ->
        (forall p, In p l -> Product.categoryId p = appRouter.bc_categoryId input)
        /\ (forall w', handle w' = Some (all_active s) ->
                       resolves (appRouter.products_byCategory ctx input w')
                                (map (set_isActive true) l)))
  /\ (forall input message,
        rejects (appRouter.products_byCategory ctx input w) message ->
        forall w', handle w' = Some (all_active s) ->
                   rejects (appRouter.products_byCategory ctx input w') message)
  /\ (exists l,
        resolves (appRouter.products_list ctx (appRouter.mkPageInput None None) w) l
        /\ forall p, In p l <->
                     In p (Table.rows (products s)) /\ Product.isActive p = true)
  /\ (forall input l,
        resolves (appRouter.products_list ctx input w) l ->
        forall p, In p l -> Product.isActive p = true).
Proof.
  intros H. split; [|split; [|split; [|split]]].
  - intros categoryId p Hin Hc Hf.
    rewrite (products_byCategory_available ctx _ w s H), await_run.
    cbn [appRouter.bc_limit appRouter.bc_offset appRouter.bc_categoryId].
    rewrite execute_unpaginated.
    eexists. split; [eexists; reflexivity|].
    apply filter_In. split; [exact Hin|]. now apply Z.eqb_eq.
  - intros input l [w1 Hl].
    rewrite (products_byCategory_available ctx input w s H), await_run in Hl.
    destruct (Sql.execute _) as [l0|] eqn:E in Hl; [|discriminate].
    injection Hl as <- _. split.
    + intros p Hp. apply (In_execute _ _ _ E) in Hp.
      rewrite matched_paginate in Hp.
      cbn [Sql.matched Sql.from] in Hp. apply filter_In in Hp.
      now apply Z.eqb_eq.
    + intros w' H'.
      rewrite (products_byCategory_available ctx input w' _ H'), await_run.
      cbn [all_active with_products products Table.rows].
      rewrite filter_map_invariant by reflexivity.
      rewrite execute_paginate_map, E. eexists; reflexivity.
  - intros input message [w1 Hm] w' H'.
    rewrite (products_byCategory_available ctx input w s H), await_run in Hm.
    destruct (Sql.execute _) as [l0|] eqn:E in Hm; [discriminate|].
    injection Hm as <- _.
    rewrite (products_byCategory_available ctx input w' _ H'), await_run.
    cbn [all_active with_products products Table.rows].
    rewrite filter_map_invariant by reflexivity.
    rewrite execute_paginate_map, E. eexists; reflexivity.
  - rewrite (products_list_available ctx _ w s H), await_run.
    cbn [appRouter.pi_limit appRouter.pi_offset]. rewrite execute_unpaginated.
    eexists. split; [eexists; reflexivity|].
    intros p. apply filter_In.
  - intros input l [w1 Hl] p Hp.
    rewrite (products_list_available ctx input w s H), await_run in Hl.
    destruct (Sql.execute _) as [l0|] eqn:E in Hl; [|discriminate].
    injection Hl as <- _.
    apply (In_execute _ _ _ E) in Hp. rewrite matched_paginate in Hp.
    cbn [Sql.matched Sql.from] in Hp. apply filter_In in Hp. tauto.
Qed.

Lemma byCategory_ignores_isActive_witness :
  exists l,
    resolves (appRouter.products_byCategory anonymous
                (appRouter.mkByCategoryInput 3 None None)
                (online (store_with_products [rice; withdrawn_tea]) 1700000000000)) l
    /\ In withdrawn_tea l.
Proof.
  refine (proj1 (byCategory_ignores_isActive anonymous
                   (online (store_with_products [rice; withdrawn_tea]) 1700000000000)
                   (store_with_products [rice; withdrawn_tea]) eq_refl)
                3 withdrawn_tea _ eq_refl eq_refl).
  right; left; reflexivity.
Defined.

(** * Further properties of the access layer and the procedures *)

(** ** Users *)

Lemma find_update {R} (p : R -> bool) (f : R -> R) (l : list R) :
  (forall r, p r = true -> p (f r) = true) ->
  find p (map (fun r => if p r then f r else r) l) = option_map f (find p l).
Proof.
  intros Hp. induction l as [|r l IH]; simpl; [reflexivity|].
  destruct (p r) eqn:E.
  - now rewrite (Hp r E).
  - rewrite E. exact IH.
Qed.

Lemma find_insert_fresh {R} (p : R -> bool) (l : list R) (x : R) :
  existsb p l = false -> p x = true -> find p (l ++ [x]) = Some x.
Proof.
  intros Hl Hx. induction l as [|r l IH]; simpl in *.
  - now rewrite Hx.
  - apply orb_false_iff in Hl. destruct Hl as [Hr Hl]. rewrite Hr. now apply IH.
Qed.

Lemma find_none_existsb {R} (p : R -> bool) (l : list R) :
  find p l = None <-> existsb p l = false.
Proof.
  induction l as [|r l IH]; simpl; [tauto|].
  destruct (p r); simpl; [split; discriminate|exact IH].
Qed.

Lemma getUserByOpenId_available (openId : string) (w : World) (s : Store) :
  handle w = Some s ->
  db.getUserByOpenId openId w
  = Resolved (user_with_openId openId s) (set_db (Some s) w).
Proof.
  intros H. unfold db.getUserByOpenId, bind, ret.
  rewrite (getDb_available _ _ H), first_limit_select. reflexivity.
Qed.

Lemma upsertUser_available (user : db.InsertUser) (w : World) (s : Store) :
  handle w = Some s ->
  iu_openId_missing user = false ->
  db.upsertUser user w
  = Resolved tt
      (set_db
         (Some (with_users
                  (db.insert_onDuplicateKeyUpdate (db.iu_openId user)
                     (values_of user w) (updateSet_of user w) (users s))
                  s))
         (set_db (Some s) w)).
Proof.
  intros H Hid. unfold db.upsertUser.
  unfold iu_openId_missing in Hid. rewrite Hid.
  cbv beta iota delta [bind]. rewrite (getDb_available _ _ H).
  reflexivity.
Qed.

Lemma apply_updateSet_openId (u : db.UserAssignments) (r : User.t) :
  User.openId (db.apply_updateSet u r) = User.openId r.
Proof. reflexivity. Qed.

Lemma insert_onDuplicateKeyUpdate_find
  (openId : string) (values updateSet : db.UserAssignments) (tb : Table.t User.t) :
  find (fun r => String.eqb (User.openId r) openId)
       (Table.rows (db.insert_onDuplicateKeyUpdate openId values updateSet tb))
  = Some match find (fun r => String.eqb (User.openId r) openId) (Table.rows tb) with
         | Some old => db.apply_updateSet updateSet old
         | None => db.user_of_values openId values (Table.autoIncrement tb)
         end.
Proof.
  unfold db.insert_onDuplicateKeyUpdate.
  destruct (existsb _ (Table.rows tb)) eqn:E.
  - cbn [Table.update Table.rows]. rewrite find_update by (intros r Hr; exact Hr).
    destruct (find _ (Table.rows tb)) eqn:F; [reflexivity|].
    apply find_none_existsb in F. congruence.
  - cbn [Table.insert fst Table.rows].
    rewrite (proj2 (find_none_existsb _ _) E).
    apply find_insert_fresh; [exact E|]. cbn. apply String.eqb_refl.
Qed.

(** Reading back the row that was just upserted. *)
Lemma upsertUser_read_back (user : db.InsertUser) (w : World) (s : Store) :
  handle w = Some s ->
  iu_openId_missing user = false ->
  resolves (db.getUserByOpenId (db.iu_openId user) (world_of (db.upsertUser user w)))
           (Some (upserted_row user w s)).
Proof.
  intros H Hid. rewrite (upsertUser_available user w s H Hid). cbn [world_of].
  rewrite (getUserByOpenId_available _ _ _ (handle_set_db _ _)).
  unfold user_with_openId at 1. cbn [with_users users].
  rewrite insert_onDuplicateKeyUpdate_find. eexists; reflexivity.
Qed.

(** X1.  What [upsertUser] is given, [getUserByOpenId] gives back: after
    an upsert on an available store the row found under [user.openId]
    carries every name, email and login method that was supplied ([null]
    clears the column), the role when one was supplied, and the sign-in
    time when one was supplied. *)
Theorem upsertUser_stores_supplied_fields
  (user : db.InsertUser) (w : World) (s : Store) :
  handle w = Some s ->
  iu_openId_missing user = false ->
  exists row,
    resolves (db.getUserByOpenId (db.iu_openId user) (world_of (db.upsertUser user w)))
             (Some row)
    /\ User.openId row = db.iu_openId user
    /\ (forall v, db.iu_name user = Js.Val v -> User.name row = Some v)
    /\ (db.iu_name user = Js.Null -> User.name row = None)
    /\ (forall v, db.iu_email user = Js.Val v -> User.email row = Some v)
    /\ (db.iu_email user = Js.Null -> User.email row = None)
    /\ (forall v, db.iu_loginMethod user = Js.Val v -> User.loginMethod row = Some v)
    /\ (db.iu_loginMethod user = Js.Null -> User.loginMethod row = None)
    /\ (forall r, db.iu_role user = Some r -> User.role row = r)
    /\ (forall t, db.iu_lastSignedIn user = Some t -> User.lastSignedIn row = t).
Proof.
  intros H Hid. exists (upserted_row user w s).
  split; [exact (upsertUser_read_back user w s H Hid)|].
  unfold upserted_row, user_with_openId.
  destruct (find _ (Table.rows (users s))) as [old|] eqn:F.
  - apply find_some in F. destruct F as [_ F]. apply String.eqb_eq in F.
    unfold updateSet_of, assigned_of, db.no_keys.
    destruct user as [oid [|         |n] [| |e] [| |m] [t|] [r|]];
      cbn in *; destruct (String.eqb oid (ownerOpenId w));
      cbn; repeat split; intros; congruence.
  - unfold values_of, assigned_of.
    destruct user as [oid [| |n] [| |e] [| |m] [t|] [r|]];
      cbn in *; destruct (String.eqb oid (ownerOpenId w));
      cbn; repeat split; intros; congruence.
Qed.

Lemma upsertUser_stores_supplied_fields_witness :
  exists row,
    resolves (db.getUserByOpenId "alice"
                (world_of (db.upsertUser alice_renamed
                             (online (store_with_users [alice; bob]) 1700000000000))))
             (Some row)
    /\ User.name row = Some "Alice B.".
Proof.
  destruct (upsertUser_stores_supplied_fields alice_renamed
              (online (store_with_users [alice; bob]) 1700000000000)
              (store_with_users [alice; bob]) eq_refl eq_refl)
    as (row & Hr & _ & Hn & _).
  exists row. split; [exact Hr|]. exact (Hn "Alice B." eq_refl).
Defined.

(** X2.  For a user already stored, [upsertUser] keeps the row's id and
    every column the argument leaves undefined; the role is kept when none
    is supplied and the user is not the owner.  The sign-in time is
    refreshed to the current time only when the argument carries nothing
    but the [openId]; when some other field is supplied and no sign-in time
    is, the stored sign-in time stays. *)
Theorem upsertUser_keeps_unsupplied_fields
  (user : db.InsertUser) (w : World) (s : Store) (old : User.t) :
  handle w = Some s ->
  iu_openId_missing user = false ->
  user_with_openId (db.iu_openId user) s = Some old ->
  exists row,
    resolves (db.getUserByOpenId (db.iu_openId user) (world_of (db.upsertUser user w)))
             (Some row)
    /\ User.id row = User.id old
    /\ (db.iu_name user = Js.Undefined -> User.name row = User.name old)
    /\ (db.iu_email user = Js.Undefined -> User.email row = User.email old)
    /\ (db.iu_loginMethod user = Js.Undefined ->
        User.loginMethod row = User.loginMethod old)
    /\ (db.iu_role user = None -> db.iu_openId user <> ownerOpenId w ->
        User.role row = User.role old)
    /\ (db.iu_lastSignedIn user = None ->
        db.no_keys (assigned_of user w) = false ->
        User.lastSignedIn row = User.lastSignedIn old)
    /\ (db.no_keys (assigned_of user w) = true ->
        User.lastSignedIn row = clock w).
Proof.
  intros H Hid Hold. exists (upserted_row user w s).
  split; [exact (upsertUser_read_back user w s H Hid)|].
  unfold upserted_row. rewrite Hold.
  unfold updateSet_of, assigned_of, db.no_keys.
  destruct user as [oid [| |n] [| |e] [| |m] [t|] [r|]]; cbn in *;
    destruct (String.eqb_spec oid (ownerOpenId w));
    cbn; repeat split; intros; congruence.
Qed.

Lemma upsertUser_keeps_unsupplied_fields_witness :
  exists row,
    resolves (db.getUserByOpenId "alice"
                (world_of (db.upsertUser alice_renamed
                             (online (store_with_users [alice; bob]) 1700000000000))))
             (Some row)
    /\ User.id row = 1
    /\ User.lastSignedIn row = 0.
Proof.
  destruct (upsertUser_keeps_unsupplied_fields alice_renamed
              (online (store_with_users [alice; bob]) 1700000000000)
              (store_with_users [alice; bob]) alice eq_refl eq_refl eq_refl)
    as (row & Hr & Hi & _ & _ & _ & _ & Ht & _).
  exists row. split; [exact Hr|]. split; [exact Hi|]. exact (Ht eq_refl eq_refl).
Defined.

(** X3.  The configured owner is made an administrator: an upsert without
    a role whose [openId] is [ENV.ownerOpenId] leaves the row with role
    "admin", whether the row existed or not.  Any other user upserted
    without a role for the first time gets the role "user". *)
Theorem upsertUser_promotes_owner
  (user : db.InsertUser) (w : World) (s : Store) :
  handle w = Some s ->
  iu_openId_missing user = false ->
  db.iu_role user = None ->
  exists row,
    resolves (db.getUserByOpenId (db.iu_openId user) (world_of (db.upsertUser user w)))
             (Some row)
    /\ (db.iu_openId user = ownerOpenId w -> User.role row = role_admin)
    /\ (db.iu_openId user <> ownerOpenId w ->
        user_with_openId (db.iu_openId user) s = None ->
        User.role row = role_user).
Proof.
  intros H Hid Hrole. exists (upserted_row user w s).
  split; [exact (upsertUser_read_back user w s H Hid)|].
  unfold upserted_row, updateSet_of, values_of, assigned_of, db.no_keys.
  rewrite Hrole.
  destruct (String.eqb_spec (db.iu_openId user) (ownerOpenId w)) as [E|E].
  - split; [intros _|intros NE; contradiction].
    destruct (user_with_openId (db.iu_openId user) s);
      destruct (db.iu_name user), (db.iu_email user), (db.iu_loginMethod user),
        (db.iu_lastSignedIn user); reflexivity.
  - split; [intros E'; contradiction|intros _ ->].
    destruct (db.iu_lastSignedIn user); reflexivity.
Qed.

Lemma upsertUser_promotes_owner_witness :
  exists row,
    resolves (db.getUserByOpenId "owner"
                (world_of (db.upsertUser (sign_in "owner")
                             (online (store_with_users [alice; bob]) 1700000000000))))
             (Some row)
    /\ User.role row = role_admin.
Proof.
  destruct (upsertUser_promotes_owner (sign_in "owner")
              (online (store_with_users [alice; bob]) 1700000000000)
              (store_with_users [alice; bob]) eq_refl eq_refl eq_refl)
    as (row & Hr & Ha & _).
  exists row. split; [exact Hr|]. exact (Ha eq_refl).
Defined.

(** X4.  [upsertUser] keeps [openId] a key of the user table: if no two
    stored rows share an [openId] before, none do after.  Rows of other
    users are neither added, removed nor changed, and the table grows by
    one row exactly when the [openId] was not stored yet. *)
Theorem upsertUser_keeps_openId_unique
  (user : db.InsertUser) (w : World) (s : Store) :
  handle w = Some s ->
  iu_openId_missing user = false ->
  exists s',
    store_after (db.upsertUser user w) = Some s'
    /\ (NoDup (map User.openId (Table.rows (users s))) ->
        NoDup (map User.openId (Table.rows (users s'))))
    /\ (forall r, User.openId r <> db.iu_openId user ->
                  (In r (Table.rows (users s')) <-> In r (Table.rows (users s))))
    /\ List.length (Table.rows (users s'))
       = (List.length (Table.rows (users s))
          + match user_with_openId (db.iu_openId user) s with
            | Some _ => 0
            | None => 1
            end)%nat.
Proof.
  intros H Hid. rewrite (upsertUser_available user w s H Hid).
  eexists. split; [reflexivity|].
  cbn [with_users users]. unfold db.insert_onDuplicateKeyUpdate, user_with_openId.
  set (same := fun r => String.eqb (User.openId r) (db.iu_openId user)).
  destruct (existsb same (Table.rows (users s))) eqn:E.
  - cbn [Table.update Table.rows].
    assert (Hmap : map User.openId
                     (map (fun r => if same r
                                    then db.apply_updateSet (updateSet_of user w) r
                                    else r) (Table.rows (users s)))
                   = map User.openId (Table.rows (users s))).
    { rewrite map_map. apply map_ext. intros r. now destruct (same r). }
    split; [now rewrite Hmap|]. split.
    + intros r Hr. rewrite in_map_iff. split.
      * intros (r0 & Hr0 & Hin). destruct (same r0) eqn:S0; [|now subst].
        exfalso. apply Hr. subst r. unfold same in S0.
        now apply String.eqb_eq in S0.
      * intros Hin. exists r. split; [|exact Hin].
        destruct (same r) eqn:S0; [|reflexivity].
        exfalso. apply Hr. now apply String.eqb_eq in S0.
    + rewrite length_map.
      destruct (find same (Table.rows (users s))) eqn:F; [lia|].
      apply find_none_existsb in F. congruence.
  - cbn [Table.insert fst Table.rows].
    split; [|split].
    + intros Hnd. rewrite map_app. cbn.
      assert (Hnot : ~ In (db.iu_openId user) (map User.openId (Table.rows (users s)))).
      { intros Hin. apply in_map_iff in Hin. destruct Hin as (r & Hr & Hin).
        assert (existsb same (Table.rows (users s)) = true).
        { apply existsb_exists. exists r. split; [exact Hin|].
          unfold same. rewrite Hr. apply String.eqb_refl. }
        congruence. }
      clear E. induction (map User.openId (Table.rows (users s))) as [|x l IH].
      * constructor; [intros []|constructor].
      * inversion Hnd; subst. cbn. constructor.
        -- rewrite in_app_iff. intros [Hx|[Hx|[]]]; [contradiction|].
           apply Hnot. left. symmetry. exact Hx.
        -- apply IH; [assumption|]. intros Hin. apply Hnot. now right.
    + intros r Hr. rewrite in_app_iff. split; [|intros Hin; now left].
      intros [Hin|[Hin|[]]]; [exact Hin|]. exfalso. apply Hr. now subst r.
    + rewrite length_app. cbn.
      rewrite (proj2 (find_none_existsb _ _) E). reflexivity.
Qed.

Lemma upsertUser_keeps_openId_unique_witness :
  exists s',
    store_after (db.upsertUser (sign_in "carol")
                   (online (store_with_users [alice; bob]) 1700000000000))
    = Some s'
    /\ List.length (Table.rows (users s')) = 3%nat.
Proof.
  destruct (upsertUser_keeps_openId_unique (sign_in "carol")
              (online (store_with_users [alice; bob]) 1700000000000)
              (store_with_users [alice; bob]) eq_refl eq_refl)
    as (s' & Hs & _ & _ & Hl).
  exists s'. split; [exact Hs|]. exact Hl.
Defined.

(** ** The cart and the wishlist, continued *)

(** X5.  [cart.add] followed by [cart.list]: the caller's list is the list
    before followed by one new row, which carries the id the call
    returned, the product and the quantity given (1 when none is given).
    A row is added even when the caller already holds that product: rows
    are never merged. *)
Theorem cart_add_then_list
  (u : User.t) (input : appRouter.CartAddInput) (w : World) (s : Store) :
  handle w = Some s ->
  exists id,
    resolves (appRouter.cart_add (as_user u) input w) id
    /\ resolves (appRouter.cart_list (as_user u) tt
                   (world_of (appRouter.cart_add (as_user u) input w)))
                (cart_of (User.id u) s
                 ++ [CartItem.mk id (User.id u) (appRouter.ca_productId input)
                       (db.or_else (appRouter.ca_quantity input) 1)]).
Proof.
  intros H. rewrite (cart_add_available u input w s H). cbn [world_of].
  eexists. split; [eexists; reflexivity|].
  rewrite (cart_list_available u _ _ (handle_set_db _ _)).
  unfold cart_of; cbn [with_cartItems cartItems Table.rows].
  rewrite filter_app. cbn [filter CartItem.userId].
  rewrite Z.eqb_refl. eexists; reflexivity.
Qed.

Lemma cart_add_then_list_witness :
  exists id,
    resolves (appRouter.cart_add (as_user alice) (appRouter.mkCartAddInput 40 None)
                (online (store_with_cart (bobs_row :: alices_rows)) 1700000000000)) id
    /\ resolves (appRouter.cart_list (as_user alice) tt
                   (world_of
                      (appRouter.cart_add (as_user alice)
                         (appRouter.mkCartAddInput 40 None)
                         (online (store_with_cart (bobs_row :: alices_rows))
                                 1700000000000))))
                (cart_of (User.id alice) (store_with_cart (bobs_row :: alices_rows))
                 ++ [CartItem.mk id (User.id alice) 40 1]).
Proof.
  exact (cart_add_then_list alice (appRouter.mkCartAddInput 40 None)
           (online (store_with_cart (bobs_row :: alices_rows)) 1700000000000)
           (store_with_cart (bobs_row :: alices_rows)) eq_refl).
Defined.

Lemma filter_owner_cleared (a : Z) (l : list CartItem.t) :
  filter (fun r => CartItem.userId r =? a)
         (filter (fun r => negb (CartItem.userId r =? a)) l) = [].
Proof.
  induction l as [|r l IH]; simpl; [reflexivity|].
  destruct (CartItem.userId r =? a) eqn:E; simpl; [exact IH|].
  rewrite E. exact IH.
Qed.

(** X6.  [cart.clear] followed by [cart.list] returns the empty list, and
    the rows deleted are the caller's only: every other row of the table
    is still there, in the same order. *)
Theorem cart_clear_then_list (u : User.t) (w : World) (s : Store) :
  handle w = Some s ->
  resolves (appRouter.cart_list (as_user u) tt
              (world_of (appRouter.cart_clear (as_user u) tt w))) []
  /\ exists s',
       store_after (appRouter.cart_clear (as_user u) tt w) = Some s'
       /\ Table.rows (cartItems s')
          = filter (fun r => negb (CartItem.userId r =? User.id u))
                   (Table.rows (cartItems s)).
Proof.
  intros H. rewrite (cart_clear_available u w s H). cbn [world_of]. split.
  - rewrite (cart_list_available u _ _ (handle_set_db _ _)).
    unfold cart_of; cbn [with_cartItems cartItems Table.rows Table.delete].
    rewrite filter_owner_cleared. eexists; reflexivity.
  - eexists. split; reflexivity.
Qed.

Lemma cart_clear_then_list_witness :
  resolves (appRouter.cart_list (as_user alice) tt
              (world_of (appRouter.cart_clear (as_user alice) tt
                           (online (store_with_cart (bobs_row :: alices_rows))
                                   1700000000000)))) [].
Proof.
  exact (proj1 (cart_clear_then_list alice
                  (online (store_with_cart (bobs_row :: alices_rows)) 1700000000000)
                  (store_with_cart (bobs_row :: alices_rows)) eq_refl)).
Defined.

Lemma map_update_id (id : Z) (f : CartItem.t -> CartItem.t) (l : list CartItem.t) :
  (forall r, In r l -> CartItem.id r <> id) ->
  map (fun r => if CartItem.id r =? id then f r else r) l = l.
Proof.
  intros Hid. induction l as [|r l IH]; simpl; [reflexivity|].
  destruct (Z.eqb_spec (CartItem.id r) id) as [E|E].
  - exfalso. exact (Hid r (or_introl eq_refl) E).
  - f_equal. apply IH. intros r0 Hin. apply Hid. now right.
Qed.

(** X7.  [cart.update] rewrites the quantity and nothing else: the table
    keeps its rows' ids, owners and products in the same order; afterwards
    every row with the given id has the given quantity - which is stored
    as given, zero or negative included - and rows with another id keep
    theirs.  An id that no row has makes the call a successful no-op. *)
Theorem cart_update_sets_quantity_only
  (u : User.t) (input : appRouter.CartUpdateInput) (w : World) (s : Store) :
  handle w = Some s ->
  resolves (appRouter.cart_update (as_user u) input w) tt
  /\ exists s',
       store_after (appRouter.cart_update (as_user u) input w) = Some s'
       /\ map CartItem.id (Table.rows (cartItems s'))
          = map CartItem.id (Table.rows (cartItems s))
       /\ map CartItem.userId (Table.rows (cartItems s'))
          = map CartItem.userId (Table.rows (cartItems s))
       /\ map CartItem.productId (Table.rows (cartItems s'))
          = map CartItem.productId (Table.rows (cartItems s))
       /\ map CartItem.quantity (Table.rows (cartItems s'))
          = map (fun r => if CartItem.id r =? appRouter.cu_id input
                          then appRouter.cu_quantity input
                          else CartItem.quantity r)
                (Table.rows (cartItems s))
       /\ ((forall r, In r (Table.rows (cartItems s)) ->
                      CartItem.id r <> appRouter.cu_id input) ->
           Table.rows (cartItems s') = Table.rows (cartItems s)).
Proof.
  intros H. rewrite (cart_update_available u input w s H).
  split; [eexists; reflexivity|].
  eexists. split; [reflexivity|].
  cbn [with_cartItems cartItems Table.rows Table.update].
  rewrite !map_map.
  repeat split;
    try (apply map_ext; intros r;
         now destruct (CartItem.id r =? appRouter.cu_id input)).
  apply map_update_id.
Qed.

Lemma cart_update_sets_quantity_only_witness :
  resolves (appRouter.cart_update (as_user alice) (appRouter.mkCartUpdateInput 3 0)
              (online (store_with_cart (bobs_row :: alices_rows)) 1700000000000)) tt.
Proof.
  exact (proj1 (cart_update_sets_quantity_only alice (appRouter.mkCartUpdateInput 3 0)
                  (online (store_with_cart (bobs_row :: alices_rows)) 1700000000000)
                  (store_with_cart (bobs_row :: alices_rows)) eq_refl)).
Defined.

Lemma filter_all {R} (p : R -> bool) (l : list R) :
  (forall r, In r l -> p r = true) -> filter p l = l.
Proof.
  intros Hp. induction l as [|r l IH]; simpl; [reflexivity|].
  rewrite (Hp r (or_introl eq_refl)). f_equal. apply IH.
  intros r0 Hin. apply Hp. now right.
Qed.

Lemma delete_twice {R} (p : R -> bool) (tb : Table.t R) :
  Table.delete p (Table.delete p tb) = Table.delete p tb.
Proof.
  unfold Table.delete; cbn [Table.rows Table.autoIncrement]. f_equal.
  apply filter_all. intros r Hin. apply filter_In in Hin. tauto.
Qed.

(** X8.  [cart.remove] deletes exactly the rows with the given id: a row
    is in the table afterwards if and only if it was there before and has
    another id.  With an id that no row has, the call succeeds and the
    table is unchanged; removing the same id a second time changes
    nothing more. *)
Theorem cart_remove_deletes_by_id (u : User.t) (id : Z) (w : World) (s : Store) :
  handle w = Some s ->
  resolves (appRouter.cart_remove (as_user u) id w) tt
  /\ exists s',
       store_after (appRouter.cart_remove (as_user u) id w) = Some s'
       /\ (forall r, In r (Table.rows (cartItems s')) <->
                     In r (Table.rows (cartItems s)) /\ CartItem.id r <> id)
       /\ ((forall r, In r (Table.rows (cartItems s)) -> CartItem.id r <> id) ->
           Table.rows (cartItems s') = Table.rows (cartItems s))
       /\ store_after (appRouter.cart_remove (as_user u) id
                         (world_of (appRouter.cart_remove (as_user u) id w)))
          = Some s'.
Proof.
  intros H. rewrite (cart_remove_available u id w s H).
  split; [eexists; reflexivity|].
  eexists. split; [reflexivity|].
  cbn [with_cartItems cartItems Table.rows Table.delete world_of].
  split; [|split].
  - intros r. rewrite filter_In.
    destruct (Z.eqb_spec (CartItem.id r) id); simpl; intuition congruence.
  - intros Hid. apply filter_all. intros r Hin.
    destruct (Z.eqb_spec (CartItem.id r) id) as [E|E]; [|reflexivity].
    exfalso. exact (Hid r Hin E).
  - rewrite (cart_remove_available u id _ _ (handle_set_db _ _)).
    unfold store_after; cbn [world_of handle _db set_db].
    change (Some (with_cartItems
                    (Table.delete (fun r => CartItem.id r =? id)
                       (Table.delete (fun r => CartItem.id r =? id) (cartItems s)))
                    s)
            = Some (with_cartItems
                      (Table.delete (fun r => CartItem.id r =? id) (cartItems s)) s)).
    now rewrite delete_twice.
Qed.

Lemma cart_remove_deletes_by_id_witness :
  resolves (appRouter.cart_remove (as_user alice) 77
              (online (store_with_cart (bobs_row :: alices_rows)) 1700000000000)) tt.
Proof.
  exact (proj1 (cart_remove_deletes_by_id alice 77
                  (online (store_with_cart (bobs_row :: alices_rows)) 1700000000000)
                  (store_with_cart (bobs_row :: alices_rows)) eq_refl)).
Defined.

Lemma wishlist_list_available (u : User.t) (w : World) (s : Store) :
  handle w = Some s ->
  appRouter.wishlist_list (as_user u) tt w
  = Resolved (wishlist_of (User.id u) s) (set_db (Some s) w).
Proof.
  intros H. unfold appRouter.wishlist_list, db.getWishlistItems.
  run_procedure H. reflexivity.
Qed.

Lemma wishlist_add_available (u : User.t) (productId : Z) (w : World) (s : Store) :
  handle w = Some s ->
  appRouter.wishlist_add (as_user u) productId w
  = Resolved (Table.autoIncrement (wishlistItems s))
      (set_db
         (Some (with_wishlistItems
                  (Table.mk
                     (Table.rows (wishlistItems s)
                      ++ [WishlistItem.mk (Table.autoIncrement (wishlistItems s))
                            (User.id u) productId])
                     (Table.autoIncrement (wishlistItems s) + 1))
                  s))
         (set_db (Some s) w)).
Proof.
  intros H. unfold appRouter.wishlist_add, db.addToWishlist.
  run_procedure H. rewrite or_num_insertId. reflexivity.
Qed.

(** X9.  [wishlist.add] never rejects a product the caller already holds:
    two calls with the same product leave two rows for it, with
    consecutive ids, at the end of the caller's list. *)
Theorem wishlist_add_twice (u : User.t) (productId : Z) (w : World) (s : Store) :
  handle w = Some s ->
  exists id,
    resolves (appRouter.wishlist_add (as_user u) productId w) id
    /\ resolves (appRouter.wishlist_add (as_user u) productId
                   (world_of (appRouter.wishlist_add (as_user u) productId w)))
                (id + 1)
    /\ resolves (appRouter.wishlist_list (as_user u) tt
                   (world_of
                      (appRouter.wishlist_add (as_user u) productId
                         (world_of (appRouter.wishlist_add (as_user u) productId w)))))
                (wishlist_of (User.id u) s
                 ++ [WishlistItem.mk id (User.id u) productId;
                     WishlistItem.mk (id + 1) (User.id u) productId]).
Proof.
  intros H.
  rewrite (wishlist_add_available u productId w s H). cbn [world_of].
  rewrite (wishlist_add_available u productId _ _ (handle_set_db _ _)).
  cbn [world_of].
  rewrite (wishlist_list_available u _ _ (handle_set_db _ _)).
  eexists. split; [eexists; reflexivity|].
  split; [eexists; reflexivity|].
  unfold wishlist_of; cbn [with_wishlistItems wishlistItems Table.rows].
  rewrite !filter_app. cbn [filter WishlistItem.userId].
  rewrite Z.eqb_refl, <- app_assoc. eexists; reflexivity.
Qed.

Lemma wishlist_add_twice_witness :
  exists id,
    resolves (appRouter.wishlist_add (as_user alice) 10
                (online (store_with_wishlist alices_wishlist) 1700000000000)) id
    /\ resolves (appRouter.wishlist_add (as_user alice) 10
                   (world_of
                      (appRouter.wishlist_add (as_user alice) 10
                         (online (store_with_wishlist alices_wishlist)
                                 1700000000000))))
                (id + 1).
Proof.
  destruct (wishlist_add_twice alice 10
              (online (store_with_wishlist alices_wishlist) 1700000000000)
              (store_with_wishlist alices_wishlist) eq_refl)
    as (id & H1 & H2 & _).
  exists id. split; [exact H1|exact H2].
Defined.

(** ** The catalogue, continued *)

Lemma firstn_plus {R} (n m : nat) (l : list R) :
  firstn (n + m) l = firstn n l ++ firstn m (skipn n l).
Proof.
  revert l. induction n as [|n IH]; intros l; [reflexivity|].
  destruct l as [|x l]; simpl.
  - now rewrite firstn_nil.
  - now rewrite IH.
Qed.

(** X10.  Pages of [products.list] tile the catalogue: the first [n]
    products followed by the [m] products at offset [n] are the first
    [n + m] products (for non-zero [n] and [m]). *)
Theorem products_list_pages_concatenate
  (ctx : appRouter.Context) (n m : N) (w : World) (s : Store) :
  handle w = Some s ->
  n <> 0%N -> m <> 0%N ->
  exists first second both,
    resolves (appRouter.products_list ctx (appRouter.mkPageInput (Some n) None) w) first
    /\ resolves (appRouter.products_list ctx (appRouter.mkPageInput (Some m) (Some n)) w)
                second
    /\ resolves (appRouter.products_list ctx
                   (appRouter.mkPageInput (Some (n + m)%N) None) w)
                both
    /\ both = first ++ second.
Proof.
  intros H Hn Hm.
  assert (Hnm : (n + m)%N <> 0%N) by lia.
  rewrite !(products_list_available ctx _ w s H), !await_run.
  cbn [appRouter.pi_limit appRouter.pi_offset].
  rewrite !execute_limited by assumption.
  apply N.eqb_neq in Hn. rewrite Hn.
  eexists _, _, _. repeat (split; [eexists; reflexivity|]).
  unfold Table.limit, Table.offset.
  replace (N.to_nat (n + m)) with (N.to_nat n + N.to_nat m)%nat by lia.
  apply firstn_plus.
Qed.

Lemma products_list_pages_concatenate_witness :
  exists first second both,
    resolves (appRouter.products_list anonymous (appRouter.mkPageInput (Some 1%N) None)
                (online (store_with_products [rice; withdrawn_tea; rice]) 1700000000000))
             first
    /\ resolves (appRouter.products_list anonymous
                   (appRouter.mkPageInput (Some 1%N) (Some 1%N))
                   (online (store_with_products [rice; withdrawn_tea; rice])
                           1700000000000))
                second
    /\ resolves (appRouter.products_list anonymous
                   (appRouter.mkPageInput (Some (1 + 1)%N) None)
                   (online (store_with_products [rice; withdrawn_tea; rice])
                           1700000000000))
                both
    /\ both = first ++ second.
Proof.
  apply (products_list_pages_concatenate anonymous 1%N 1%N
           (online (store_with_products [rice; withdrawn_tea; rice]) 1700000000000)
           (store_with_products [rice; withdrawn_tea; rice]) eq_refl);
    discriminate.
Defined.

(** X11.  A [limit] of 0 and an [offset] of 0 are read as absent:
    [products.list] with both set to 0 returns every active product, not
    an empty page.  With a non-zero [limit] the page holds at most [limit]
    products. *)
Theorem products_list_zero_limit_is_no_limit
  (ctx : appRouter.Context) (w : World) (s : Store) :
  handle w = Some s ->
  resolves (appRouter.products_list ctx (appRouter.mkPageInput (Some 0%N) (Some 0%N)) w)
           (filter Product.isActive (Table.rows (products s)))
  /\ (forall n offset, n <> 0%N ->
      exists page,
        resolves (appRouter.products_list ctx (appRouter.mkPageInput (Some n) offset) w)
                 page
        /\ (List.length page <= N.to_nat n)%nat).
Proof.
  intros H. split.
  - rewrite (products_list_available ctx _ w s H). eexists; reflexivity.
  - intros n offset Hn.
    rewrite (products_list_available ctx _ w s H), await_run.
    cbn [appRouter.pi_limit appRouter.pi_offset].
    rewrite execute_limited by assumption.
    eexists. split; [eexists; reflexivity|].
    unfold Table.limit. apply firstn_le_length.
Qed.

Lemma products_list_zero_limit_is_no_limit_witness :
  resolves (appRouter.products_list anonymous
              (appRouter.mkPageInput (Some 0%N) (Some 0%N))
              (online (store_with_products [rice; withdrawn_tea; rice]) 1700000000000))
           [rice; rice].
Proof.
  exact (proj1 (products_list_zero_limit_is_no_limit anonymous
                  (online (store_with_products [rice; withdrawn_tea; rice])
                          1700000000000)
                  (store_with_products [rice; withdrawn_tea; rice]) eq_refl)).
Defined.

Lemma find_unique {R} (key : R -> Z) (l : list R) (x : R) :
  NoDup (map key l) -> In x l ->
  find (fun r => key r =? key x) l = Some x.
Proof.
  induction l as [|r l IH]; simpl; intros Hnd Hin; [contradiction|].
  inversion Hnd as [|? ? Hr Hl]; subst.
  destruct Hin as [->|Hin]; [now rewrite Z.eqb_refl|].
  destruct (Z.eqb_spec (key r) (key x)) as [E|E]; [|now apply IH].
  exfalso. apply Hr. rewrite E. now apply in_map.
Qed.

(** X12.  [products.byId] answers with a stored product of that id, or
    with nothing when no stored product has the id.  The [isActive] flag
    plays no part: when product ids are distinct, every stored product,
    withdrawn ones included, is returned under its id. *)
Theorem products_byId_finds_stored
  (ctx : appRouter.Context) (id : Z) (w : World) (s : Store) :
  handle w = Some s ->
  (exists answer,
     resolves (appRouter.products_byId ctx id w) answer
     /\ match answer with
        | Some p => In p (Table.rows (products s)) /\ Product.id p = id
        | None => forall p, In p (Table.rows (products s)) -> Product.id p <> id
        end)
  /\ (NoDup (map Product.id (Table.rows (products s))) ->
      forall p, In p (Table.rows (products s)) ->
                resolves (appRouter.products_byId ctx (Product.id p) w) (Some p)).
Proof.
  intros H.
  assert (Hrun : forall i,
            appRouter.products_byId ctx i w
            = Resolved (find (fun r => Product.id r =? i) (Table.rows (products s)))
                       (set_db (Some s) w)).
  { intros i. unfold appRouter.products_byId, db.getProductById.
    run_procedure H. now rewrite first_limit_select. }
  split.
  - rewrite Hrun. eexists. split; [eexists; reflexivity|].
    destruct (find _ (Table.rows (products s))) as [p|] eqn:F.
    + apply find_some in F. destruct F as [Hin E]. split; [exact Hin|].
      now apply Z.eqb_eq.
    + intros p Hin E. apply (find_none _ _ F) in Hin.
      apply Z.eqb_neq in Hin. contradiction.
  - intros Hnd p Hin. rewrite Hrun.
    rewrite (find_unique Product.id _ p Hnd Hin). eexists; reflexivity.
Qed.

Lemma products_byId_finds_stored_witness :
  resolves (appRouter.products_byId anonymous 2
              (online (store_with_products [rice; withdrawn_tea]) 1700000000000))
           (Some withdrawn_tea).
Proof.
  refine (proj2 (products_byId_finds_stored anonymous 2
                   (online (store_with_products [rice; withdrawn_tea]) 1700000000000)
                   (store_with_products [rice; withdrawn_tea]) eq_refl)
                _ withdrawn_tea _).
  - repeat constructor; simpl; intuition discriminate.
  - right; left; reflexivity.
Defined.

(** X13.  [products.featured] returns featured products only - a product
    whose [isFeatured] is [NULL] or false never appears - and at most
    [limit] of them, where an absent or zero [limit] counts as 10. *)
Theorem products_featured_bounded
  (ctx : appRouter.Context) (limit : option N) (w : World) (s : Store) :
  handle w = Some s ->
  exists page,
    resolves (appRouter.products_featured ctx limit w) page
    /\ (forall p, In p page ->
                  In p (Table.rows (products s)) /\ Product.isFeatured p = Some true)
    /\ (List.length page
        <= match limit with
           | Some n => if (n =? 0)%N then 10 else N.to_nat n
           | None => 10
           end)%nat.
Proof.
  intros H. unfold appRouter.products_featured, db.getFeaturedProducts.
  run_procedure H.
  eexists. split; [eexists; reflexivity|]. split.
  - intros p Hp. apply In_limit in Hp. unfold Table.select in Hp.
    apply filter_In in Hp. destruct Hp as [Hin Hf]. split; [exact Hin|].
    destruct (Product.isFeatured p) as [[|]|]; simpl in Hf; congruence.
  - unfold Table.limit.
    destruct limit as [n|]; [destruct (n =? 0)%N|]; apply firstn_le_length.
Qed.

Lemma products_featured_bounded_witness :
  exists page,
    resolves (appRouter.products_featured anonymous (Some 0%N)
                (online (store_with_products [rice; withdrawn_tea]) 1700000000000))
             page
    /\ (List.length page <= 10)%nat.
Proof.
  destruct (products_featured_bounded anonymous (Some 0%N)
              (online (store_with_products [rice; withdrawn_tea]) 1700000000000)
              (store_with_products [rice; withdrawn_tea]) eq_refl)
    as (page & Hr & _ & Hl).
  exists page. split; [exact Hr|exact Hl].
Defined.

(** ** Orders, continued *)

Lemma orders_byId_available (u : User.t) (id : Z) (w : World) (s : Store) :
  handle w = Some s ->
  appRouter.orders_byId (as_user u) id w
  = Resolved (find (fun r => Order.id r =? id) (Table.rows (orders s)))
             (set_db (Some s) w).
Proof.
  intros H. unfold appRouter.orders_byId, db.getOrderById.
  run_procedure H. now rewrite first_limit_select.
Qed.

Lemma orders_list_available (u : User.t) (w : World) (s : Store) :
  handle w = Some s ->
  appRouter.orders_list (as_user u) tt w
  = Resolved (orders_of (User.id u) s) (set_db (Some s) w).
Proof.
  intros H. unfold appRouter.orders_list, db.getUserOrders.
  run_procedure H. reflexivity.
Qed.

Lemma find_app_fresh {R} (p : R -> bool) (l : list R) (x : R) :
  (forall r, In r l -> p r = false) -> p x = true -> find p (l ++ [x]) = Some x.
Proof.
  intros Hl Hx. induction l as [|r l IH]; simpl.
  - now rewrite Hx.
  - rewrite (Hl r (or_introl eq_refl)). apply IH.
    intros r0 Hin. apply Hl. now right.
Qed.

(** X14.  [orders.create] followed by [orders.byId]: when the id the
    database hands out is not yet used by a stored order, the id returned
    by [orders.create] reads back the order just created - owned by the
    creator, with the amounts supplied and both statuses "pending" - and it
    does so for any authenticated caller, not only the creator. *)
Theorem orders_create_then_byId
  (u reader : User.t) (input : appRouter.OrderCreateInput) (w : World) (s : Store) :
  handle w = Some s ->
  (forall r, In r (Table.rows (orders s)) ->
             Order.id r <> Table.autoIncrement (orders s)) ->
  exists id row,
    resolves (appRouter.orders_create (as_user u) input w) id
    /\ resolves (appRouter.orders_byId (as_user reader) id
                   (world_of (appRouter.orders_create (as_user u) input w)))
                (Some row)
    /\ row = created_order u input w id
    /\ Order.id row = id
    /\ Order.userId row = User.id u
    /\ Order.totalAmount row = appRouter.totalAmount input
    /\ Order.status row = Some pending
    /\ Order.paymentStatus row = Some pay_pending
    /\ Order.deliveryOtp row = None.
Proof.
  intros H Hfresh.
  rewrite (orders_create_available u input w s H). cbn [world_of].
  exists (Table.autoIncrement (orders s)),
         (created_order u input w (Table.autoIncrement (orders s))).
  split; [eexists; reflexivity|].
  split; [|repeat split; reflexivity].
  rewrite (orders_byId_available reader _ _ _ (handle_set_db _ _)).
  cbn [with_orders orders Table.rows].
  rewrite find_app_fresh.
  - eexists; reflexivity.
  - intros r Hin. apply Z.eqb_neq. now apply Hfresh.
  - cbn. apply Z.eqb_refl.
Qed.

Lemma orders_create_then_byId_witness :
  exists id row,
    resolves (appRouter.orders_create (as_user alice) plain_order
                (online (store_with_order delivered_order) 1700000000000)) id
    /\ resolves (appRouter.orders_byId (as_user bob) id
                   (world_of (appRouter.orders_create (as_user alice) plain_order
                                (online (store_with_order delivered_order)
                                        1700000000000))))
                (Some row)
    /\ Order.userId row = User.id alice.
Proof.
  destruct (orders_create_then_byId alice bob plain_order
              (online (store_with_order delivered_order) 1700000000000)
              (store_with_order delivered_order) eq_refl)
    as (id & row & H1 & H2 & _ & _ & H3 & _).
  - intros r [<-|[]]. discriminate.
  - exists id, row. split; [exact H1|]. split; [exact H2|exact H3].
Defined.

(** X15.  [orders.create] followed by [orders.list]: the creator's list
    is the list before followed by the new order, and the list of every
    other user is as before.  The call writes to the order table only: the
    cart is not cleared, no product's stock is changed and no coupon's
    usage count is raised, even when a coupon code is supplied. *)
Theorem orders_create_then_list
  (u other : User.t) (input : appRouter.OrderCreateInput) (w : World) (s : Store) :
  handle w = Some s ->
  User.id other <> User.id u ->
  exists id s',
    resolves (appRouter.orders_create (as_user u) input w) id
    /\ resolves (appRouter.orders_list (as_user u) tt
                   (world_of (appRouter.orders_create (as_user u) input w)))
                (orders_of (User.id u) s ++ [created_order u input w id])
    /\ resolves (appRouter.orders_list (as_user other) tt
                   (world_of (appRouter.orders_create (as_user u) input w)))
                (orders_of (User.id other) s)
    /\ store_after (appRouter.orders_create (as_user u) input w) = Some s'
    /\ cartItems s' = cartItems s
    /\ products s' = products s
    /\ coupons s' = coupons s
    /\ orderItems s' = orderItems s.
Proof.
  intros H Hother.
  rewrite (orders_create_available u input w s H). cbn [world_of].
  rewrite !(orders_list_available _ _ _ (handle_set_db _ _)).
  exists (Table.autoIncrement (orders s)). eexists.
  split; [eexists; reflexivity|].
  unfold orders_of; cbn [with_orders orders Table.rows].
  rewrite !filter_app. cbn [filter db.order_of_data Order.userId db.od_userId].
  rewrite Z.eqb_refl.
  apply Z.eqb_neq in Hother. rewrite Z.eqb_sym in Hother. rewrite Hother.
  rewrite app_nil_r.
  split; [eexists; reflexivity|]. split; [eexists; reflexivity|].
  split; [reflexivity|]. repeat split; reflexivity.
Qed.

Lemma orders_create_then_list_witness :
  exists id,
    resolves (appRouter.orders_list (as_user alice) tt
                (world_of (appRouter.orders_create (as_user alice) plain_order
                             (online (store_with_order delivered_order)
                                     1700000000000))))
             (orders_of (User.id alice) (store_with_order delivered_order)
              ++ [created_order alice plain_order
                    (online (store_with_order delivered_order) 1700000000000) id]).
Proof.
  destruct (orders_create_then_list alice bob plain_order
              (online (store_with_order delivered_order) 1700000000000)
              (store_with_order delivered_order) eq_refl)
    as (id & s' & _ & H2 & _).
  - discriminate.
  - exists id. exact H2.
Defined.

Lemma orders_updatePaymentStatus_available
  (u : User.t) (input : appRouter.UpdatePaymentInput) (w : World) (s : Store) :
  handle w = Some s ->
  appRouter.orders_updatePaymentStatus (as_user u) input w
  = Resolved tt
      (set_db
         (Some (with_orders
                  (Table.update
                     (fun r => Order.id r =? appRouter.up_id input)
                     (db.set_payment (appRouter.up_paymentStatus input)
                        match appRouter.up_paymentId input with
                        | Some p => if Js.truthy_string p then Some p else None
                        | None => None
                        end)
                     (orders s))
                  s))
         (set_db (Some s) w)).
Proof.
  intros H. unfold appRouter.orders_updatePaymentStatus, db.updatePaymentStatus.
  run_procedure H. reflexivity.
Qed.

(** X16.  [orders.updatePaymentStatus] writes the payment columns only:
    ids, owners, order statuses and the four amounts of all orders stay as
    they were.  Every order with the given id gets the given payment
    status; its payment id is replaced when a non-empty one is supplied and
    kept when the supplied one is absent or the empty string. *)
Theorem orders_updatePaymentStatus_payment_only
  (u : User.t) (input : appRouter.UpdatePaymentInput) (w : World) (s : Store) :
  handle w = Some s ->
  resolves (appRouter.orders_updatePaymentStatus (as_user u) input w) tt
  /\ exists s',
       store_after (appRouter.orders_updatePaymentStatus (as_user u) input w) = Some s'
       /\ map Order.id (Table.rows (orders s')) = map Order.id (Table.rows (orders s))
       /\ map Order.userId (Table.rows (orders s'))
          = map Order.userId (Table.rows (orders s))
       /\ map Order.status (Table.rows (orders s'))
          = map Order.status (Table.rows (orders s))
       /\ map (fun r => (Order.subtotal r, Order.discountAmount r,
                         Order.deliveryCharge r, Order.totalAmount r))
              (Table.rows (orders s'))
          = map (fun r => (Order.subtotal r, Order.discountAmount r,
                           Order.deliveryCharge r, Order.totalAmount r))
                (Table.rows (orders s))
       /\ map Order.paymentStatus (Table.rows (orders s'))
          = map (fun r => if Order.id r =? appRouter.up_id input
                          then Some (appRouter.up_paymentStatus input)
                          else Order.paymentStatus r)
                (Table.rows (orders s))
       /\ map Order.paymentId (Table.rows (orders s'))
          = map (fun r => if Order.id r =? appRouter.up_id input
                          then match appRouter.up_paymentId input with
                               | Some (String c p) => Some (String c p)
                               | _ => Order.paymentId r
                               end
                          else Order.paymentId r)
                (Table.rows (orders s)).
Proof.
  intros H. rewrite (orders_updatePaymentStatus_available u input w s H).
  split; [eexists; reflexivity|].
  eexists. split; [reflexivity|].
  cbn [with_orders orders Table.rows Table.update].
  rewrite !map_map.
  repeat split; apply map_ext; intros r;
    destruct (Order.id r =? appRouter.up_id input); try reflexivity.
  destruct (appRouter.up_paymentId input) as [[|c p]|]; reflexivity.
Qed.

Lemma orders_updatePaymentStatus_payment_only_witness :
  resolves (appRouter.orders_updatePaymentStatus (as_user alice)
              (appRouter.mkUpdatePaymentInput 1 pay_failed (Some ""))
              (online (store_with_order delivered_order) 1700000000000)) tt.
Proof.
  exact (proj1 (orders_updatePaymentStatus_payment_only alice
                  (appRouter.mkUpdatePaymentInput 1 pay_failed (Some ""))
                  (online (store_with_order delivered_order) 1700000000000)
                  (store_with_order delivered_order) eq_refl)).
Defined.

(** X17.  [orderItems.create] followed by [orderItems.byOrderId]: the
    order's items are the items before followed by the new one, which
    carries the name, image, quantity and price exactly as supplied.  No
    order with that id needs to exist, and the items of other orders are
    as before. *)
Theorem orderItems_create_then_byOrderId
  (u : User.t) (input : db.OrderItemData) (other : Z) (w : World) (s : Store) :
  handle w = Some s ->
  other <> db.oi_orderId input ->
  exists id,
    resolves (appRouter.orderItems_create (as_user u) input w) id
    /\ resolves (appRouter.orderItems_byOrderId (as_user u) (db.oi_orderId input)
                   (world_of (appRouter.orderItems_create (as_user u) input w)))
                (items_of (db.oi_orderId input) s
                 ++ [OrderItem.mk id (db.oi_orderId input) (db.oi_productId input)
                       (db.oi_productName input) (db.oi_productImage input)
                       (db.oi_quantity input) (db.oi_price input)])
    /\ resolves (appRouter.orderItems_byOrderId (as_user u) other
                   (world_of (appRouter.orderItems_create (as_user u) input w)))
                (items_of other s).
Proof.
  intros H Hother.
  assert (Hread : forall o w0 s0, handle w0 = Some s0 ->
            appRouter.orderItems_byOrderId (as_user u) o w0
            = Resolved (items_of o s0) (set_db (Some s0) w0)).
  { intros o w0 s0 H0. unfold appRouter.orderItems_byOrderId, db.getOrderItems.
    run_procedure H0. reflexivity. }
  assert (Hrun :
            appRouter.orderItems_create (as_user u) input w
            = Resolved (Table.autoIncrement (orderItems s))
                (set_db
                   (Some (with_orderItems
                            (Table.mk
                               (Table.rows (orderItems s)
                                ++ [OrderItem.mk (Table.autoIncrement (orderItems s))
                                      (db.oi_orderId input) (db.oi_productId input)
                                      (db.oi_productName input)
                                      (db.oi_productImage input)
                                      (db.oi_quantity input) (db.oi_price input)])
                               (Table.autoIncrement (orderItems s) + 1))
                            s))
                   (set_db (Some s) w))).
  { unfold appRouter.orderItems_create, db.createOrderItem.
    run_procedure H. rewrite or_num_insertId. reflexivity. }
  rewrite Hrun. cbn [world_of].
  rewrite !(Hread _ _ _ (handle_set_db _ _)).
  exists (Table.autoIncrement (orderItems s)).
  split; [eexists; reflexivity|].
  unfold items_of; cbn [with_orderItems orderItems Table.rows].
  rewrite !filter_app. cbn [filter OrderItem.orderId].
  rewrite Z.eqb_refl.
  apply Z.eqb_neq in Hother. rewrite Z.eqb_sym in Hother. rewrite Hother.
  rewrite app_nil_r. split; eexists; reflexivity.
Qed.

Lemma orderItems_create_then_byOrderId_witness :
  exists id,
    resolves (appRouter.orderItems_create (as_user alice)
                (db.mkOrderItemData 99 1 "Rice" None 2 9900)
                (online empty_store 1700000000000)) id
    /\ resolves (appRouter.orderItems_byOrderId (as_user alice) 99
                   (world_of (appRouter.orderItems_create (as_user alice)
                                (db.mkOrderItemData 99 1 "Rice" None 2 9900)
                                (online empty_store 1700000000000))))
                (items_of 99 empty_store ++ [OrderItem.mk id 99 1 "Rice" None 2 9900]).
Proof.
  destruct (orderItems_create_then_byOrderId alice
              (db.mkOrderItemData 99 1 "Rice" None 2 9900) 5
              (online empty_store 1700000000000) empty_store eq_refl)
    as (id & H1 & H2 & _).
  - discriminate.
  - exists id. split; [exact H1|exact H2].
Defined.

(** ** Coupons, continued *)

(** X18.  [validateCoupon] only reads: the store is the same afterwards -
    in particular no usage count is raised.  A later validation of the
    same code and amount on that store gives the same answer, unless the
    coupon's expiry instant has been passed in between. *)
Theorem validateCoupon_reads_only
  (code : string) (orderAmount : Z) (w later : World) (s : Store) :
  handle w = Some s ->
  handle later = store_after (db.validateCoupon code orderAmount w) ->
  (forall c e, coupon_with_code code s = Some c ->
               Coupon.expiryDate c = Some e ->
               (e < clock w <-> e < clock later)) ->
  store_after (db.validateCoupon code orderAmount w) = Some s
  /\ exists answer,
       resolves (db.validateCoupon code orderAmount w) answer
       /\ resolves (db.validateCoupon code orderAmount later) answer.
Proof.
  intros H Hlater Hexp.
  rewrite (validateCoupon_available code orderAmount w s H) in *.
  cbn [world_of] in Hlater. unfold store_after in *. cbn [world_of] in *.
  rewrite handle_set_db in *. split; [reflexivity|].
  rewrite (validateCoupon_available code orderAmount later s Hlater).
  assert (Hsame : coupon_decision (clock later) orderAmount (coupon_with_code code s)
                  = coupon_decision (clock w) orderAmount (coupon_with_code code s)).
  { unfold coupon_decision.
    destruct (coupon_with_code code s) as [c|]; [|reflexivity].
    assert (He : db.expired (clock later) c = db.expired (clock w) c).
    { unfold db.expired. destruct (Coupon.expiryDate c) as [e|] eqn:E; [|reflexivity].
      specialize (Hexp c e eq_refl E).
      apply eq_true_iff_eq. rewrite !Z.ltb_lt. tauto. }
    now rewrite He. }
  rewrite Hsame. eexists. split; eexists; reflexivity.
Qed.

Lemma validateCoupon_reads_only_witness :
  store_after (db.validateCoupon "WELCOME" 22500
                 (online (store_with_coupon welcome_coupon) 1600000000000))
  = Some (store_with_coupon welcome_coupon).
Proof.
  refine (proj1 (validateCoupon_reads_only "WELCOME" 22500
                   (online (store_with_coupon welcome_coupon) 1600000000000)
                   (online (store_with_coupon welcome_coupon) 1650000000000)
                   (store_with_coupon welcome_coupon) eq_refl eq_refl _)).
  intros c e [= <-] [= <-]. cbn. lia.
Defined.

(** X19.  An answer "valid" can be relied on: the coupon returned is a
    stored coupon with the code asked for; it is active; its expiry date,
    if any, is not before the current time; its usage limit, if set and
    not zero, is above its usage count; and its minimum order amount, if
    set and not zero, is at most the order amount. *)
Theorem validateCoupon_valid_sound
  (code : string) (orderAmount : Z) (w : World) (s : Store) (c : Coupon.t) :
  handle w = Some s ->
  resolves (db.validateCoupon code orderAmount w) (db.Valid c) ->
  In c (Table.rows (coupons s))
  /\ Coupon.code c = code
  /\ Coupon.isActive c = Some true
  /\ (forall e, Coupon.expiryDate c = Some e -> clock w <= e)
  /\ (forall l, Coupon.usageLimit c = Some l -> l <> 0 ->
                Js.or_num (Coupon.usageCount c) 0 < l)
  /\ (forall m, Coupon.minOrderAmount c = Some m -> m <> 0 -> m <= orderAmount).
Proof.
  intros H [w' Hr]. rewrite (validateCoupon_available _ _ _ _ H) in Hr.
  injection Hr as Hr _. unfold coupon_decision in Hr.
  destruct (coupon_with_code code s) as [c0|] eqn:F; [|discriminate].
  destruct (Coupon.isActive c0) as [[|]|] eqn:A; cbn in Hr; try discriminate.
  destruct (db.expired (clock w) c0) eqn:E; [discriminate|].
  destruct (db.usage_exhausted c0) eqn:U; [discriminate|].
  destruct (db.below_minimum orderAmount c0) eqn:M; [discriminate|].
  injection Hr as <-.
  apply find_some in F. destruct F as [Hin Hc]. apply String.eqb_eq in Hc.
  repeat split; try assumption.
  - intros e He. unfold db.expired in E. rewrite He in E.
    apply Z.ltb_ge in E. exact E.
  - intros l Hl Hnz. unfold db.usage_exhausted, Js.truthy_num in U. rewrite Hl in U.
    apply Z.eqb_neq in Hnz. rewrite Hnz in U. cbn in U.
    apply Z.leb_gt in U. exact U.
  - intros m Hm Hnz. unfold db.below_minimum, Js.truthy_num in M. rewrite Hm in M.
    apply Z.eqb_neq in Hnz. rewrite Hnz in M. cbn in M.
    apply Z.ltb_ge in M. exact M.
Qed.

Lemma validateCoupon_valid_sound_witness :
  In welcome_coupon (Table.rows (coupons (store_with_coupon welcome_coupon)))
  /\ Coupon.code welcome_coupon = "WELCOME".
Proof.
  destruct (validateCoupon_valid_sound "WELCOME" 22500
              (online (store_with_coupon welcome_coupon) 1600000000000)
              (store_with_coupon welcome_coupon) welcome_coupon eq_refl)
    as (H1 & H2 & _).
  - eexists; reflexivity.
  - split; [exact H1|exact H2].
Defined.

(** X20.  Validation is monotone in the order amount: a coupon that is
    valid for an order amount is valid for every larger one. *)
Theorem validateCoupon_monotone_in_amount
  (code : string) (amount larger : Z) (w : World) (s : Store) (c : Coupon.t) :
  handle w = Some s ->
  amount <= larger ->
  resolves (db.validateCoupon code amount w) (db.Valid c) ->
  resolves (db.validateCoupon code larger w) (db.Valid c).
Proof.
  intros H Hle [w' Hr].
  rewrite (validateCoupon_available code amount w s H) in Hr.
  rewrite (validateCoupon_available code larger w s H).
  injection Hr as Hr _. unfold coupon_decision in *.
  destruct (coupon_with_code code s) as [c0|]; [|discriminate].
  destruct (negb (Js.truthy_opt_bool (Coupon.isActive c0))); [discriminate|].
  destruct (db.expired (clock w) c0); [discriminate|].
  destruct (db.usage_exhausted c0); [discriminate|].
  destruct (db.below_minimum amount c0) eqn:M; [discriminate|].
  assert (M' : db.below_minimum larger c0 = false).
  { unfold db.below_minimum in *. destruct (Coupon.minOrderAmount c0) as [m|]; [|reflexivity].
    destruct (Js.truthy_num m); [|reflexivity]. cbn in *.
    apply Z.ltb_ge in M. apply Z.ltb_ge. lia. }
  rewrite M'. injection Hr as <-. eexists; reflexivity.
Qed.

Lemma validateCoupon_monotone_in_amount_witness :
  resolves (db.validateCoupon "WELCOME" 50000
              (online (store_with_coupon welcome_coupon) 1600000000000))
           (db.Valid welcome_coupon).
Proof.
  apply (validateCoupon_monotone_in_amount "WELCOME" 20000 50000
           (online (store_with_coupon welcome_coupon) 1600000000000)
           (store_with_coupon welcome_coupon) welcome_coupon eq_refl).
  - lia.
  - eexists; reflexivity.
Defined.

(** X21.  The expiry comparison is strict: at the very instant of its
    expiry date a coupon is not yet reported as expired, and at any later
    instant an (existing, active) coupon is. *)
Theorem validateCoupon_expiry_is_strict
  (code : string) (orderAmount : Z) (w : World) (s : Store)
  (c : Coupon.t) (e : Z) :
  handle w = Some s ->
  coupon_with_code code s = Some c ->
  Coupon.isActive c = Some true ->
  Coupon.expiryDate c = Some e ->
  (clock w <= e ->
   ~ resolves (db.validateCoupon code orderAmount w) (db.Invalid "Coupon expired"))
  /\ (e < clock w ->
      resolves (db.validateCoupon code orderAmount w) (db.Invalid "Coupon expired")).
Proof.
  intros H Hc Ha He.
  rewrite (validateCoupon_available _ _ _ _ H), Hc.
  unfold coupon_decision, db.expired. rewrite Ha, He. cbn [Js.truthy_opt_bool negb].
  split; intros Hle.
  - apply Z.ltb_ge in Hle. rewrite Hle. intros [w' Hr].
    destruct (db.usage_exhausted c); [discriminate|].
    destruct (db.below_minimum orderAmount c); discriminate.
  - apply Z.ltb_lt in Hle. rewrite Hle. eexists; reflexivity.
Qed.

Lemma validateCoupon_expiry_is_strict_witness :
  ~ resolves (db.validateCoupon "WELCOME" 22500
                (online (store_with_coupon welcome_coupon) 1700000000000))
             (db.Invalid "Coupon expired").
Proof.
  refine (proj1 (validateCoupon_expiry_is_strict "WELCOME" 22500
                   (online (store_with_coupon welcome_coupon) 1700000000000)
                   (store_with_coupon welcome_coupon) welcome_coupon 1700000000000
                   eq_refl eq_refl eq_refl eq_refl) _).
  cbn. lia.
Defined.

(** X22.  A rejection does not turn into an acceptance by waiting: on the
    same store, a coupon that is not valid now - not found, inactive,
    expired, used up or below the minimum - is not valid at any later
    time, and an expired coupon is still reported as expired. *)
Theorem validateCoupon_rejection_is_permanent
  (code : string) (orderAmount : Z) (w later : World) (s : Store) (message : string) :
  handle w = Some s ->
  handle later = Some s ->
  clock w <= clock later ->
  resolves (db.validateCoupon code orderAmount w) (db.Invalid message) ->
  (exists message', resolves (db.validateCoupon code orderAmount later)
                             (db.Invalid message'))
  /\ (message = "Coupon expired" ->
      resolves (db.validateCoupon code orderAmount later) (db.Invalid "Coupon expired")).
Proof.
  intros H H' Hle [w' Hr].
  rewrite (validateCoupon_available _ _ _ _ H) in Hr.
  rewrite (validateCoupon_available _ _ _ _ H').
  injection Hr as Hr _. unfold coupon_decision in *.
  destruct (coupon_with_code code s) as [c|].
  2:{ split; [eexists; eexists; reflexivity|]. intros ->. discriminate. }
  destruct (negb (Js.truthy_opt_bool (Coupon.isActive c))).
  { split; [eexists; eexists; reflexivity|]. intros ->. discriminate. }
  assert (Hexp : db.expired (clock w) c = true -> db.expired (clock later) c = true).
  { unfold db.expired. destruct (Coupon.expiryDate c) as [e|]; [|discriminate].
    rewrite !Z.ltb_lt. lia. }
  destruct (db.expired (clock w) c).
  { rewrite (Hexp eq_refl). split; [eexists|intros _]; eexists; reflexivity. }
  destruct (db.expired (clock later) c).
  { split; [eexists; eexists; reflexivity|].
    intros ->. destruct (db.usage_exhausted c); [discriminate|].
    destruct (db.below_minimum orderAmount c); discriminate. }
  destruct (db.usage_exhausted c).
  { split; [eexists; eexists; reflexivity|]. intros ->. discriminate. }
  destruct (db.below_minimum orderAmount c); [|discriminate].
  split; [eexists; eexists; reflexivity|]. intros ->. discriminate.
Qed.

Lemma validateCoupon_rejection_is_permanent_witness :
  resolves (db.validateCoupon "SAVE10" 22500
              (online (store_with_coupon stale_coupon) 1800000000000))
           (db.Invalid "Coupon expired").
Proof.
  refine (proj2 (validateCoupon_rejection_is_permanent "SAVE10" 22500
                   (online (store_with_coupon stale_coupon) 1700000000000)
                   (online (store_with_coupon stale_coupon) 1800000000000)
                   (store_with_coupon stale_coupon) "Coupon expired"
                   eq_refl eq_refl _ _) eq_refl).
  - cbn. lia.
  - eexists; reflexivity.
Defined.

(** ** Categories, reviews and addresses *)

Lemma find_unique_slug (l : list Category.t) (x : Category.t) :
  NoDup (map Category.slug l) -> In x l ->
  find (fun r => String.eqb (Category.slug r) (Category.slug x)) l = Some x.
Proof.
  induction l as [|r l IH]; simpl; intros Hnd Hin; [contradiction|].
  inversion Hnd as [|? ? Hr Hl]; subst.
  destruct Hin as [->|Hin]; [now rewrite String.eqb_refl|].
  destruct (String.eqb_spec (Category.slug r) (Category.slug x)) as [E|E];
    [|now apply IH].
  exfalso. apply Hr. rewrite E. now apply in_map.
Qed.

(** X23.  [categories.list] returns the active categories, all of them and
    only them.  [categories.bySlug] does not look at the flag: when slugs
    are distinct every stored category, withdrawn ones included, is found
    under its slug; a slug that no category has gives no result. *)
Theorem categories_list_and_bySlug (ctx : appRouter.Context) (w : World) (s : Store) :
  handle w = Some s ->
  (exists l,
     resolves (appRouter.categories_list ctx tt w) l
     /\ forall c, In c l <->
                  In c (Table.rows (categories s)) /\ Category.isActive c = true)
  /\ (NoDup (map Category.slug (Table.rows (categories s))) ->
      forall c, In c (Table.rows (categories s)) ->
                resolves (appRouter.categories_bySlug ctx (Category.slug c) w) (Some c))
  /\ (forall slug,
        (forall c, In c (Table.rows (categories s)) -> Category.slug c <> slug) ->
        resolves (appRouter.categories_bySlug ctx slug w) None).
Proof.
  intros H.
  assert (Hrun : forall slug,
            appRouter.categories_bySlug ctx slug w
            = Resolved (find (fun r => String.eqb (Category.slug r) slug)
                             (Table.rows (categories s)))
                       (set_db (Some s) w)).
  { intros slug. unfold appRouter.categories_bySlug, db.getCategoryBySlug.
    run_procedure H. now rewrite first_limit_select. }
  split; [|split].
  - unfold appRouter.categories_list, db.getCategories. run_procedure H.
    eexists. split; [eexists; reflexivity|].
    intros c. unfold Table.select. apply filter_In.
  - intros Hnd c Hin. rewrite Hrun, (find_unique_slug _ c Hnd Hin).
    eexists; reflexivity.
  - intros slug Hnone. rewrite Hrun.
    destruct (find _ (Table.rows (categories s))) as [c|] eqn:F;
      [|eexists; reflexivity].
    apply find_some in F. destruct F as [Hin E]. apply String.eqb_eq in E.
    exfalso. exact (Hnone c Hin E).
Qed.

Lemma categories_list_and_bySlug_witness :
  resolves (appRouter.categories_bySlug anonymous "toys"
              (online (store_with_categories [groceries; withdrawn_toys]) 1700000000000))
           (Some withdrawn_toys).
Proof.
  refine (proj1 (proj2 (categories_list_and_bySlug anonymous
                          (online (store_with_categories [groceries; withdrawn_toys])
                                  1700000000000)
                          (store_with_categories [groceries; withdrawn_toys]) eq_refl))
                _ withdrawn_toys _).
  - repeat constructor; simpl; intuition discriminate.
  - right; left; reflexivity.
Defined.

(** X24.  [reviews.create] with a rating from 1 to 5 stores a review owned
    by the caller and marked unverified, which [reviews.byProductId] then
    returns at the end of the product's reviews.  With a rating outside 1
    to 5 the call is rejected and nothing is stored. *)
Theorem reviews_create_then_byProductId
  (u : User.t) (ctx : appRouter.Context) (input : appRouter.ReviewCreateInput)
  (w : World) (s : Store) :
  handle w = Some s ->
  (1 <= appRouter.rc_rating input <= 5 ->
   exists id,
     resolves (appRouter.reviews_create (as_user u) input w) id
     /\ resolves (appRouter.reviews_byProductId ctx (appRouter.rc_productId input)
                    (world_of (appRouter.reviews_create (as_user u) input w)))
                 (reviews_of (appRouter.rc_productId input) s
                  ++ [Review.mk id (appRouter.rc_productId input) (User.id u)
                        (appRouter.rc_rating input) (appRouter.rc_title input)
                        (appRouter.rc_comment input) (Some false)]))
  /\ (~ 1 <= appRouter.rc_rating input <= 5 ->
      rejects (appRouter.reviews_create (as_user u) input w) "BAD_REQUEST"
      /\ store_after (appRouter.reviews_create (as_user u) input w) = Some s).
Proof.
  intros H. split; intros Hr.
  - assert (Hb : (1 <=? appRouter.rc_rating input)
                 && (appRouter.rc_rating input <=? 5) = true).
    { apply andb_true_iff. split; apply Z.leb_le; lia. }
    assert (Hrun :
              appRouter.reviews_create (as_user u) input w
              = Resolved (Table.autoIncrement (reviews s))
                  (set_db
                     (Some (with_reviews
                              (Table.mk
                                 (Table.rows (reviews s)
                                  ++ [Review.mk (Table.autoIncrement (reviews s))
                                        (appRouter.rc_productId input) (User.id u)
                                        (appRouter.rc_rating input)
                                        (appRouter.rc_title input)
                                        (appRouter.rc_comment input) (Some false)])
                                 (Table.autoIncrement (reviews s) + 1))
                              s))
                     (set_db (Some s) w))).
    { unfold appRouter.reviews_create, db.createReview.
      cbv beta iota delta [appRouter.protectedProcedure as_user appRouter.user].
      rewrite Hb. run_procedure H. rewrite or_num_insertId. reflexivity. }
    rewrite Hrun. cbn [world_of].
    exists (Table.autoIncrement (reviews s)).
    split; [eexists; reflexivity|].
    unfold appRouter.reviews_byProductId, db.getProductReviews.
    cbv beta iota delta [bind appRouter.publicProcedure].
    rewrite (getDb_available _ _ (handle_set_db _ _)).
    unfold reviews_of, Table.select; cbn [with_reviews reviews Table.rows ret].
    rewrite filter_app. cbn [filter Review.productId]. rewrite Z.eqb_refl.
    eexists; reflexivity.
  - assert (Hb : (1 <=? appRouter.rc_rating input)
                 && (appRouter.rc_rating input <=? 5) = false).
    { apply andb_false_iff.
      destruct (Z.leb_spec 1 (appRouter.rc_rating input)); [right|left; reflexivity].
      apply Z.leb_gt. lia. }
    unfold appRouter.reviews_create.
    cbv beta iota delta [appRouter.protectedProcedure as_user appRouter.user].
    rewrite Hb. split; [eexists; reflexivity|exact H].
Qed.

Lemma reviews_create_then_byProductId_witness :
  rejects (appRouter.reviews_create (as_user alice)
             (appRouter.mkReviewCreateInput 1 6 None None)
             (online empty_store 1700000000000)) "BAD_REQUEST".
Proof.
  refine (proj1 (proj2 (reviews_create_then_byProductId alice anonymous
                          (appRouter.mkReviewCreateInput 1 6 None None)
                          (online empty_store 1700000000000) empty_store eq_refl) _)).
  cbn. lia.
Defined.

Lemma addresses_list_available (u : User.t) (w : World) (s : Store) :
  handle w = Some s ->
  appRouter.addresses_list (as_user u) tt w
  = Resolved (addresses_of (User.id u) s) (set_db (Some s) w).
Proof.
  intros H. unfold appRouter.addresses_list, db.getUserAddresses.
  run_procedure H. reflexivity.
Qed.

(** X25.  [addresses.add] followed by [addresses.list]: the caller's list
    is the list before followed by the new address, which is owned by the
    caller, carries the fields supplied, has country "India", and is the
    default address only if the input says so. *)
Theorem addresses_add_then_list
  (u : User.t) (input : appRouter.AddressAddInput) (w : World) (s : Store) :
  handle w = Some s ->
  exists id row,
    resolves (appRouter.addresses_add (as_user u) input w) id
    /\ resolves (appRouter.addresses_list (as_user u) tt
                   (world_of (appRouter.addresses_add (as_user u) input w)))
                (addresses_of (User.id u) s ++ [row])
    /\ Address.id row = id
    /\ Address.userId row = User.id u
    /\ Address.type row = Some (appRouter.aa_type input)
    /\ Address.fullName row = appRouter.aa_fullName input
    /\ Address.phoneNumber row = appRouter.aa_phoneNumber input
    /\ Address.addressLine1 row = appRouter.aa_addressLine1 input
    /\ Address.addressLine2 row = appRouter.aa_addressLine2 input
    /\ Address.city row = appRouter.aa_city input
    /\ Address.state row = appRouter.aa_state input
    /\ Address.postalCode row = appRouter.aa_postalCode input
    /\ Address.country row = Some "India"
    /\ Address.isDefault row = Some (db.or_else (appRouter.aa_isDefault input) false).
Proof.
  intros H.
  assert (Hrun :
            appRouter.addresses_add (as_user u) input w
            = Resolved (Table.autoIncrement (addresses s))
                (set_db
                   (Some (with_addresses
                            (Table.mk
                               (Table.rows (addresses s)
                                ++ [db.address_of_data
                                      (db.mkAddressData (User.id u)
                                         (appRouter.aa_type input)
                                         (appRouter.aa_fullName input)
                                         (appRouter.aa_phoneNumber input)
                                         (appRouter.aa_addressLine1 input)
                                         (appRouter.aa_addressLine2 input)
                                         (appRouter.aa_city input)
                                         (appRouter.aa_state input)
                                         (appRouter.aa_postalCode input)
                                         (appRouter.aa_isDefault input))
                                      (Table.autoIncrement (addresses s))])
                               (Table.autoIncrement (addresses s) + 1))
                            s))
                   (set_db (Some s) w))).
  { unfold appRouter.addresses_add, db.addAddress.
    run_procedure H. rewrite or_num_insertId. reflexivity. }
  rewrite Hrun. cbn [world_of].
  rewrite (addresses_list_available u _ _ (handle_set_db _ _)).
  eexists _, _. split; [eexists; reflexivity|].
  split.
  - unfold addresses_of; cbn [with_addresses addresses Table.rows].
    rewrite filter_app.
    cbn [filter db.address_of_data Address.userId db.ad_userId].
    rewrite Z.eqb_refl. eexists; reflexivity.
  - repeat split; reflexivity.
Qed.

Lemma addresses_add_then_list_witness :
  exists id row,
    resolves (appRouter.addresses_add (as_user alice)
                (appRouter.mkAddressAddInput addr_work "Alice" "5550101" "2 High St"
                   None "Mumbai" "MH" "400001" None)
                (online (store_with_addresses [bobs_home]) 1700000000000)) id
    /\ resolves (appRouter.addresses_list (as_user alice) tt
                   (world_of
                      (appRouter.addresses_add (as_user alice)
                         (appRouter.mkAddressAddInput addr_work "Alice" "5550101"
                            "2 High St" None "Mumbai" "MH" "400001" None)
                         (online (store_with_addresses [bobs_home]) 1700000000000))))
                (addresses_of (User.id alice) (store_with_addresses [bobs_home])
                 ++ [row])
    /\ Address.isDefault row = Some false.
Proof.
  destruct (addresses_add_then_list alice
              (appRouter.mkAddressAddInput addr_work "Alice" "5550101" "2 High St"
                 None "Mumbai" "MH" "400001" None)
              (online (store_with_addresses [bobs_home]) 1700000000000)
              (store_with_addresses [bobs_home]) eq_refl)
    as (id & row & H1 & H2 & H3).
  exists id, row. split; [exact H1|]. split; [exact H2|].
  exact (proj2 (proj2 (proj2 (proj2 (proj2 (proj2 (proj2 (proj2 (proj2
           (proj2 (proj2 H3))))))))))).
Defined.

Lemma supplies_a_field_values (data : db.AddressPatch) :
  supplies_a_field data = true -> db.no_values data = false.
Proof.
  unfold supplies_a_field, db.no_values.
  destruct (db.ap_type data), (db.ap_fullName data), (db.ap_phoneNumber data),
    (db.ap_addressLine1 data), (db.ap_addressLine2 data), (db.ap_city data),
    (db.ap_state data), (db.ap_postalCode data), (db.ap_isDefault data);
    intros E; (reflexivity || discriminate E).
Qed.

(** X26.  [addresses.update], given at least one field, is a partial
    update by id: in every address
    with the given id each supplied field replaces the stored one and each
    field left out keeps its stored value, while id, owner and country
    never change.  Addresses with another id are unchanged - making one
    address the default does not unset the flag on the others - and an id
    that no address has makes the call a successful no-op. *)
Theorem addresses_update_is_partial
  (u : User.t) (id : Z) (data : db.AddressPatch) (w : World) (s : Store) :
  handle w = Some s ->
  supplies_a_field data = true ->
  resolves (appRouter.addresses_update (as_user u) (id, data) w) tt
  /\ exists s',
       store_after (appRouter.addresses_update (as_user u) (id, data) w) = Some s'
       /\ (exists change,
             Table.rows (addresses s')
             = map (fun r => if Address.id r =? id then change r else r)
                   (Table.rows (addresses s))
             /\ forall r,
                  Address.id (change r) = Address.id r
                  /\ Address.userId (change r) = Address.userId r
                  /\ Address.country (change r) = Address.country r
                  /\ Address.type (change r)
                     = db.keep (db.ap_type data) (Address.type r)
                  /\ Address.fullName (change r)
                     = db.or_else (db.ap_fullName data) (Address.fullName r)
                  /\ Address.phoneNumber (change r)
                     = db.or_else (db.ap_phoneNumber data) (Address.phoneNumber r)
                  /\ Address.addressLine1 (change r)
                     = db.or_else (db.ap_addressLine1 data) (Address.addressLine1 r)
                  /\ Address.addressLine2 (change r)
                     = db.keep (db.ap_addressLine2 data) (Address.addressLine2 r)
                  /\ Address.city (change r)
                     = db.or_else (db.ap_city data) (Address.city r)
                  /\ Address.state (change r)
                     = db.or_else (db.ap_state data) (Address.state r)
                  /\ Address.postalCode (change r)
                     = db.or_else (db.ap_postalCode data) (Address.postalCode r)
                  /\ Address.isDefault (change r)
                     = db.keep (db.ap_isDefault data) (Address.isDefault r))
       /\ (forall r, In r (Table.rows (addresses s)) -> Address.id r <> id ->
                     In r (Table.rows (addresses s')))
       /\ ((forall r, In r (Table.rows (addresses s)) -> Address.id r <> id) ->
           Table.rows (addresses s') = Table.rows (addresses s)).
Proof.
  intros H Hdata. apply supplies_a_field_values in Hdata.
  assert (Hrun :
            appRouter.addresses_update (as_user u) (id, data) w
            = Resolved tt
                (set_db
                   (Some (with_addresses
                            (Table.update (fun r => Address.id r =? id)
                                          (db.patch_address data) (addresses s))
                            s))
                   (set_db (Some s) w))).
  { unfold appRouter.addresses_update, db.updateAddress.
    run_procedure H. cbn [fst snd]. rewrite Hdata. reflexivity. }
  rewrite Hrun. split; [eexists; reflexivity|].
  eexists. split; [reflexivity|].
  cbn [with_addresses addresses Table.rows Table.update].
  split; [|split].
  - exists (db.patch_address data). split; [reflexivity|].
    intros r. repeat split; reflexivity.
  - intros r Hin Hid. apply in_map_iff. exists r. split; [|exact Hin].
    apply Z.eqb_neq in Hid. now rewrite Hid.
  - intros Hnone. rewrite <- (map_id (Table.rows (addresses s))) at 2.
    apply map_ext_in. intros r Hin.
    destruct (Z.eqb_spec (Address.id r) id) as [E|E]; [|reflexivity].
    exfalso. exact (Hnone r Hin E).
Qed.

Lemma addresses_update_is_partial_witness :
  resolves (appRouter.addresses_update (as_user bob) (1, move_to_delhi)
              (online (store_with_addresses [bobs_home]) 1700000000000)) tt.
Proof.
  exact (proj1 (addresses_update_is_partial bob 1 move_to_delhi
                  (online (store_with_addresses [bobs_home]) 1700000000000)
                  (store_with_addresses [bobs_home]) eq_refl eq_refl)).
Defined.

(** ** The database handle *)

(** X27.  [getDb] connects once: after a call that returned a handle, the
    handle is kept in the module, and later calls return the same store
    without looking at [DATABASE_URL] again - whatever it has become -
    and without writing to the console. *)
Theorem getDb_connects_once (w : World) (s : Store) (url : DatabaseUrl) :
  handle w = Some s ->
  resolves (db.getDb w) (Some s)
  /\ _db (world_of (db.getDb w)) = Some s
  /\ resolves (db.getDb (set_DATABASE_URL url (world_of (db.getDb w)))) (Some s)
  /\ console (world_of (db.getDb (set_DATABASE_URL url (world_of (db.getDb w)))))
     = console w.
Proof.
  intros H. rewrite (getDb_available w s H). cbn [world_of].
  split; [eexists; reflexivity|]. split; [reflexivity|].
  split; [eexists; reflexivity|reflexivity].
Qed.

Lemma getDb_connects_once_witness :
  resolves (db.getDb (set_DATABASE_URL Unset
                        (world_of (db.getDb (online empty_store 1700000000000)))))
           (Some empty_store).
Proof.
  exact (proj1 (proj2 (proj2 (getDb_connects_once (online empty_store 1700000000000)
                                empty_store Unset eq_refl)))).
Defined.

(** X28.  A failed connection is not remembered: while [DATABASE_URL]
    cannot be connected to, every call of [getDb] tries again, returns
    [null] and writes one more warning to the console; a read such as
    [getCategories] then returns the empty list, each time. *)
Theorem getDb_retries_after_failure (w : World) :
  _db w = None ->
  DATABASE_URL w = Unreachable ->
  resolves (db.getDb w) None
  /\ console (world_of (db.getDb w)) = console w ++ ["[Database] Failed to connect:"]
  /\ _db (world_of (db.getDb w)) = None
  /\ DATABASE_URL (world_of (db.getDb w)) = Unreachable
  /\ resolves (db.getCategories (world_of (db.getCategories w))) []
  /\ console (world_of (db.getCategories (world_of (db.getCategories w))))
     = console w ++ ["[Database] Failed to connect:"; "[Database] Failed to connect:"].
Proof.
  intros Hdb Hurl.
  unfold db.getCategories, bind, db.getDb. rewrite Hdb, Hurl. cbn.
  rewrite Hurl. cbn. rewrite <- app_assoc.
  repeat split; try reflexivity; eexists; reflexivity.
Qed.

Lemma getDb_retries_after_failure_witness :
  console (world_of (db.getDb unreachable)) = ["[Database] Failed to connect:"].
Proof.
  exact (proj1 (proj2 (getDb_retries_after_failure unreachable eq_refl eq_refl))).
Defined.

(** ** The discounted price, continued *)

(** Multiplying by 1 is exact. *)
Lemma SFmul_one (mx : positive) (ex : Z) :
  SpecFloat.bounded prec emax mx ex = true ->
  SF64mul (S754_finite false mx ex) (S754_finite false 4503599627370496 (-52))
  = S754_finite false mx ex.
Proof.
  intros Hb.
  unfold SpecFloat.bounded, SpecFloat.canonical_mantissa in Hb.
  apply andb_true_iff in Hb. destruct Hb as [Hcan Hex].
  apply Z.eqb_eq in Hcan. apply Z.leb_le in Hex.
  rewrite fexp64 in Hcan. change (emax - prec) with 971 in Hex.
  pose proof (digits2_pos_upper mx) as Hxu.
  pose proof (digits2_pos_lower mx) as Hxl.
  set (dx := Zpos (SpecFloat.digits2_pos mx)) in *.
  assert (Hdx : 1 <= dx) by (unfold dx; lia).
  unfold SF64mul, SpecFloat.SFmul. cbn [xorb].
  assert (HM : Zpos (mx * 4503599627370496) = Zpos mx * 2 ^ 52) by reflexivity.
  assert (HdM : SpecFloat.Zdigits2 (Zpos (mx * 4503599627370496)) = dx + 52).
  { cbn [SpecFloat.Zdigits2].
    assert (Hpx : 0 < 2 ^ (dx - 1)) by (apply Z.pow_pos_nonneg; lia).
    assert (Hu : Zpos (SpecFloat.digits2_pos (mx * 4503599627370496)) <= dx + 52).
    { apply digits2_pos_le; [lia|]. rewrite HM, Z.pow_add_r by lia. nia. }
    assert (Hl : dx + 51 < Zpos (SpecFloat.digits2_pos (mx * 4503599627370496))).
    { apply digits2_pos_gt; [lia|]. rewrite HM.
      replace (dx + 51) with ((dx - 1) + 52) by lia.
      rewrite Z.pow_add_r by lia. nia. }
    lia. }
  destruct (binary_round_aux_exact (Zpos (mx * 4503599627370496)) (ex + -52))
    as (r1 & _ & _ & Hr1 & Hbra); [lia|].
  rewrite Hbra. clear Hbra. cbv zeta.
  rewrite HdM in *. rewrite !fexp64 in *.
  replace (Z.max 0 (Z.max (dx + 52 + (ex + -52) - 53) (-1074) - (ex + -52)))
    with 52 in * by lia.
  rewrite HM in Hr1.
  rewrite Z.mod_mul, Z.div_mul in Hr1 by lia. specialize (Hr1 eq_refl). subst r1.
  cbn [SpecFloat.Zdigits2]. fold dx.
  replace (ex + -52 + 52) with ex by lia.
  replace (Z.max 0 (Z.max (dx + ex - 53) (-1074) - ex)) with 0 by lia.
  change (2 ^ 0) with 1. rewrite Z.div_1_r, Z.add_0_r.
  change (emax - prec) with 971. apply Z.leb_le in Hex. now rewrite Hex.
Qed.

(** X29.  At the ends of the range the discount is exact: for every
    integer price from 0 up to 2^53, a discount of 0 percent returns the
    price itself and a discount of 100 percent returns 0. *)
Theorem getDiscountedPrice_endpoints (price : Z) :
  0 <= price < 2 ^ 53 ->
  HomeScreen.getDiscountedPrice (HomeScreen.number_of_int price) (HomeScreen.number_of_int 0) = HomeScreen.number_of_int price
  /\ HomeScreen.getDiscountedPrice (HomeScreen.number_of_int price) (HomeScreen.number_of_int 100) = 0%float.
Proof.
  intros Hp. unfold HomeScreen.getDiscountedPrice.
  pose proof (Prim2SF_valid (HomeScreen.number_of_int price)) as Hv.
  assert (H1 : Prim2SF (1 - HomeScreen.number_of_int 0 / 100)%float
               = S754_finite false 4503599627370496 (-52)) by (vm_compute; reflexivity).
  assert (H0 : Prim2SF (1 - HomeScreen.number_of_int 100 / 100)%float = S754_zero false)
    by (vm_compute; reflexivity).
  split; apply Prim2SF_inj; rewrite mul_spec.
  - rewrite H1.
    destruct (Prim2SF_number_of_int price Hp) as [Hx|(mx & ex & Hx)]; rewrite Hx in *.
    + reflexivity.
    + now apply SFmul_one.
  - rewrite H0. change (Prim2SF 0) with (S754_zero false).
    destruct (Prim2SF_number_of_int price Hp) as [Hx|(mx & ex & Hx)]; rewrite Hx;
      reflexivity.
Qed.

Lemma getDiscountedPrice_endpoints_witness :
  HomeScreen.getDiscountedPrice (HomeScreen.number_of_int 999)
                                (HomeScreen.number_of_int 100) = 0%float.
Proof.
  refine (proj2 (getDiscountedPrice_endpoints 999 _)).
  split; [discriminate|reflexivity].
Defined.
